(** * Secure voting system: a shallow embedding of the Flask application

    The development follows the layout of the repository:
    - [PyStr]        the [str] builtins the handlers call ([strip], [lower],
                     truthiness), on strings of code points below 256;
    - [User], [Campaign], [Candidate], [Vote]
                     the rows of [models/user_model.py] and
                     [models/vote_model.py], with the methods of [User];
    - the handlers of [app.py] as functions from a database, a session and a
      request to an [Outcome] (new database, new session, flashed notices,
      response).

    Third-party code is taken as an interface: werkzeug's password hashing
    ([PasswordHasher]), the Fernet cipher with the UTF-8 codec ([Cipher]),
    Python's [int] and the integer affinity of the SQL engine ([IntParser]). *)

From Stdlib Require Import String Ascii List Bool ZArith NArith Lia Sorted.
Import ListNotations.

Open Scope string_scope.
Open Scope Z_scope.

(** ** Python string builtins

    A [str] is a [string] whose characters are read as the code points
    0..255; ids and timestamps are integers. *)

Module PyStr.

(** [str.isspace] on one character, for code points below 256:
    U+0009..U+000D, U+001C..U+0020, U+0085 and U+00A0. *)
Definition isspace (c : ascii) : bool :=
  let n := N_of_ascii c in
  (((9 <=? n) && (n <=? 13)) || ((28 <=? n) && (n <=? 32))
   || (n =? 133) || (n =? 160))%N.

Fixpoint lstrip (s : string) : string :=
  match s with
  | EmptyString => EmptyString
  | String c s' => if isspace c then lstrip s' else s
  end.

Fixpoint rstrip (s : string) : string :=
  match s with
  | EmptyString => EmptyString
  | String c s' =>
      match rstrip s' with
      | EmptyString => if isspace c then EmptyString else String c EmptyString
      | r => String c r
      end
  end.

(** [s.strip()] *)
Definition strip (s : string) : string := rstrip (lstrip s).

(** [str.lower] on one character, for code points below 256: A..Z and
    U+00C0..U+00DE (U+00D7 apart) move up by 32. *)
Definition lower_char (c : ascii) : ascii :=
  let n := N_of_ascii c in
  if (((65 <=? n) && (n <=? 90))
      || ((192 <=? n) && (n <=? 222) && negb (n =? 215)))%N
  then ascii_of_N (n + 32) else c.

Fixpoint lower (s : string) : string :=
  match s with
  | EmptyString => EmptyString
  | String c s' => String (lower_char c) (lower s')
  end.

(** Truth value of a [str]: the empty string is false. *)
Definition truthy (s : string) : bool :=
  match s with EmptyString => false | String _ _ => true end.

(** Truth value of a [str | None]. *)
Definition truthy_opt (o : option string) : bool :=
  match o with None => false | Some s => truthy s end.

(** [x or None] for a string [x]. *)
Definition or_None (s : string) : option string :=
  if truthy s then Some s else None.

End PyStr.

(** ** werkzeug.security *)

(** [generate_password_hash] draws a random salt; the salt is an explicit
  argument here. *)
Class PasswordHasher : Type := {
  generate_password_hash : string -> string -> string;
  check_password_hash : string -> string -> bool
}.

(** The contract the application relies on: a hash checks against the
  password it was derived from and no other, and is never the empty
  string (werkzeug's hashes read [method$salt$digest]). *)
Definition hasher_sound (H : PasswordHasher) : Prop :=
  (forall salt p q,
    check_password_hash (generate_password_hash salt p) q = String.eqb p q)
  /\ (forall salt p, generate_password_hash salt p <> "").

(** ** models/user_model.py

    [security_key_hash] is the one nullable column the code reads;
    [is_admin] is written by every path that creates a user and is a
    plain boolean here. *)

Module User.

Record t : Type := mk {
  id : Z;
  username : string;
  email : string;
  password_hash : string;
  is_admin : bool;
  security_key_hash : option string;
  created_at : Z
  }.

Definition with_password_hash (h : string) (u : t) : t :=
  mk (id u) (username u) (email u) h (is_admin u) (security_key_hash u)
     (created_at u).

Definition with_is_admin (b : bool) (u : t) : t :=
  mk (id u) (username u) (email u) (password_hash u) b (security_key_hash u)
     (created_at u).

Definition with_security_key_hash (h : option string) (u : t) : t :=
  mk (id u) (username u) (email u) (password_hash u) (is_admin u) h
     (created_at u).

Section Methods.
Context {H : PasswordHasher}.

Definition set_password (salt : string) (password : string) (u : t) : t :=
    with_password_hash (generate_password_hash salt password) u.

Definition check_password (u : t) (password : string) : bool :=
    check_password_hash (password_hash u) password.

Definition set_security_key (salt : string) (security_key : option string)
             (u : t) : t :=
    match security_key with
    | Some k =>
        if PyStr.truthy k
        then with_security_key_hash
               (Some (generate_password_hash salt (PyStr.strip k))) u
        else with_security_key_hash None u
    | None => with_security_key_hash None u
    end.

Definition verify_security_key (u : t) (security_key : option string)
    : bool :=
    match security_key with
    | Some k =>
        if negb (PyStr.truthy k)
           || negb (PyStr.truthy_opt (security_key_hash u))
        then false
        else match security_key_hash u with
             | Some h => check_password_hash h (PyStr.strip k)
             | None => false
             end
    | None => false
    end.
End Methods.

End User.


(** ** models/vote_model.py *)

Module Campaign.

Record t : Type := mk {
  id : Z;
  name : string;
  description : option string;
  is_active : bool;
  start_at : option Z;
  end_at : option Z;
  created_at : Z
}.

Definition with_is_active (b : bool) (c : t) : t :=
  mk (id c) (name c) (description c) b (start_at c) (end_at c) (created_at c).

(** The three assignments of the [update] action. *)
Definition updated (n : string) (d : option string) (b : bool) (c : t) : t :=
  mk (id c) n d b (start_at c) (end_at c) (created_at c).

End Campaign.

Module Candidate.

Record t : Type := mk {
  id : Z;
  name : string;
  manifesto : option string;
  campaign_id : Z
}.

Definition with_name (n : string) (c : t) : t :=
  mk (id c) n (manifesto c) (campaign_id c).

Definition with_manifesto (m : option string) (c : t) : t :=
  mk (id c) (name c) m (campaign_id c).

Definition with_campaign_id (k : Z) (c : t) : t :=
  mk (id c) (name c) (manifesto c) k.

End Candidate.

Module Vote.

Record t : Type := mk {
  id : Z;
  timestamp : Z;
  user_id : Z;
  candidate_id : Z;
  campaign_id : Z;
  encrypted_choice : option string
}.

End Vote.

(** ** The database

    A table is the list of its rows in insertion order.  The schema's
    constraints (primary keys, [unique=True] on [users.email]) are the
    predicate [db_wf]; foreign keys are not enforced, as with the default
    SQLite connection. *)

Record Db : Type := mkDb {
  users : list User.t;
  campaigns : list Campaign.t;
  candidates : list Candidate.t;
  votes : list Vote.t
}.

Definition with_users (us : list User.t) (d : Db) : Db :=
  mkDb us (campaigns d) (candidates d) (votes d).

Definition with_campaigns (cs : list Campaign.t) (d : Db) : Db :=
  mkDb (users d) cs (candidates d) (votes d).

Definition with_candidates (cs : list Candidate.t) (d : Db) : Db :=
  mkDb (users d) (campaigns d) cs (votes d).

Definition with_votes (vs : list Vote.t) (d : Db) : Db :=
  mkDb (users d) (campaigns d) (candidates d) vs.

Record db_wf (d : Db) : Prop := {
  users_pk : NoDup (map User.id (users d));
  users_email_unique : NoDup (map User.email (users d));
  campaigns_pk : NoDup (map Campaign.id (campaigns d));
  candidates_pk : NoDup (map Candidate.id (candidates d));
  votes_pk : NoDup (map Vote.id (votes d))
}.

(** The id given to a new row: 1 in an empty table, otherwise one more
    than the largest id in use. *)
Definition next_id (ids : list Z) : Z :=
  match ids with
  | [] => 1
  | i :: rest => fold_left Z.max rest i + 1
  end.

(** [Model.query.get(ident)] with an integer identity. *)
Definition get_user (d : Db) (i : Z) : option User.t :=
  find (fun u => User.id u =? i) (users d).

Definition get_campaign (d : Db) (i : Z) : option Campaign.t :=
  find (fun c => Campaign.id c =? i) (campaigns d).

Definition get_candidate (d : Db) (i : Z) : option Candidate.t :=
  find (fun c => Candidate.id c =? i) (candidates d).

(** Attribute assignments on a loaded row reach the table through the
    row's primary key. *)
Definition update_user (i : Z) (f : User.t -> User.t) (us : list User.t)
  : list User.t :=
  map (fun u => if User.id u =? i then f u else u) us.

Definition update_campaign (i : Z) (f : Campaign.t -> Campaign.t)
           (cs : list Campaign.t) : list Campaign.t :=
  map (fun c => if Campaign.id c =? i then f c else c) cs.

Definition update_candidate (i : Z) (f : Candidate.t -> Candidate.t)
           (cs : list Candidate.t) : list Candidate.t :=
  map (fun c => if Candidate.id c =? i then f c else c) cs.

(** [User.query.filter_by(email=email).first()] *)
Definition user_by_email (d : Db) (e : string) : option User.t :=
  find (fun u => String.eqb (User.email u) e) (users d).

(** [Campaign.query.filter_by(name=name).first()] *)
Definition campaign_by_name (d : Db) (n : string) : option Campaign.t :=
  find (fun c => String.eqb (Campaign.name c) n) (campaigns d).

(** The relationship [campaign.votes]. *)
Definition campaign_votes (d : Db) (c : Campaign.t) : list Vote.t :=
  filter (fun v => Vote.campaign_id v =? Campaign.id c) (votes d).

(** The relationship [campaign.candidates]. *)
Definition campaign_candidates (d : Db) (c : Campaign.t) : list Candidate.t :=
  filter (fun k => Candidate.campaign_id k =? Campaign.id c) (candidates d).

(** [Vote.query.filter_by(user_id=u, campaign_id=c).first()] *)
Definition existing_vote (d : Db) (u c : Z) : option Vote.t :=
  find (fun v => (Vote.user_id v =? u) && (Vote.campaign_id v =? c)) (votes d).

Definition mem_id (i : Z) (ids : list Z) : bool :=
  existsb (fun j => j =? i) ids.

(** [db.session.delete(user)]: [User.votes] cascades. *)
Definition delete_user (u : User.t) (d : Db) : Db :=
  mkDb (filter (fun x => negb (User.id x =? User.id u)) (users d))
       (campaigns d)
       (candidates d)
       (filter (fun v => negb (Vote.user_id v =? User.id u)) (votes d)).

(** [db.session.delete(candidate)]: [Candidate.votes] cascades. *)
Definition delete_candidate (c : Candidate.t) (d : Db) : Db :=
  mkDb (users d)
       (campaigns d)
       (filter (fun x => negb (Candidate.id x =? Candidate.id c)) (candidates d))
       (filter (fun v => negb (Vote.candidate_id v =? Candidate.id c)) (votes d)).

(** [db.session.delete(campaign)]: [Campaign.candidates] and
    [Campaign.votes] cascade, and each removed candidate takes its own
    votes along. *)
Definition delete_campaign (c : Campaign.t) (d : Db) : Db :=
  let gone := map Candidate.id (campaign_candidates d c) in
  mkDb (users d)
       (filter (fun x => negb (Campaign.id x =? Campaign.id c)) (campaigns d))
       (filter (fun k => negb (Candidate.campaign_id k =? Campaign.id c))
               (candidates d))
       (filter (fun v => negb (Vote.campaign_id v =? Campaign.id c)
                         && negb (mem_id (Vote.candidate_id v) gone))
               (votes d)).

(** [order_by(created_at.desc())]: rows with equal keys keep their order. *)
Fixpoint insert_desc {A} (key : A -> Z) (x : A) (l : list A) : list A :=
  match l with
  | [] => [x]
  | y :: l' => if key x <? key y then y :: insert_desc key x l' else x :: l
  end.

Definition order_by_desc {A} (key : A -> Z) (l : list A) : list A :=
  fold_right (insert_desc key) [] l.


(** ** Exceptions *)

(** The exceptions the modelled calls raise; each is a subclass of
    Python's [Exception]. *)
Inductive exception : Type :=
| InvalidToken
| UnicodeDecodeError
| TypeError
| ValueError
| IntegrityError.

Inductive result (A : Type) : Type :=
| Ok (a : A)
| Raise (e : exception).

Arguments Ok {A} a.
Arguments Raise {A} e.

Definition bind {A B} (r : result A) (k : A -> result B) : result B :=
  match r with
  | Ok a => k a
  | Raise e => Raise e
  end.

Notation "x <- r ;; k" := (bind r (fun x => k))
  (at level 61, r at next level, right associativity).

(** [try: body  except Exception: handler] *)
Definition try_except {A} (body : result A) (handler : exception -> result A)
  : result A :=
  match body with
  | Ok a => Ok a
  | Raise e => handler e
  end.

(** ** cryptography.fernet and the UTF-8 codec *)

(** [Fernet(key).encrypt] reads the clock and draws a random IV; both are
    the explicit [nonce] argument.  [str_encode] is total: the strings of
    this model hold no lone surrogate. *)
Class Cipher : Type := {
  bytes : Type;
  str_encode : string -> bytes;
  bytes_decode : bytes -> result string;
  fernet_encrypt : string -> string -> bytes -> bytes;
  fernet_decrypt : string -> bytes -> result bytes
}.

(** The contract the application relies on: decryption under the key that
    encrypted returns the message; UTF-8 decoding inverts encoding; a
    token is non-empty ASCII text, so that it decodes to a [str] that
    encodes back to itself. *)
Definition cipher_sound (C : Cipher) : Prop :=
  (forall key nonce m, fernet_decrypt key (fernet_encrypt key nonce m) = Ok m)
  /\ (forall s, bytes_decode (str_encode s) = Ok s)
  /\ (forall key nonce m,
         exists t, bytes_decode (fernet_encrypt key nonce m) = Ok t
                   /\ str_encode t = fernet_encrypt key nonce m
                   /\ t <> "").

(** ** Integers read from text *)

(** [py_int] is Python's [int(s)], [None] standing for [ValueError];
    [sql_integer] is the integer the SQL engine compares an INTEGER column
    with when the query parameter is the text [s], [None] when the text
    matches no integer. *)
Class IntParser : Type := {
  py_int : string -> option Z;
  sql_integer : string -> option Z
}.

(** ** config.py *)

Module Config.

Definition DEFAULT_ENCRYPTION_KEY : string :=
  "VVJNb1dxSnkzMWk2RUwzUElFbXplMTAyMWlBVDh5R2g=".

(** [os.environ.get("ENCRYPTION_KEY", default)] *)
Definition ENCRYPTION_KEY (environ : string -> option string) : string :=
  match environ "ENCRYPTION_KEY" with
  | Some v => v
  | None => DEFAULT_ENCRYPTION_KEY
  end.

End Config.

(** ** Requests and responses *)

Inductive Method : Type := GET | POST | HEAD.

Definition is_POST (m : Method) : bool :=
  match m with POST => true | _ => false end.

(** [request.form] and [request.args]: the first value of a key wins. *)
Record Request : Type := mkRequest {
  method : Method;
  form : list (string * string);
  args : list (string * string)
}.

Fixpoint multidict_get (k : string) (m : list (string * string))
  : option string :=
  match m with
  | [] => None
  | (k', v) :: m' => if String.eqb k' k then Some v else multidict_get k m'
  end.

(** [m.get(k, default)] *)
Definition get_default (k : string) (default : string)
           (m : list (string * string)) : string :=
  match multidict_get k m with
  | Some v => v
  | None => default
  end.

Inductive Category : Type := success | info | warning | danger.

(** What a view function returns.  [redirect e c] is
    [redirect(url_for(e, campaign_id=c))], [redirect_to u] is [redirect(u)],
    [render_template t] is [render_template(t, ...)]; the template context
    is left out.  [NotFound] is the 404 of [get_or_404], [Unauthorized]
    the answer of the login manager to an anonymous caller,
    [ServerError e] an exception that leaves the view. *)
Inductive Response : Type :=
| redirect (endpoint : string) (campaign_id : option Z)
| redirect_to (url : string)
| render_template (template : string)
| NotFound
| Unauthorized
| ServerError (e : exception).

(** The state after a request: committed database, id of the logged-in
    user, the notices flashed by this request (oldest first), response. *)
Record Outcome : Type := mkOutcome {
  db : Db;
  session : option Z;
  flashes : list (string * Category);
  response : Response
}.

(** [load_user] applied to the id stored in the session. *)
Definition current_user (d : Db) (sess : option Z) : option User.t :=
  match sess with
  | Some i => get_user d i
  | None => None
  end.

Definition is_authenticated (d : Db) (sess : option Z) : bool :=
  match current_user d sess with Some _ => true | None => false end.

(** [@login_required] *)
Definition login_required (d : Db) (sess : option Z)
           (view : User.t -> Outcome) : Outcome :=
  match current_user d sess with
  | Some u => view u
  | None => mkOutcome d sess [] Unauthorized
  end.

(** [admin_required], which wraps [login_required]. *)
Definition admin_required (d : Db) (sess : option Z)
           (view : User.t -> Outcome) : Outcome :=
  login_required d sess (fun u =>
    if negb (User.is_admin u)
    then mkOutcome d sess [("Admin access required.", danger)]
                   (redirect "index" None)
    else view u).


(** ** app.py *)

Section App.

Context {hasher : PasswordHasher} {cipher_lib : Cipher} {parser : IntParser}.

(** [os.environ] when the application is created. *)
Variable environ : string -> option string.

Definition primary_email : string := "1@gmail.com".

(** [Model.query.get(ident)] when [ident] is the raw text of a form field
    (or [None]). *)
Definition get_by_text {A} (get : Z -> option A) (raw : option string)
  : option A :=
  match raw with
  | Some s =>
      match sql_integer s with
      | Some i => get i
      | None => None
      end
  | None => None
  end.

Definition opt_eqb (o : option string) (s : string) : bool :=
  match o with
  | Some v => String.eqb v s
  | None => false
  end.

(** *** Bootstrap *)

(** Returns the database and whether [db.session.commit()] was called. *)
Definition enforce_primary_admin (d : Db) : Db * bool :=
  match user_by_email d primary_email with
  | None => (d, false)
  | Some primary_user =>
      let non_primary_admins :=
        filter (fun u => negb (String.eqb (User.email u) primary_email)
                         && User.is_admin u)
               (users d) in
      let '(us, changes) :=
        fold_left
          (fun '(us, _) user =>
             (update_user (User.id user) (User.with_is_admin false) us, true))
          non_primary_admins (users d, false) in
      let '(us, changes) :=
        if negb (User.is_admin primary_user)
        then (update_user (User.id primary_user) (User.with_is_admin true) us,
              true)
        else (us, changes) in
      (with_users us d, changes)
  end.

(** *** Vote encryption *)

Definition encrypt_choice (nonce : string) (candidate_name : string)
  : result string :=
  bytes_decode
    (fernet_encrypt (Config.ENCRYPTION_KEY environ) nonce
                    (str_encode candidate_name)).

Definition decrypt_choice (token : option string) : result (option string) :=
  match token with
  | None => Ok None
  | Some t =>
      if negb (PyStr.truthy t) then Ok None
      else
        try_except
          (b <- fernet_decrypt (Config.ENCRYPTION_KEY environ) (str_encode t) ;;
           s <- bytes_decode b ;;
           Ok (Some s))
          (fun _ => Ok None)
  end.

(** *** Identity and session handling *)

Definition index (d : Db) (sess : option Z) : Outcome :=
  match current_user d sess with
  | Some u =>
      if User.is_admin u
      then mkOutcome d sess [] (redirect "admin_voters" None)
      else mkOutcome d sess [] (redirect "user_dashboard" None)
  | None => mkOutcome d sess [] (redirect "login" None)
  end.

(** The list [errors] of [signup]. *)
Definition signup_errors (d : Db)
           (username email password security_key : string) : list string :=
  (if negb (PyStr.truthy username) || negb (PyStr.truthy email)
      || negb (PyStr.truthy password)
   then ["All fields are required."] else [])
  ++ (match user_by_email d email with
      | Some _ => ["Email is already registered."]
      | None => []
      end)
  ++ (if negb (String.eqb email primary_email)
         && negb (PyStr.truthy security_key)
      then ["Security key is required for voters."] else []).

(** [now] is the server clock; [salt_pw] and [salt_key] are the salts of
    the two calls to [generate_password_hash]. *)
Definition signup (d : Db) (sess : option Z) (req : Request)
           (now : Z) (salt_pw salt_key : string) : Outcome :=
  if is_authenticated d sess
  then mkOutcome d sess [] (redirect "index" None)
  else if is_POST (method req) then
    let username := PyStr.strip (get_default "username" "" (form req)) in
    let email :=
      PyStr.lower (PyStr.strip (get_default "email" "" (form req))) in
    let password := get_default "password" "" (form req) in
    let security_key :=
      PyStr.strip (get_default "security_key" "" (form req)) in
    let is_primary_admin := String.eqb email primary_email in
    match signup_errors d username email password security_key with
    | [] =>
        let user :=
          User.mk (next_id (map User.id (users d))) username email ""
                  false None now in
        let user := User.with_is_admin is_primary_admin user in
        let user := User.set_password salt_pw password user in
        let user :=
          if is_primary_admin
          then User.set_security_key salt_key None user
          else User.set_security_key salt_key (Some security_key) user in
        mkOutcome (with_users (users d ++ [user]) d) sess
                  [("Account created. Please log in.", success)]
                  (redirect "login" None)
    | errors =>
        mkOutcome d sess (map (fun err => (err, danger)) errors)
                  (render_template "signup.html")
    end
  else mkOutcome d sess [] (render_template "signup.html").

(** The body of [if user and user.check_password(password)]: the value
    returned from inside it, if any, and the notices it flashed. *)
Definition login_attempt (d : Db) (sess : option Z) (req : Request)
           (user : option User.t) (password security_key : string)
  : option Outcome * list (string * Category) :=
  match user with
  | Some user =>
      if User.check_password user password then
        if negb (User.is_admin user)
           && negb (User.verify_security_key user (Some security_key))
        then (None, [("Invalid security key.", danger)])
        else
          let response :=
            match multidict_get "next" (args req) with
            | Some next_page =>
                if PyStr.truthy next_page then redirect_to next_page
                else if User.is_admin user then redirect "admin_voters" None
                else redirect "user_dashboard" None
            | None =>
                if User.is_admin user then redirect "admin_voters" None
                else redirect "user_dashboard" None
            end in
          (Some (mkOutcome d (Some (User.id user))
                           [("Welcome back!", success)] response), [])
      else (None, [])
  | None => (None, [])
  end.

Definition login (d : Db) (sess : option Z) (req : Request) : Outcome :=
  if is_authenticated d sess
  then mkOutcome d sess [] (redirect "index" None)
  else if is_POST (method req) then
    let email :=
      PyStr.lower (PyStr.strip (get_default "email" "" (form req))) in
    let password := get_default "password" "" (form req) in
    let security_key :=
      PyStr.strip (get_default "security_key" "" (form req)) in
    let user := user_by_email d email in
    match login_attempt d sess req user password security_key with
    | (Some returned, _) => returned
    | (None, flashed) =>
        mkOutcome d sess
                  (flashed ++ [("Invalid email or password.", danger)])
                  (render_template "login.html")
    end
  else mkOutcome d sess [] (render_template "login.html").

Definition logout (d : Db) (sess : option Z) : Outcome :=
  login_required d sess (fun _ =>
    mkOutcome d None [("You have been logged out.", info)]
              (redirect "login" None)).

(** *** Voter-facing flows *)

Definition user_dashboard (d : Db) (sess : option Z) : Outcome :=
  login_required d sess (fun cu =>
    if User.is_admin cu
    then mkOutcome d sess [] (redirect "admin_voters" None)
    else mkOutcome d sess [] (render_template "user_dashboard.html")).

(** The route accepts POST only and converts the path segment to the
    integer [candidate_id]; [now] is [datetime.utcnow()], [nonce] the
    randomness of the cipher. *)
Definition cast_vote (d : Db) (sess : option Z) (req : Request)
           (candidate_id : Z) (now : Z) (nonce : string) : Outcome :=
  login_required d sess (fun cu =>
    if User.is_admin cu
    then mkOutcome d sess [("Admins cannot vote.", warning)]
                   (redirect "admin_voters" None)
    else
      let security_key :=
        PyStr.strip (get_default "security_key" "" (form req)) in
      if negb (User.verify_security_key cu (Some security_key))
      then mkOutcome d sess [("Security key mismatch.", danger)]
                     (redirect "user_dashboard" None)
      else
        match get_candidate d candidate_id with
        | None => mkOutcome d sess [] NotFound
        | Some candidate =>
            match get_campaign d (Candidate.campaign_id candidate) with
            | None =>
                mkOutcome d sess
                          [("This campaign is not accepting votes.", warning)]
                          (redirect "user_dashboard" None)
            | Some campaign =>
                if negb (Campaign.is_active campaign)
                then mkOutcome d sess
                       [("This campaign is not accepting votes.", warning)]
                       (redirect "user_dashboard" None)
                else
                  match existing_vote d (User.id cu) (Campaign.id campaign) with
                  | Some _ =>
                      mkOutcome d sess
                        [("You have already voted in this campaign.", info)]
                        (redirect "user_dashboard" None)
                  | None =>
                      match encrypt_choice nonce (Candidate.name candidate) with
                      | Raise e => mkOutcome d sess [] (ServerError e)
                      | Ok token =>
                          let vote :=
                            Vote.mk (next_id (map Vote.id (votes d))) now
                                    (User.id cu) (Candidate.id candidate)
                                    (Campaign.id campaign) (Some token) in
                          mkOutcome (with_votes (votes d ++ [vote]) d) sess
                            [("Vote submitted successfully!", success)]
                            (redirect "user_dashboard" None)
                      end
                  end
            end
        end).


(** *** Administrative console *)

Definition admin_dashboard (d : Db) (sess : option Z) : Outcome :=
  admin_required d sess (fun _ =>
    mkOutcome d sess [] (render_template "admin_dashboard.html")).

Definition admin_voters (d : Db) (sess : option Z) (req : Request) : Outcome :=
  admin_required d sess (fun cu =>
    if is_POST (method req) then
      let action := multidict_get "action" (form req) in
      let user_id := multidict_get "user_id" (form req) in
      match get_by_text (get_user d) user_id with
      | None => mkOutcome d sess [] NotFound
      | Some target =>
          if User.id target =? User.id cu
          then mkOutcome d sess [("You cannot modify your own role.", warning)]
                         (redirect "admin_voters" None)
          else if opt_eqb action "toggle_admin"
          then mkOutcome
                 (with_users
                    (update_user (User.id target)
                       (User.with_is_admin (negb (User.is_admin target)))
                       (users d)) d)
                 sess [("User role updated.", success)]
                 (render_template "admin_voters.html")
          else if opt_eqb action "delete"
          then mkOutcome (delete_user target d) sess
                         [("User deleted.", info)]
                         (render_template "admin_voters.html")
          else mkOutcome d sess [] (render_template "admin_voters.html")
      end
    else mkOutcome d sess [] (render_template "admin_voters.html")).

(** [now] is the server clock, the [created_at] of a new campaign. *)
Definition admin_campaigns (d : Db) (sess : option Z) (req : Request)
           (now : Z) : Outcome :=
  admin_required d sess (fun _ =>
    if is_POST (method req) then
      let action := multidict_get "action" (form req) in
      let name := PyStr.strip (get_default "name" "" (form req)) in
      let description := PyStr.strip (get_default "description" "" (form req)) in
      let is_active := opt_eqb (multidict_get "is_active" (form req)) "on" in
      let campaign_id :=
        match multidict_get "campaign_id" (form req) with
        | Some raw => if PyStr.truthy raw then py_int raw else None
        | None => None
        end in
      let back := redirect "admin_campaigns" None in
      if opt_eqb action "create" then
        if negb (PyStr.truthy name)
        then mkOutcome d sess [("Campaign name is required.", danger)] back
        else match campaign_by_name d name with
             | Some _ =>
                 mkOutcome d sess [("Campaign name must be unique.", danger)]
                           back
             | None =>
                 let campaign :=
                   Campaign.mk (next_id (map Campaign.id (campaigns d))) name
                               (PyStr.or_None description) is_active None None
                               now in
                 mkOutcome (with_campaigns (campaigns d ++ [campaign]) d) sess
                           [("Campaign created.", success)] back
             end
      else
        match match campaign_id with
              | Some i => get_campaign d i
              | None => None
              end with
        | None => mkOutcome d sess [] NotFound
        | Some campaign =>
            if opt_eqb action "update" then
              if negb (PyStr.truthy name)
              then mkOutcome d sess [("Campaign name cannot be empty.", danger)]
                             back
              else if existsb
                        (fun c => String.eqb (Campaign.name c) name
                                  && negb (Campaign.id c =? Campaign.id campaign))
                        (campaigns d)
              then mkOutcome d sess [] (ServerError IntegrityError)
              else mkOutcome
                     (with_campaigns
                        (update_campaign (Campaign.id campaign)
                           (Campaign.updated name (PyStr.or_None description)
                                             is_active)
                           (campaigns d)) d)
                     sess [("Campaign updated.", success)] back
            else if opt_eqb action "toggle_active" then
              let active := negb (Campaign.is_active campaign) in
              mkOutcome
                (with_campaigns
                   (update_campaign (Campaign.id campaign)
                      (Campaign.with_is_active active) (campaigns d)) d)
                sess
                [(if active then "Campaign activated." else "Campaign paused.",
                  info)]
                back
            else if opt_eqb action "delete" then
              match campaign_votes d campaign with
              | _ :: _ =>
                  mkOutcome d sess
                    [("Cannot delete a campaign that already has votes recorded.",
                      danger)]
                    back
              | [] =>
                  mkOutcome (delete_campaign campaign d) sess
                            [("Campaign deleted.", info)] back
              end
            else mkOutcome d sess [] back
        end
    else mkOutcome d sess [] (render_template "admin_campaigns.html")).

(** [selected_campaign_id]: the query parameter when it names one of the
    campaigns, else the id of the first campaign of the listing. *)
Definition selected_campaign (req : Request) (first : Campaign.t)
           (listing : list Campaign.t) : Z :=
  match match multidict_get "campaign_id" (args req) with
        | Some raw => py_int raw
        | None => None
        end with
  | Some i =>
      if mem_id i (map Campaign.id listing) then i else Campaign.id first
  | None => Campaign.id first
  end.

Definition admin_candidates (d : Db) (sess : option Z) (req : Request)
  : Outcome :=
  admin_required d sess (fun _ =>
    match order_by_desc Campaign.created_at (campaigns d) with
    | [] =>
        mkOutcome d sess
                  [("Create a campaign before adding candidates.", warning)]
                  (redirect "admin_campaigns" None)
    | first :: rest =>
        let selected_campaign_id := selected_campaign req first (first :: rest) in
        if is_POST (method req) then
          let action := multidict_get "action" (form req) in
          let name := PyStr.strip (get_default "name" "" (form req)) in
          let manifesto := PyStr.strip (get_default "manifesto" "" (form req)) in
          let candidate_id := multidict_get "candidate_id" (form req) in
          let campaign_id :=
            match multidict_get "campaign_id" (form req) with
            | Some raw =>
                if PyStr.truthy raw
                then match py_int raw with
                     | Some i => i
                     | None => selected_campaign_id
                     end
                else selected_campaign_id
            | None => selected_campaign_id
            end in
          let back := redirect "admin_candidates" (Some campaign_id) in
          if opt_eqb action "create" then
            if negb (PyStr.truthy name)
            then mkOutcome d sess [("Candidate name is required.", danger)] back
            else if campaign_id =? 0
            then mkOutcome d sess
                           [("Select a campaign for this candidate.", danger)]
                           back
            else
              let candidate :=
                Candidate.mk (next_id (map Candidate.id (candidates d))) name
                             (PyStr.or_None manifesto) campaign_id in
              mkOutcome (with_candidates (candidates d ++ [candidate]) d) sess
                        [("Candidate added.", success)] back
          else
            match get_by_text (get_candidate d) candidate_id with
            | None => mkOutcome d sess [] NotFound
            | Some candidate =>
                if opt_eqb action "update" then
                  if negb (PyStr.truthy name)
                  then mkOutcome d sess [("Name cannot be empty.", danger)] back
                  else
                    let assign (c : Candidate.t) :=
                      let c := Candidate.with_name name c in
                      let c :=
                        Candidate.with_manifesto (PyStr.or_None manifesto) c in
                      if negb (campaign_id =? 0)
                      then Candidate.with_campaign_id campaign_id c
                      else c in
                    mkOutcome
                      (with_candidates
                         (update_candidate (Candidate.id candidate) assign
                                           (candidates d)) d)
                      sess [("Candidate updated.", success)] back
                else if opt_eqb action "delete" then
                  mkOutcome (delete_candidate candidate d) sess
                            [("Candidate removed.", info)] back
                else mkOutcome d sess [] back
            end
        else mkOutcome d sess [] (render_template "admin_candidates.html")
    end).

End App.


(** ** app.py: the rest of the bootstrap

    The schema alterations ([ensure_campaign_table], the [ALTER TABLE] of
    the [ensure_*_column] functions) do nothing on a database that has the
    declared tables and columns; what follows is the bootstrap on such a
    database, where [campaign_id] is never NULL and the rows a backfill
    selects are those with [campaign_id = 0]. *)

Definition DEFAULT_CAMPAIGN_NAME : string := "General Election".

Definition vote_with_campaign_id (k : Z) (v : Vote.t) : Vote.t :=
  Vote.mk (Vote.id v) (Vote.timestamp v) (Vote.user_id v) (Vote.candidate_id v)
          k (Vote.encrypted_choice v).

Definition update_vote (i : Z) (f : Vote.t -> Vote.t) (vs : list Vote.t)
  : list Vote.t :=
  map (fun v => if Vote.id v =? i then f v else v) vs.

(** [now] is the server clock, the [created_at] of a new campaign. *)
Definition ensure_default_campaign (d : Db) (now : Z) : Db * Campaign.t :=
  match campaign_by_name d DEFAULT_CAMPAIGN_NAME with
  | Some campaign => (d, campaign)
  | None =>
      let campaign :=
        Campaign.mk (next_id (map Campaign.id (campaigns d)))
                    DEFAULT_CAMPAIGN_NAME
                    (Some "Default campaign created automatically.") true
                    None None now in
      (with_campaigns (campaigns d ++ [campaign]) d, campaign)
  end.

Definition ensure_candidate_campaign_column (default_campaign_id : Z) (d : Db)
  : Db :=
  let candidates_needing_update :=
    filter (fun c => Candidate.campaign_id c =? 0) (candidates d) in
  with_candidates
    (fold_left
       (fun rows candidate =>
          update_candidate (Candidate.id candidate)
                           (Candidate.with_campaign_id default_campaign_id) rows)
       candidates_needing_update (candidates d))
    d.

(** The campaign the backfill gives [vote]: that of [vote.candidate] when
    the candidate exists and has one, else the default campaign. *)
Definition backfilled_campaign (d : Db) (default_campaign_id : Z)
           (vote : Vote.t) : Z :=
  match get_candidate d (Vote.candidate_id vote) with
  | Some candidate =>
      if Candidate.campaign_id candidate =? 0 then default_campaign_id
      else Candidate.campaign_id candidate
  | None => default_campaign_id
  end.

Definition ensure_vote_campaign_column (default_campaign_id : Z) (d : Db)
  : Db :=
  let votes_needing_update :=
    filter (fun v => Vote.campaign_id v =? 0) (votes d) in
  with_votes
    (fold_left
       (fun rows vote =>
          update_vote (Vote.id vote)
            (vote_with_campaign_id
               (backfilled_campaign d default_campaign_id vote))
            rows)
       votes_needing_update (votes d))
    d.

Definition ensure_campaign_infrastructure (d : Db) (now : Z)
  : Db * Campaign.t :=
  let '(d, default_campaign) := ensure_default_campaign d now in
  let d := ensure_candidate_campaign_column (Campaign.id default_campaign) d in
  let d := ensure_vote_campaign_column (Campaign.id default_campaign) d in
  (d, default_campaign).

(** [db.session.add(Candidate(...))] followed by the flush. *)
Definition add_candidate (name manifesto : string) (campaign : Campaign.t)
           (d : Db) : Db :=
  with_candidates
    (candidates d
     ++ [Candidate.mk (next_id (map Candidate.id (candidates d))) name
                      (Some manifesto) (Campaign.id campaign)])
    d.

Definition seed_candidates (campaign : Campaign.t) (d : Db) : Db :=
  let d := add_candidate "Alice Johnson" "Transparency and trust." campaign d in
  let d := add_candidate "Brian Smith" "Innovation in voting." campaign d in
  add_candidate "Carla Ruiz" "Community-first approach." campaign d.

Definition setup (d : Db) (now : Z) : Db :=
  let '(d, default_campaign) := ensure_campaign_infrastructure d now in
  let d :=
    match candidates d with
    | [] => seed_candidates default_campaign d
    | _ :: _ => d
    end in
  fst (enforce_primary_admin d).

(** ** app.py: the figures of the admin dashboard *)

(** The count of the outer join of [admin_dashboard] for one candidate:
    the votes whose [candidate_id] is the candidate's id. *)
Definition tally (d : Db) (candidate : Candidate.t) : nat :=
  length (filter (fun v => Vote.candidate_id v =? Candidate.id candidate)
                 (votes d)).

(** [candidate_totals] for one campaign, in table order. *)
Definition candidate_totals (d : Db) (campaign : Campaign.t)
  : list (Candidate.t * nat) :=
  map (fun candidate => (candidate, tally d candidate))
      (campaign_candidates d campaign).

(** ** The routes

    One request to the application: the view that the URL map selects,
    with what the view reads besides the database and the session (the
    form, the clock, the randomness of the libraries). *)

Inductive Call : Type :=
| call_index
| call_signup (req : Request) (now : Z) (salt_pw salt_key : string)
| call_login (req : Request)
| call_logout
| call_user_dashboard
| call_cast_vote (req : Request) (candidate_id now : Z) (nonce : string)
| call_admin_dashboard
| call_admin_voters (req : Request)
| call_admin_campaigns (req : Request) (now : Z)
| call_admin_candidates (req : Request).

Section Server.

Context {hasher : PasswordHasher} {cipher_lib : Cipher} {parser : IntParser}.
Variable environ : string -> option string.

Definition serve (d : Db) (sess : option Z) (c : Call) : Outcome :=
  match c with
  | call_index => index d sess
  | call_signup req now salt_pw salt_key =>
      signup d sess req now salt_pw salt_key
  | call_login req => login d sess req
  | call_logout => logout d sess
  | call_user_dashboard => user_dashboard d sess
  | call_cast_vote req candidate_id now nonce =>
      cast_vote environ d sess req candidate_id now nonce
  | call_admin_dashboard => admin_dashboard d sess
  | call_admin_voters req => admin_voters d sess req
  | call_admin_campaigns req now => admin_campaigns d sess req now
  | call_admin_candidates req => admin_candidates d sess req
  end.

(** The database after a sequence of requests, each sent with the
    session of its client. *)
Fixpoint serve_all (d : Db) (calls : list (option Z * Call)) : Db :=
  match calls with
  | [] => d
  | (sess, c) :: rest => serve_all (db (serve d sess c)) rest
  end.

End Server.

(** ** Reference instances of the interfaces

    Small executable stand-ins for the third-party libraries.  They show
    that the contracts above can be met and let the handlers run on
    concrete requests. *)

Module Reference.

(** A hash that shows its password and ignores the salt. *)
#[local] Instance hasher : PasswordHasher := {
  generate_password_hash _ p := "plain$" ++ p;
  check_password_hash h q := String.eqb h ("plain$" ++ q)
}.

(** [strip_prefix p s] is [Some r] when [s = p ++ r]. *)
Fixpoint strip_prefix (p s : string) : option string :=
  match p, s with
  | EmptyString, _ => Some s
  | String a p', String b s' =>
      if Ascii.eqb a b then strip_prefix p' s' else None
  | String _ _, EmptyString => None
  end.

(** A cipher whose token is a version mark, the key and the message. *)
#[local] Instance cipher : Cipher := {
  bytes := string;
  str_encode s := s;
  bytes_decode b := Ok b;
  fernet_encrypt key _ m := "g" ++ key ++ m;
  fernet_decrypt key tok :=
    match strip_prefix ("g" ++ key) tok with
    | Some m => Ok m
    | None => Raise InvalidToken
    end
}.

Definition digit (c : ascii) : option Z :=
  let n := N_of_ascii c in
  if ((48 <=? n) && (n <=? 57))%N then Some (Z.of_N n - 48) else None.

Fixpoint decimal_from (acc : Z) (s : string) : option Z :=
  match s with
  | EmptyString => Some acc
  | String c s' =>
      match digit c with
      | Some v => decimal_from (10 * acc + v) s'
      | None => None
      end
  end.

(** Unsigned decimal numerals only. *)
Definition decimal (s : string) : option Z :=
  match s with
  | EmptyString => None
  | _ => decimal_from 0 s
  end.

#[local] Instance parser : IntParser := {
  py_int := decimal;
  sql_integer := decimal
}.

Definition environ : string -> option string := fun _ => None.

End Reference.

(** ** Vocabulary of the properties *)

(** What [enforce_primary_admin] makes of a row when the primary admin
    exists. *)
Definition normalized (u : User.t) : User.t :=
  User.with_is_admin (String.eqb (User.email u) primary_email) u.

(** The votes of user [u] in campaign [c]. *)
Definition votes_of (d : Db) (u c : Z) : list Vote.t :=
  filter (fun v => (Vote.user_id v =? u) && (Vote.campaign_id v =? c)) (votes d).

Definition one_vote_per_campaign (d : Db) : Prop :=
  forall u c, (length (votes_of d u c) <= 1)%nat.

(** A request to [cast_vote] that passes every check before the one for
    an earlier vote: [cu] is the caller, no admin, with the right security
    key; [candidate] is the row of the path's id and [campaign] its
    campaign, which is active. *)
Definition admissible {H : PasswordHasher} (d : Db) (sess : option Z)
           (req : Request) (candidate_id : Z)
           (cu : User.t) (candidate : Candidate.t) (campaign : Campaign.t)
  : Prop :=
  current_user d sess = Some cu
  /\ User.is_admin cu = false
  /\ User.verify_security_key cu
       (Some (PyStr.strip (get_default "security_key" "" (form req)))) = true
  /\ get_candidate d candidate_id = Some candidate
  /\ get_campaign d (Candidate.campaign_id candidate) = Some campaign
  /\ Campaign.is_active campaign = true.

(** The row [cast_vote] inserts. *)
Definition new_vote (d : Db) (now : Z) (cu : User.t) (candidate : Candidate.t)
           (campaign : Campaign.t) (token : string) : Vote.t :=
  Vote.mk (next_id (map Vote.id (votes d))) now (User.id cu)
          (Candidate.id candidate) (Campaign.id campaign) (Some token).

(** Every vote points to a user, a candidate and a campaign of the
    database. *)
Definition votes_linked (d : Db) : Prop :=
  forall v, In v (votes d) ->
            get_user d (Vote.user_id v) <> None
            /\ get_candidate d (Vote.candidate_id v) <> None
            /\ get_campaign d (Vote.campaign_id v) <> None.

(** The constraint [unique=True] on [campaigns.name]. *)
Definition campaign_names_unique (d : Db) : Prop :=
  NoDup (map Campaign.name (campaigns d)).

(** The ids the database engine hands out are positive. *)
Definition campaign_ids_positive (d : Db) : Prop :=
  forall c, In c (campaigns d) -> 0 < Campaign.id c.

(** ** A small election

    The state used to run the handlers on concrete requests: the primary
    admin, a voter, a second account that was promoted to admin; two
    active campaigns; one vote, by the voter, in the first campaign.
    Hashes and the token are those of the reference instances. *)

Module Scenario.

Definition root : User.t :=
  User.mk 1 "root" "1@gmail.com" "plain$rootpw" true None 10.

Definition alice : User.t :=
  User.mk 2 "alice" "alice@example.org" "plain$alicepw" false
          (Some "plain$ABC123") 20.

Definition mallory : User.t :=
  User.mk 3 "mallory" "mallory@example.org" "plain$mallorypw" true
          (Some "plain$XYZ") 30.

Definition general : Campaign.t :=
  Campaign.mk 1 "General Election"
              (Some "Default campaign created automatically.") true None None 100.

Definition council : Campaign.t :=
  Campaign.mk 2 "Council" None true None None 200.

Definition johnson : Candidate.t :=
  Candidate.mk 1 "Alice Johnson" (Some "Transparency and trust.") 1.

Definition smith : Candidate.t :=
  Candidate.mk 2 "Brian Smith" (Some "Innovation in voting.") 1.

Definition ruiz : Candidate.t :=
  Candidate.mk 3 "Carla Ruiz" (Some "Community-first approach.") 2.

Definition ballot : Vote.t :=
  Vote.mk 1 150 2 1 1
          (Some "gVVJNb1dxSnkzMWk2RUwzUElFbXplMTAyMWlBVDh5R2g=Alice Johnson").

Definition election : Db :=
  mkDb [root; alice; mallory] [general; council] [johnson; smith; ruiz]
       [ballot].

Definition post (fields : list (string * string)) : Request :=
  mkRequest POST fields [].

(** The same election before anyone registered as "1@gmail.com". *)
Definition unclaimed : Db := with_users [alice] election.

Definition signup_primary : Request :=
  post [("username", "boss"); ("email", " 1@Gmail.com "); ("password", "pw");
        ("security_key", "K1")].

(** The voter's ballot form, with the right security key. *)
Definition ballot_form : Request := post [("security_key", " ABC123 ")].

(** The primary admin asks to delete their own account. *)
Definition delete_self : Request :=
  post [("action", "delete"); ("user_id", "1")].

(** The primary admin asks to delete the second campaign. *)
Definition delete_council : Request :=
  post [("action", "delete"); ("campaign_id", "2")].

(** The primary admin edits the first candidate; the form names no
    campaign. *)
Definition rename_johnson : Request :=
  post [("action", "update"); ("candidate_id", "1"); ("name", "A. Johnson");
        ("manifesto", " ")].

Definition login_wrong_key : Request :=
  post [("email", "Alice@Example.org"); ("password", "alicepw");
        ("security_key", "abc123")].

(** The election with the second campaign paused. *)
Definition paused : Db :=
  with_campaigns [general; Campaign.with_is_active false council] election.

(** The primary admin toggles the second campaign. *)
Definition toggle_council : Request :=
  post [("action", "toggle_active"); ("campaign_id", "2")].

(** The primary admin toggles the admin flag of the voter. *)
Definition toggle_alice : Request :=
  post [("action", "toggle_admin"); ("user_id", "2")].

(** The primary admin deletes the voter. *)
Definition delete_alice : Request :=
  post [("action", "delete"); ("user_id", "2")].

(** The primary admin deletes the first candidate. *)
Definition delete_johnson : Request :=
  post [("action", "delete"); ("candidate_id", "1")].

(** A new voter signs up, and then logs in. *)
Definition signup_carol : Request :=
  post [("username", " carol "); ("email", " Carol@Example.org ");
        ("password", "carolpw"); ("security_key", " K9 ")].

Definition login_carol : Request :=
  post [("email", "carol@example.org"); ("password", "carolpw");
        ("security_key", "K9")].

(** A database from before campaigns: a candidate and two votes without
    campaign, one of the votes for a candidate that is gone. *)
Definition legacy : Db :=
  mkDb [root; alice] [general]
       [Candidate.mk 1 "Alice Johnson" None 0;
        Candidate.mk 2 "Brian Smith" None 1]
       [Vote.mk 1 150 2 2 0 None; Vote.mk 2 160 1 9 0 None].

(** A database with users only. *)
Definition bare : Db := mkDb [alice; mallory; root] [] [] [].


End Scenario.

(** * Properties *)

(** ** Strings *)

Lemma truthy_false_iff (s : string) : PyStr.truthy s = false <-> s = "".
Proof.
  destruct s; simpl; split; intro E; try reflexivity; discriminate.
Qed.

Lemma truthy_true_iff (s : string) : PyStr.truthy s = true <-> s <> "".
Proof.
  destruct s; simpl; split; intro E; try reflexivity; try discriminate.
  now contradiction E.
Qed.

Lemma truthy_strip (s : string) :
  PyStr.truthy (PyStr.strip s) = true -> PyStr.truthy s = true.
Proof.
  destruct s; [ discriminate | reflexivity ].
Qed.

Example strip_key : PyStr.strip " ABC123 " = "ABC123".
Proof. reflexivity. Qed.

Example strip_blank : PyStr.strip "   " = "".
Proof. reflexivity. Qed.

Example normalize_email :
  PyStr.lower (PyStr.strip " Alice@Example.org ") = "alice@example.org".
Proof. reflexivity. Qed.

(** ** The reference instances meet the contracts *)

Lemma reference_hasher_sound : hasher_sound Reference.hasher.
Proof.
  split.
  - intros salt p q; simpl. reflexivity.
  - intros salt p; simpl. discriminate.
Qed.

Lemma strip_prefix_app (p s : string) :
  Reference.strip_prefix p (p ++ s) = Some s.
Proof.
  induction p as [| a p IH]; simpl.
  - reflexivity.
  - now rewrite Ascii.eqb_refl.
Qed.

Lemma reference_cipher_sound : cipher_sound Reference.cipher.
Proof.
  repeat split.
  - intros key nonce m. cbn [fernet_decrypt fernet_encrypt Reference.cipher].
    change ("g" ++ key ++ m) with (String "g" (key ++ m)).
    change ("g" ++ key) with (String "g" key).
    cbn [Reference.strip_prefix]. rewrite Ascii.eqb_refl.
    now rewrite strip_prefix_app.
  - intros key nonce m. exists ("g" ++ key ++ m).
    repeat split. discriminate.
Qed.

(** ** User: security key *)

(** C8 (as stated) fails: the emptiness test of [set_security_key] runs
    before the trim, so a whitespace-only key is not cleared. *)
Lemma set_security_key_whitespace_not_cleared :
  ~ (forall (H : PasswordHasher) (salt k : string) (u : User.t),
        PyStr.truthy (PyStr.strip k) = false ->
        User.security_key_hash (User.set_security_key salt (Some k) u) = None).
Proof.
  intro claim.
  specialize (claim Reference.hasher "s" "   "
                    (User.mk 1 "a" "a@b.c" "" false None 0) eq_refl).
  discriminate claim.
Qed.

(** C8 (amended): [set_security_key] clears the stored hash when the key
    is absent or the empty string, and stores the hash of the trimmed key
    for every other input: in particular for every key that is non-empty
    after trimming, and, with the hash of the empty string, for a key made
    of whitespace only.  No other field of the user changes. *)
Theorem set_security_key_spec (H : PasswordHasher) (salt : string)
        (u : User.t) :
  User.security_key_hash (User.set_security_key salt None u) = None
  /\ User.security_key_hash (User.set_security_key salt (Some "") u) = None
  /\ (forall k, k <> "" ->
        User.security_key_hash (User.set_security_key salt (Some k) u)
        = Some (generate_password_hash salt (PyStr.strip k)))
  /\ (forall k, PyStr.strip k <> "" ->
        User.security_key_hash (User.set_security_key salt (Some k) u)
        = Some (generate_password_hash salt (PyStr.strip k)))
  /\ (forall k, k <> "" -> PyStr.strip k = "" ->
        User.security_key_hash (User.set_security_key salt (Some k) u)
        = Some (generate_password_hash salt ""))
  /\ (forall k, User.with_security_key_hash None (User.set_security_key salt k u)
                = User.with_security_key_hash None u).
Proof.
  assert (nonempty : forall k, k <> "" ->
            User.security_key_hash (User.set_security_key salt (Some k) u)
            = Some (generate_password_hash salt (PyStr.strip k))).
  { intros k Hk. apply truthy_true_iff in Hk.
    unfold User.set_security_key. now rewrite Hk. }
  repeat split; try reflexivity.
  - exact nonempty.
  - intros k Hk. apply nonempty. intros ->. now apply Hk.
  - intros k Hk Hs. rewrite <- Hs. now apply nonempty.
  - intros [k |]; simpl; [ destruct (PyStr.truthy k) | ]; reflexivity.
Qed.

(** C7: [verify_security_key] answers false when the candidate is absent
    or empty and when no hash is stored; otherwise it checks the trimmed
    candidate against the stored hash.  With a hash stored from "ABC123"
    it accepts "ABC123" and " ABC123 " and rejects "abc123", the empty
    string and an absent candidate. *)
Theorem verify_security_key_spec (H : PasswordHasher) (sound : hasher_sound H) :
  (forall u k, PyStr.truthy_opt k = false -> User.verify_security_key u k = false)
  /\ (forall u k, PyStr.truthy_opt (User.security_key_hash u) = false ->
                  User.verify_security_key u k = false)
  /\ (forall u k h,
         k <> "" -> User.security_key_hash u = Some h -> h <> "" ->
         User.verify_security_key u (Some k)
         = check_password_hash h (PyStr.strip k))
  /\ (forall salt u,
         let u' := User.set_security_key salt (Some "ABC123") u in
         User.verify_security_key u' (Some "ABC123") = true
         /\ User.verify_security_key u' (Some " ABC123 ") = true
         /\ User.verify_security_key u' (Some "abc123") = false
         /\ User.verify_security_key u' (Some "") = false
         /\ User.verify_security_key u' None = false).
Proof.
  destruct sound as [check nonempty].
  assert (general : forall u k h,
            k <> "" -> User.security_key_hash u = Some h -> h <> "" ->
            User.verify_security_key u (Some k)
            = check_password_hash h (PyStr.strip k)).
  { intros u k h Hk Hh Hne. unfold User.verify_security_key.
    apply truthy_true_iff in Hk. apply truthy_true_iff in Hne.
    rewrite Hk, Hh. simpl. now rewrite Hne. }
  split; [| split; [| split ]].
  - intros u [k |] Hk; simpl in *; [ now rewrite Hk | reflexivity ].
  - intros u [k |] Hh; simpl; [| reflexivity ].
    rewrite Hh. now rewrite orb_true_r.
  - exact general.
  - intros salt u u'.
    assert (stored : User.security_key_hash u'
                     = Some (generate_password_hash salt "ABC123")) by reflexivity.
    assert (compare : forall k, k <> "" ->
              User.verify_security_key u' (Some k)
              = String.eqb "ABC123" (PyStr.strip k)).
    { intros k Hk. rewrite (general u' k _ Hk stored (nonempty _ _)).
      apply check. }
    repeat split; rewrite compare; try reflexivity; discriminate.
Qed.

(** The reference hasher meets the contract, and at it a user whose key
    was set to "ABC123" verifies " ABC123 " but not "abc123". *)
Lemma verify_security_key_spec_witness :
  hasher_sound Reference.hasher
  /\ (let u' := User.set_security_key (H:=Reference.hasher) "salt" (Some "ABC123")
                  (User.mk 2 "bob" "bob@example.org" "" false None 0) in
      User.verify_security_key (H:=Reference.hasher) u' (Some " ABC123 ") = true
      /\ User.verify_security_key (H:=Reference.hasher) u' (Some "abc123")
         = false).
Proof.
  split.
  - exact reference_hasher_sound.
  - pose proof (verify_security_key_spec Reference.hasher reference_hasher_sound)
      as (_ & _ & _ & examples).
    specialize (examples "salt"
                         (User.mk 2 "bob" "bob@example.org" "" false None 0)).
    destruct examples as (_ & trimmed & lowercase & _).
    split; [ exact trimmed | exact lowercase ].
Defined.

(** ** Vote encryption *)

Section Encryption.

Context {C : Cipher}.
Variable environ : string -> option string.
Hypothesis sound : cipher_sound C.

Let key := Config.ENCRYPTION_KEY environ.

Lemma encrypt_choice_token (nonce name : string) :
  exists token,
    encrypt_choice environ nonce name = Ok token
    /\ token <> ""
    /\ str_encode token = fernet_encrypt key nonce (str_encode name).
Proof.
  destruct sound as (_ & _ & ascii).
  destruct (ascii key nonce (str_encode name)) as (t & Hdec & Henc & Hne).
  exists t. unfold encrypt_choice. fold key. now rewrite Hdec.
Qed.

Lemma decrypt_choice_total (token : option string) :
  exists v, decrypt_choice environ token = Ok v.
Proof.
  destruct token as [t |]; simpl; [| now exists None ].
  destruct (PyStr.truthy t); simpl; [| now exists None ].
  destruct (fernet_decrypt _ _) as [b | e]; simpl; [| now exists None ].
  destruct (bytes_decode b) as [s | e]; simpl; eauto.
Qed.

Lemma decrypt_encrypt_choice (nonce name token : string) :
  encrypt_choice environ nonce name = Ok token ->
  decrypt_choice environ (Some token) = Ok (Some name).
Proof.
  intro Henc.
  destruct (encrypt_choice_token nonce name) as (t & Ht & Hne & Hbytes).
  rewrite Henc in Ht. injection Ht as <-.
  destruct sound as (roundtrip & utf8 & _).
  unfold decrypt_choice. apply truthy_true_iff in Hne. rewrite Hne. simpl.
  fold key. rewrite Hbytes, roundtrip. simpl. now rewrite utf8.
Qed.

End Encryption.

(** C3: encrypting a candidate name gives a token that decrypts to the
    name; decrypting an absent or empty token, a token the cipher
    refuses, or one whose plaintext is not UTF-8 gives [None]; and
    [decrypt_choice] returns a value on every input: it never raises. *)
Theorem decrypt_choice_spec (C : Cipher) (environ : string -> option string)
        (sound : cipher_sound C) :
  (forall nonce name,
      exists token,
        encrypt_choice environ nonce name = Ok token
        /\ decrypt_choice environ (Some token) = Ok (Some name))
  /\ decrypt_choice environ None = Ok None
  /\ decrypt_choice environ (Some "") = Ok None
  /\ (forall t e,
         fernet_decrypt (Config.ENCRYPTION_KEY environ) (str_encode t)
         = Raise e ->
         decrypt_choice environ (Some t) = Ok None)
  /\ (forall t b e,
         fernet_decrypt (Config.ENCRYPTION_KEY environ) (str_encode t) = Ok b ->
         bytes_decode b = Raise e ->
         decrypt_choice environ (Some t) = Ok None)
  /\ (forall token, exists v, decrypt_choice environ token = Ok v).
Proof.
  split; [| split; [| split; [| split; [| split ]]]].
  - intros nonce name.
    destruct (encrypt_choice_token environ sound nonce name) as (t & Ht & _).
    exists t. split; [ exact Ht | ].
    now apply decrypt_encrypt_choice with (nonce := nonce).
  - reflexivity.
  - reflexivity.
  - intros t e Hfail. unfold decrypt_choice.
    destruct (PyStr.truthy t); simpl; [| reflexivity ]. now rewrite Hfail.
  - intros t b e Hdec Hutf. unfold decrypt_choice.
    destruct (PyStr.truthy t); simpl; [| reflexivity ].
    rewrite Hdec. simpl. now rewrite Hutf.
  - apply decrypt_choice_total.
Qed.

(** At the reference cipher and the default key: the name "Alice Johnson"
    survives the round trip, and a token made under another key decrypts
    to [None]. *)
Lemma decrypt_choice_spec_witness :
  cipher_sound Reference.cipher
  /\ (exists token,
         encrypt_choice (cipher_lib:=Reference.cipher) Reference.environ "iv"
                        "Alice Johnson" = Ok token
         /\ decrypt_choice (cipher_lib:=Reference.cipher) Reference.environ
                           (Some token) = Ok (Some "Alice Johnson"))
  /\ decrypt_choice (cipher_lib:=Reference.cipher) Reference.environ
                    (Some "gother-keyAlice Johnson") = Ok None.
Proof.
  pose proof (decrypt_choice_spec Reference.cipher Reference.environ
                                  reference_cipher_sound)
    as (roundtrip & _ & _ & refused & _).
  split; [ exact reference_cipher_sound | split ].
  - exact (roundtrip "iv" "Alice Johnson").
  - apply (refused "gother-keyAlice Johnson" InvalidToken). reflexivity.
Defined.

(** ** Rows and primary keys *)

Lemma key_injective {A K : Type} (key : A -> K) (l : list A) (x y : A) :
  NoDup (map key l) -> In x l -> In y l -> key x = key y -> x = y.
Proof.
  induction l as [| a l IH]; simpl; [ contradiction | ].
  intros Hnd Hx Hy Hk. inversion Hnd as [| ? ? Hnotin Hnd']; subst.
  destruct Hx as [-> | Hx], Hy as [-> | Hy].
  - reflexivity.
  - exfalso. apply Hnotin. rewrite Hk. now apply in_map.
  - exfalso. apply Hnotin. rewrite <- Hk. now apply in_map.
  - now apply IH.
Qed.

Section Keyed.

Context {A : Type}.
Variable key : A -> Z.

Lemma mem_id_true (i : Z) (ids : list Z) : mem_id i ids = true <-> In i ids.
Proof.
  unfold mem_id. rewrite existsb_exists. split.
  - intros (j & Hj & E). apply Z.eqb_eq in E. now subst.
  - intro Hi. exists i. split; [ exact Hi | apply Z.eqb_refl ].
Qed.

Lemma mem_id_filter (p : A -> bool) (l : list A) (x : A) :
  NoDup (map key l) -> In x l ->
  mem_id (key x) (map key (filter p l)) = p x.
Proof.
  intros Hnd Hx. destruct (p x) eqn:Hp.
  - apply mem_id_true. apply in_map. apply filter_In. now split.
  - destruct (mem_id (key x) (map key (filter p l))) eqn:Hm; [| reflexivity ].
    apply mem_id_true in Hm. apply in_map_iff in Hm as (y & Hk & Hy).
    apply filter_In in Hy as (Hy & Hpy).
    assert (y = x) by now apply (key_injective key l).
    subst. congruence.
Qed.

(** A loop that assigns through each row of [l] in turn is one pass over
    the table. *)
Lemma fold_update_map (f : A -> A) (l acc : list A) :
  (forall x, key (f x) = key x) -> (forall x, f (f x) = f x) ->
  fold_left (fun rows x => map (fun r => if key r =? key x then f r else r) rows)
            l acc
  = map (fun r => if mem_id (key r) (map key l) then f r else r) acc.
Proof.
  intros Hkey Hidem. revert acc.
  induction l as [| x l IH]; intro acc; simpl.
  - symmetry. apply map_id.
  - rewrite IH, map_map. apply map_ext. intro r.
    rewrite (Z.eqb_sym (key x) (key r)).
    destruct (key r =? key x) eqn:E; simpl.
    + rewrite Hkey, Hidem. now destruct (mem_id _ _).
    + reflexivity.
Qed.

Lemma find_key_self (l : list A) (x : A) :
  In x l -> NoDup (map key l) -> find (fun r => key r =? key x) l = Some x.
Proof.
  induction l as [| a l IH]; simpl; [ contradiction | ].
  intros Hx Hnd. destruct (key a =? key x) eqn:E.
  - apply Z.eqb_eq in E. f_equal.
    apply (key_injective key (a :: l)); simpl; auto.
  - destruct Hx as [-> | Hx]; [ now rewrite Z.eqb_refl in E | ].
    inversion Hnd; subst. now apply IH.
Qed.

End Keyed.

(** ** Bootstrap: the primary admin *)

Lemma with_is_admin_same (u : User.t) :
  User.with_is_admin (User.is_admin u) u = u.
Proof. now destruct u. Qed.

Lemma user_by_email_In (d : Db) (e : string) (p : User.t) :
  user_by_email d e = Some p -> In p (users d) /\ User.email p = e.
Proof.
  intro Hf. apply find_some in Hf as (Hin & E).
  split; [ exact Hin | now apply String.eqb_eq ].
Qed.

Lemma enforce_primary_admin_loop (us l : list User.t) (b : bool) :
  fold_left
    (fun '(us, _) user =>
       (update_user (User.id user) (User.with_is_admin false) us, true))
    l (us, b)
  = (fold_left
       (fun rows x => update_user (User.id x) (User.with_is_admin false) rows)
       l us,
     match l with [] => b | _ :: _ => true end).
Proof.
  revert us b. induction l as [| x l IH]; intros us b; simpl; [ reflexivity | ].
  rewrite IH. now destruct l.
Qed.

Lemma enforce_primary_admin_found (d : Db) (p : User.t) :
  db_wf d -> user_by_email d primary_email = Some p ->
  enforce_primary_admin d
  = (with_users (map normalized (users d)) d,
     negb (forallb (fun u => Bool.eqb (User.is_admin u)
                                      (String.eqb (User.email u) primary_email))
                   (users d))).
Proof.
  intros wf Hp. destruct wf as [pk uniq _ _ _].
  destruct (user_by_email_In _ _ _ Hp) as (Hin & Hemail).
  unfold enforce_primary_admin. rewrite Hp.
  rewrite enforce_primary_admin_loop. unfold update_user.
  rewrite (fold_update_map User.id (User.with_is_admin false)) by reflexivity.
  set (admins := filter _ (users d)).
  assert (demoted :
    map (fun r => if mem_id (User.id r) (map User.id admins)
                  then User.with_is_admin false r else r) (users d)
    = map (fun u => if String.eqb (User.email u) primary_email then u
                    else User.with_is_admin false u) (users d)).
  { apply map_ext_in. intros u Hu. unfold admins.
    rewrite (mem_id_filter User.id) by assumption.
    destruct (String.eqb (User.email u) primary_email); simpl; [ reflexivity | ].
    destruct (User.is_admin u) eqn:E; [ reflexivity | ].
    rewrite <- E. symmetry. apply with_is_admin_same. }
  rewrite demoted. clear demoted.
  assert (only : forall u, In u (users d) ->
            String.eqb (User.email u) primary_email = true -> u = p).
  { intros u Hu E. apply String.eqb_eq in E.
    apply (key_injective User.email (users d)); congruence. }
  assert (flags :
    forallb (fun u => Bool.eqb (User.is_admin u)
                               (String.eqb (User.email u) primary_email))
            (users d)
    = User.is_admin p && match admins with [] => true | _ :: _ => false end).
  { destruct (forallb _ (users d)) eqn:F.
    - rewrite forallb_forall in F.
      pose proof (F p Hin) as Fp. rewrite Hemail, String.eqb_refl in Fp.
      apply Bool.eqb_prop in Fp. rewrite Fp. simpl.
      destruct admins as [| a rest] eqn:Ha; [ reflexivity | exfalso ].
      assert (Hina : In a admins) by (rewrite Ha; now left).
      unfold admins in Hina. apply filter_In in Hina as (Hina & Ea).
      apply F in Hina. apply andb_true_iff in Ea as (Ea1 & Ea2).
      apply negb_true_iff in Ea1. rewrite Ea1, Ea2 in Hina. discriminate.
    - symmetry. apply andb_false_iff.
      destruct (User.is_admin p) eqn:Ep; [ right | now left ].
      destruct admins as [| a rest] eqn:Ha; [ exfalso | reflexivity ].
      apply not_true_iff_false in F. apply F. apply forallb_forall.
      intros u Hu. destruct (String.eqb (User.email u) primary_email) eqn:E.
      + rewrite (only u Hu E), Ep. reflexivity.
      + destruct (User.is_admin u) eqn:Eu; [ exfalso | reflexivity ].
        assert (Hf : In u admins).
        { unfold admins. apply filter_In. rewrite E, Eu. now split. }
        rewrite Ha in Hf. exact Hf. }
  rewrite flags.
  destruct (User.is_admin p) eqn:Ep; simpl.
  - f_equal.
    + f_equal. apply map_ext_in. intros u Hu. unfold normalized.
      destruct (String.eqb (User.email u) primary_email) eqn:E; [| reflexivity ].
      rewrite (only u Hu E), <- Ep. symmetry. apply with_is_admin_same.
    + now destruct admins.
  - f_equal. f_equal. rewrite map_map. apply map_ext_in. intros u Hu.
    unfold normalized.
    destruct (String.eqb (User.email u) primary_email) eqn:E.
    + rewrite (only u Hu E), Z.eqb_refl. reflexivity.
    + simpl. destruct (User.id u =? User.id p) eqn:Eid; [ exfalso | reflexivity ].
      apply Z.eqb_eq in Eid.
      assert (u = p) by now apply (key_injective User.id (users d)).
      subst. rewrite Hemail, String.eqb_refl in E. discriminate.
Qed.

(** C2: when the user "1@gmail.com" exists, [enforce_primary_admin]
    leaves that user, and no other, with [is_admin] set, changing nothing
    but the flags; a second run commits nothing and changes nothing; when
    no such user exists the routine changes nothing and commits nothing. *)
Theorem enforce_primary_admin_spec (d : Db) (wf : db_wf d) :
  (user_by_email d primary_email = None -> enforce_primary_admin d = (d, false))
  /\ (forall p,
         user_by_email d primary_email = Some p ->
         let d1 := fst (enforce_primary_admin d) in
         (forall u, In u (users d1) ->
                    (User.is_admin u = true <-> User.id u = User.id p))
         /\ get_user d1 (User.id p) = Some (User.with_is_admin true p)
         /\ map (User.with_is_admin false) (users d1)
            = map (User.with_is_admin false) (users d)
         /\ with_users (users d) d1 = d
         /\ enforce_primary_admin d1 = (d1, false)).
Proof.
  split.
  - intro Hnone. unfold enforce_primary_admin. now rewrite Hnone.
  - intros p Hp d1. unfold d1. rewrite (enforce_primary_admin_found d p wf Hp).
    cbn [fst]. clear d1.
    destruct (user_by_email_In _ _ _ Hp) as (Hin & Hemail).
    pose proof wf as [pk uniq cpk kpk vpk].
    assert (ids : map User.id (map normalized (users d)) = map User.id (users d)).
    { rewrite map_map. now apply map_ext. }
    assert (emails : map User.email (map normalized (users d))
                     = map User.email (users d)).
    { rewrite map_map. now apply map_ext. }
    assert (wf1 : db_wf (with_users (map normalized (users d)) d)).
    { constructor; simpl; try assumption.
      - now rewrite ids.
      - now rewrite emails. }
    split; [| split; [| split; [| split ]]].
    + intros u Hu. simpl in Hu. apply in_map_iff in Hu as (u0 & <- & Hu0).
      simpl. split.
      * intro E. apply String.eqb_eq in E.
        f_equal. apply (key_injective User.email (users d)); congruence.
      * intro E. apply String.eqb_eq.
        assert (u0 = p) by now apply (key_injective User.id (users d)).
        now subst.
    + replace (User.with_is_admin true p) with (normalized p).
      * unfold get_user. change (User.id p) with (User.id (normalized p)).
        apply find_key_self; simpl.
        -- now apply in_map.
        -- now rewrite ids.
      * unfold normalized. now rewrite Hemail.
    + simpl. rewrite map_map. now apply map_ext.
    + now destruct d.
    + destruct (user_by_email (with_users (map normalized (users d)) d)
                              primary_email) as [q |] eqn:Hq.
      * rewrite (enforce_primary_admin_found _ q wf1 Hq). simpl.
        f_equal.
        -- unfold with_users. simpl. f_equal. rewrite map_map.
           apply map_ext. intro u. now destruct u.
        -- apply negb_false_iff. apply forallb_forall. intros u Hu.
           apply in_map_iff in Hu as (u0 & <- & _). simpl.
           now destruct (String.eqb (User.email u0) primary_email).
      * unfold enforce_primary_admin. now rewrite Hq.
Qed.

Ltac nodup :=
  repeat (apply NoDup_cons;
          [ simpl; intuition (try discriminate; try lia) | ]);
  apply NoDup_nil.

Lemma election_wf : db_wf Scenario.election.
Proof. constructor; simpl; nodup. Qed.

(** In the small election the primary admin keeps the flag, the promoted
    account loses it, and a second run commits nothing. *)
Lemma enforce_primary_admin_spec_witness :
  db_wf Scenario.election
  /\ (let d1 := fst (enforce_primary_admin Scenario.election) in
      get_user d1 1 = Some Scenario.root
      /\ enforce_primary_admin d1 = (d1, false)).
Proof.
  split; [ exact election_wf | ].
  destruct (enforce_primary_admin_spec Scenario.election election_wf)
    as (_ & found).
  destruct (found Scenario.root eq_refl) as (_ & kept & _ & _ & again).
  split; [ exact kept | exact again ].
Defined.

Example enforce_primary_admin_election :
  enforce_primary_admin Scenario.election
  = (with_users [Scenario.root; Scenario.alice;
                 User.with_is_admin false Scenario.mallory]
                Scenario.election,
     true).
Proof. reflexivity. Qed.

(** ** Trimming *)

Lemma rstrip_cons (c : ascii) (s : string) :
  PyStr.rstrip (String c s)
  = match PyStr.rstrip s with
    | EmptyString => if PyStr.isspace c then EmptyString else String c EmptyString
    | r => String c r
    end.
Proof. reflexivity. Qed.

Lemma rstrip_idempotent (s : string) :
  PyStr.rstrip (PyStr.rstrip s) = PyStr.rstrip s.
Proof.
  induction s as [| c s IH]; [ reflexivity | ].
  rewrite rstrip_cons.
  destruct (PyStr.rstrip s) as [| c' r] eqn:E.
  - destruct (PyStr.isspace c) eqn:Ec; [ reflexivity | ].
    rewrite rstrip_cons. simpl. now rewrite Ec.
  - rewrite rstrip_cons, IH. reflexivity.
Qed.

Lemma lstrip_head (s : string) :
  match PyStr.lstrip s with
  | EmptyString => True
  | String c _ => PyStr.isspace c = false
  end.
Proof.
  induction s as [| c s IH]; simpl; [ exact I | ].
  destruct (PyStr.isspace c) eqn:E; [ exact IH | exact E ].
Qed.

Lemma lstrip_rstrip (s : string) :
  match s with
  | EmptyString => True
  | String c _ => PyStr.isspace c = false
  end ->
  PyStr.lstrip (PyStr.rstrip s) = PyStr.rstrip s.
Proof.
  destruct s as [| c s]; [ reflexivity | ]. intro Hc.
  rewrite rstrip_cons.
  destruct (PyStr.rstrip s); rewrite ?Hc; simpl; now rewrite Hc.
Qed.

Lemma strip_idempotent (s : string) :
  PyStr.strip (PyStr.strip s) = PyStr.strip s.
Proof.
  unfold PyStr.strip.
  rewrite (lstrip_rstrip (PyStr.lstrip s) (lstrip_head s)).
  apply rstrip_idempotent.
Qed.

(** ** Signup *)

Lemma signup_errors_nil (d : Db)
      (username email password security_key : string) :
  signup_errors d username email password security_key = []
  <-> (username <> "" /\ email <> "" /\ password <> ""
       /\ user_by_email d email = None
       /\ (email = primary_email \/ security_key <> "")).
Proof.
  unfold signup_errors.
  rewrite <- !truthy_true_iff.
  destruct (PyStr.truthy username), (PyStr.truthy email), (PyStr.truthy password),
    (user_by_email d email), (String.eqb_spec email primary_email),
    (PyStr.truthy security_key);
    simpl; split; intro E; try discriminate; try tauto;
    try (repeat split; auto; congruence);
    try (destruct E as (? & ? & ? & ? & ?); discriminate);
    try (destruct E as (? & ? & ? & ? & [? | ?]); try discriminate; contradiction).
Qed.

(** C5: a POST to [/signup] by an anonymous caller.  With a non-empty
    username and password and an email that normalizes to "1@gmail.com"
    and is not registered, the account is created with [is_admin] set and
    no security key hash, whatever the submitted security key.  With any
    other email, either an account is created, and then the trimmed
    security key is non-empty, the account is no admin and holds the hash
    of the trimmed key, or nothing is created and the form is shown again
    with the errors. *)
Theorem signup_spec (H : PasswordHasher) (d : Db) (sess : option Z)
        (req : Request) (now : Z) (salt_pw salt_key : string)
        (anonymous : is_authenticated d sess = false)
        (posted : method req = POST) :
  let username := PyStr.strip (get_default "username" "" (form req)) in
  let email := PyStr.lower (PyStr.strip (get_default "email" "" (form req))) in
  let password := get_default "password" "" (form req) in
  let security_key := PyStr.strip (get_default "security_key" "" (form req)) in
  let out := signup d sess req now salt_pw salt_key in
  let created admin key_hash :=
    mkOutcome
      (with_users
         (users d
          ++ [User.mk (next_id (map User.id (users d))) username email
                      (generate_password_hash salt_pw password) admin key_hash
                      now]) d)
      sess [("Account created. Please log in.", success)]
      (redirect "login" None) in
  (email = primary_email -> username <> "" -> password <> "" ->
   user_by_email d email = None ->
   out = created true None)
  /\ (email <> primary_email ->
      (security_key <> ""
       /\ out = created false
                         (Some (generate_password_hash salt_key security_key)))
      \/ (db out = d /\ flashes out <> []
          /\ response out = render_template "signup.html"))
  /\ (email <> primary_email -> security_key <> "" ->
      username <> "" -> email <> "" -> password <> "" ->
      user_by_email d email = None ->
      out = created false
                    (Some (generate_password_hash salt_key security_key))).
Proof.
  intros username email password security_key out created.
  assert (run : out
    = match signup_errors d username email password security_key with
      | [] =>
          created (String.eqb email primary_email)
                  (if String.eqb email primary_email then None
                   else if PyStr.truthy security_key
                        then Some (generate_password_hash salt_key
                                     (PyStr.strip security_key))
                        else None)
      | errors =>
          mkOutcome d sess (map (fun err => (err, danger)) errors)
                    (render_template "signup.html")
      end).
  { unfold out, signup. rewrite anonymous, posted. cbn [is_POST].
    fold username email password security_key.
    destruct (signup_errors d username email password security_key);
      [| reflexivity ].
    unfold created. do 3 f_equal.
    destruct (String.eqb email primary_email); [ reflexivity | ].
    cbn. now destruct (PyStr.truthy security_key). }
  assert (trimmed : PyStr.strip security_key = security_key)
    by apply strip_idempotent.
  rewrite trimmed in run.
  split; [| split ].
  - intros Hprimary Hu Hp Hfree. rewrite run.
    assert (E : signup_errors d username email password security_key = []).
    { apply signup_errors_nil. repeat split; auto.
      rewrite Hprimary. discriminate. }
    rewrite E. apply String.eqb_eq in Hprimary. now rewrite Hprimary.
  - intro Hother. rewrite run.
    destruct (signup_errors d username email password security_key) eqn:E.
    + left. apply signup_errors_nil in E as (_ & _ & _ & _ & [Hp | Hk]);
        [ contradiction | ].
      split; [ exact Hk | ].
      apply String.eqb_neq in Hother. rewrite Hother.
      apply truthy_true_iff in Hk. now rewrite Hk.
    + right. simpl. repeat split. discriminate.
  - intros Hother Hk Hu He Hp Hfree. rewrite run.
    assert (E : signup_errors d username email password security_key = []).
    { apply signup_errors_nil. repeat split; auto. }
    rewrite E. apply String.eqb_neq in Hother. rewrite Hother.
    apply truthy_true_iff in Hk. now rewrite Hk.
Qed.

(** Before the primary admin has an account, an anonymous caller signs up
    as " 1@Gmail.com " and submits a security key: the account is admin
    and has no key hash. *)
Lemma signup_spec_witness :
  is_authenticated Scenario.unclaimed None = false
  /\ method Scenario.signup_primary = POST
  /\ exists u,
       users (db (signup (hasher:=Reference.hasher) Scenario.unclaimed None
                         Scenario.signup_primary 300 "s1" "s2"))
       = [Scenario.alice; u]
       /\ User.is_admin u = true /\ User.security_key_hash u = None.
Proof.
  split; [ reflexivity | split; [ reflexivity | ] ].
  pose proof (signup_spec Reference.hasher Scenario.unclaimed None
                          Scenario.signup_primary 300 "s1" "s2"
                          eq_refl eq_refl) as (primary & _).
  cbv zeta in primary.
  rewrite (primary eq_refl ltac:(discriminate) ltac:(discriminate) eq_refl).
  eexists. split; [ reflexivity | split; reflexivity ].
Defined.

(** ** Login *)

(** C4, on the code: a POST to [/login] by an anonymous caller.  When the
    user is not found or the password does not match, the generic notice
    is flashed alone.  When the password matches and a non-admin's
    security key fails, "Invalid security key." is flashed and control
    then reaches the generic [flash] as well: both notices are shown, the
    generic one after the specific one.  No session is established in
    either case. *)
Theorem login_failure_notices (H : PasswordHasher) (d : Db) (sess : option Z)
        (req : Request)
        (anonymous : is_authenticated d sess = false)
        (posted : method req = POST) :
  let email := PyStr.lower (PyStr.strip (get_default "email" "" (form req))) in
  let password := get_default "password" "" (form req) in
  let security_key := PyStr.strip (get_default "security_key" "" (form req)) in
  let out := login d sess req in
  (user_by_email d email = None ->
   out = mkOutcome d sess [("Invalid email or password.", danger)]
                   (render_template "login.html"))
  /\ (forall u,
         user_by_email d email = Some u ->
         User.check_password u password = false ->
         out = mkOutcome d sess [("Invalid email or password.", danger)]
                         (render_template "login.html"))
  /\ (forall u,
         user_by_email d email = Some u ->
         User.check_password u password = true ->
         User.is_admin u = false ->
         User.verify_security_key u (Some security_key) = false ->
         out = mkOutcome d sess
                         [("Invalid security key.", danger);
                          ("Invalid email or password.", danger)]
                         (render_template "login.html")).
Proof.
  intros email password security_key out.
  unfold out, login. rewrite anonymous, posted. cbn [is_POST].
  fold email password security_key.
  split; [| split ].
  - intro Hnone. now rewrite Hnone.
  - intros u Hu Hpw. rewrite Hu. unfold login_attempt. now rewrite Hpw.
  - intros u Hu Hpw Hadmin Hkey. rewrite Hu. unfold login_attempt.
    now rewrite Hpw, Hadmin, Hkey.
Qed.

(** The voter of the small election logs in with the right password and
    the key "abc123" instead of "ABC123": both notices are flashed. *)
Lemma login_failure_notices_witness :
  is_authenticated Scenario.election None = false
  /\ method Scenario.login_wrong_key = POST
  /\ login (hasher:=Reference.hasher) Scenario.election None
           Scenario.login_wrong_key
     = mkOutcome Scenario.election None
                 [("Invalid security key.", danger);
                  ("Invalid email or password.", danger)]
                 (render_template "login.html").
Proof.
  split; [ reflexivity | split; [ reflexivity | ] ].
  pose proof (login_failure_notices Reference.hasher Scenario.election None
                Scenario.login_wrong_key eq_refl eq_refl) as (_ & _ & key).
  exact (key Scenario.alice eq_refl eq_refl eq_refl eq_refl).
Defined.

(** ** Casting a vote *)

Lemma find_none_filter {A} (p : A -> bool) (l : list A) :
  find p l = None <-> filter p l = [].
Proof.
  induction l as [| a l IH]; simpl; [ tauto | ].
  destruct (p a); [ split; discriminate | exact IH ].
Qed.

Lemma existing_vote_none (d : Db) (u c : Z) :
  existing_vote d u c = None <-> votes_of d u c = [].
Proof. apply find_none_filter. Qed.

Lemma get_campaign_id (d : Db) (i : Z) (c : Campaign.t) :
  get_campaign d i = Some c -> Campaign.id c = i.
Proof.
  intro Hf. apply find_some in Hf as (_ & E). now apply Z.eqb_eq.
Qed.

Section CastVote.

Context {H : PasswordHasher} {C : Cipher}.
Variable environ : string -> option string.
Variables (d : Db) (sess : option Z) (req : Request).
Variables (candidate_id now : Z) (nonce : string).

Let out := cast_vote environ d sess req candidate_id now nonce.
Let security_key := PyStr.strip (get_default "security_key" "" (form req)).

Lemma cast_vote_admissible cu candidate campaign :
  admissible d sess req candidate_id cu candidate campaign ->
  out
  = match existing_vote d (User.id cu) (Campaign.id campaign) with
    | Some _ =>
        mkOutcome d sess [("You have already voted in this campaign.", info)]
                  (redirect "user_dashboard" None)
    | None =>
        match encrypt_choice environ nonce (Candidate.name candidate) with
        | Raise e => mkOutcome d sess [] (ServerError e)
        | Ok token =>
            mkOutcome
              (with_votes
                 (votes d ++ [new_vote d now cu candidate campaign token]) d)
              sess [("Vote submitted successfully!", success)]
                      (redirect "user_dashboard" None)
        end
    end.
Proof.
  intros (Hcu & Hadmin & Hkey & Hcand & Hcamp & Hactive).
  unfold out, cast_vote, login_required. rewrite Hcu, Hadmin, Hkey.
  cbn [negb].
  now rewrite Hcand, Hcamp, Hactive.
Qed.

(** Every run either leaves the database alone or appends one vote, for
    a pair (user, campaign) that had none. *)
Lemma cast_vote_cases :
  db out = d
  \/ exists cu candidate campaign token,
       admissible d sess req candidate_id cu candidate campaign
       /\ votes_of d (User.id cu) (Campaign.id campaign) = []
       /\ db out
          = with_votes
              (votes d ++ [new_vote d now cu candidate campaign token]) d.
Proof.
  destruct (current_user d sess) as [cu |] eqn:Hcu;
    [| left; unfold out, cast_vote, login_required; now rewrite Hcu ].
  destruct (User.is_admin cu) eqn:Hadmin;
    [ left; unfold out, cast_vote, login_required; now rewrite Hcu, Hadmin | ].
  destruct (User.verify_security_key cu (Some security_key)) eqn:Hkey;
    [| left; unfold out, cast_vote, login_required; rewrite Hcu, Hadmin;
       fold security_key; now rewrite Hkey ].
  destruct (get_candidate d candidate_id) as [candidate |] eqn:Hcand;
    [| left; unfold out, cast_vote, login_required; rewrite Hcu, Hadmin;
       fold security_key; rewrite Hkey; cbn [negb]; now rewrite Hcand ].
  destruct (get_campaign d (Candidate.campaign_id candidate))
    as [campaign |] eqn:Hcamp;
    [| left; unfold out, cast_vote, login_required; rewrite Hcu, Hadmin;
       fold security_key; rewrite Hkey; cbn [negb]; now rewrite Hcand, Hcamp ].
  destruct (Campaign.is_active campaign) eqn:Hactive;
    [| left; unfold out, cast_vote, login_required; rewrite Hcu, Hadmin;
       fold security_key; rewrite Hkey; cbn [negb];
       now rewrite Hcand, Hcamp, Hactive ].
  assert (adm : admissible d sess req candidate_id cu candidate campaign)
    by (repeat split; assumption).
  rewrite (cast_vote_admissible _ _ _ adm).
  destruct (existing_vote d (User.id cu) (Campaign.id campaign)) eqn:Hex;
    [ now left | ].
  destruct (encrypt_choice environ nonce (Candidate.name candidate))
    as [token | e]; [| now left ].
  right. exists cu, candidate, campaign, token.
  split; [ exact adm | split; [ now apply existing_vote_none | reflexivity ] ].
Qed.

Lemma cast_vote_preserves_one_vote :
  one_vote_per_campaign d -> one_vote_per_campaign (db out).
Proof.
  intros inv u c.
  destruct cast_vote_cases
    as [-> | (cu & candidate & campaign & token & _ & Hnone & ->)];
    [ apply inv | ].
  unfold one_vote_per_campaign, votes_of in *. cbn [votes with_votes].
  rewrite filter_app, length_app.
  cbn [filter new_vote Vote.user_id Vote.campaign_id].
  destruct (User.id cu =? u) eqn:Eu; cbn [andb length];
    [| specialize (inv u c); lia ].
  destruct (Campaign.id campaign =? c) eqn:Ec; cbn [length];
    [| specialize (inv u c); lia ].
  apply Z.eqb_eq in Eu, Ec. subst u c. rewrite Hnone. simpl. lia.
Qed.

End CastVote.

Lemma cast_vote_already_voted
      (H : PasswordHasher) (C : Cipher) (environ : string -> option string)
      (d : Db) (sess : option Z) (req : Request) (candidate_id now : Z)
      (nonce : string) (cu : User.t) (candidate : Candidate.t) :
  current_user d sess = Some cu ->
  get_candidate d candidate_id = Some candidate ->
  votes_of d (User.id cu) (Candidate.campaign_id candidate) <> [] ->
  db (cast_vote environ d sess req candidate_id now nonce) = d.
Proof.
  intros Hcu Hcand Hvoted.
  destruct (cast_vote_cases environ d sess req candidate_id now nonce)
    as [same | (cu' & candidate' & campaign & token & adm & Hnone & _)];
    [ exact same | exfalso ].
  destruct adm as (Hcu' & _ & _ & Hcand' & Hcamp & _).
  rewrite Hcu in Hcu'. injection Hcu' as <-.
  rewrite Hcand in Hcand'. injection Hcand' as <-.
  apply get_campaign_id in Hcamp. rewrite Hcamp in Hnone. now apply Hvoted.
Qed.

(** C1: [cast_vote] keeps at most one vote per (user, campaign).  When
    the caller already has a vote in the candidate's campaign the database
    is left as it is, and a request that passes the earlier checks is
    answered with the informational notice.  When the caller has no vote
    in the candidate's active campaign, whatever votes they have
    elsewhere, the vote is recorded; and after that request no further
    request of the caller for a candidate of the same campaign changes
    the database. *)
Theorem cast_vote_one_vote_per_campaign
        (H : PasswordHasher) (C : Cipher) (environ : string -> option string)
        (sound : cipher_sound C)
        (d : Db) (sess : option Z) (req : Request) (candidate_id now : Z)
        (nonce : string) :
  let out := cast_vote environ d sess req candidate_id now nonce in
  (one_vote_per_campaign d -> one_vote_per_campaign (db out))
  /\ (forall cu candidate,
         current_user d sess = Some cu ->
         get_candidate d candidate_id = Some candidate ->
         votes_of d (User.id cu) (Candidate.campaign_id candidate) <> [] ->
         db out = d)
  /\ (forall cu candidate campaign,
         admissible d sess req candidate_id cu candidate campaign ->
         votes_of d (User.id cu) (Campaign.id campaign) <> [] ->
         out = mkOutcome d sess
                 [("You have already voted in this campaign.", info)]
                 (redirect "user_dashboard" None))
  /\ (forall cu candidate campaign,
         admissible d sess req candidate_id cu candidate campaign ->
         votes_of d (User.id cu) (Campaign.id campaign) = [] ->
         exists token,
           encrypt_choice environ nonce (Candidate.name candidate) = Ok token
           /\ out = mkOutcome
                      (with_votes
                         (votes d ++ [new_vote d now cu candidate campaign token])
                         d)
                      sess [("Vote submitted successfully!", success)]
                      (redirect "user_dashboard" None))
  /\ (forall cu candidate campaign,
         admissible d sess req candidate_id cu candidate campaign ->
         forall req2 candidate_id2 now2 nonce2 candidate2,
           get_candidate d candidate_id2 = Some candidate2 ->
           Candidate.campaign_id candidate2 = Campaign.id campaign ->
           db (cast_vote environ (db out) sess req2 candidate_id2 now2 nonce2)
           = db out).
Proof.
  intro out.
  assert (recorded : forall cu candidate campaign,
    admissible d sess req candidate_id cu candidate campaign ->
    votes_of d (User.id cu) (Campaign.id campaign) = [] ->
    exists token,
      encrypt_choice environ nonce (Candidate.name candidate) = Ok token
      /\ out = mkOutcome
                 (with_votes
                    (votes d ++ [new_vote d now cu candidate campaign token]) d)
                 sess [("Vote submitted successfully!", success)]
                 (redirect "user_dashboard" None)).
  { intros cu candidate campaign adm Hnone. unfold out.
    rewrite (cast_vote_admissible environ d sess req candidate_id now nonce
                                  _ _ _ adm).
    apply existing_vote_none in Hnone. rewrite Hnone.
    destruct (encrypt_choice_token environ sound nonce (Candidate.name candidate))
      as (token & Htoken & _).
    exists token. now rewrite Htoken. }
  split; [| split; [| split; [| split ]]].
  - apply cast_vote_preserves_one_vote.
  - intros cu candidate. apply cast_vote_already_voted.
  - intros cu candidate campaign adm Hvoted. unfold out.
    rewrite (cast_vote_admissible environ d sess req candidate_id now nonce
                                  _ _ _ adm).
    destruct (existing_vote d (User.id cu) (Campaign.id campaign)) eqn:Hex;
      [ reflexivity | ].
    apply existing_vote_none in Hex. contradiction.
  - exact recorded.
  - intros cu candidate campaign adm req2 candidate_id2 now2 nonce2 candidate2
           Hcand2 Hsame.
    pose proof adm as (Hcu & _ & _ & Hcand & Hcamp & _).
    destruct (votes_of d (User.id cu) (Campaign.id campaign)) as [| v vs] eqn:Hv.
    + destruct (recorded cu candidate campaign adm Hv) as (token & _ & run).
      rewrite run. cbn [db].
      apply cast_vote_already_voted with (cu := cu) (candidate := candidate2).
      * exact Hcu.
      * exact Hcand2.
      * rewrite Hsame. unfold votes_of in *. cbn [votes with_votes].
        rewrite filter_app, Hv.
        cbn [filter new_vote Vote.user_id Vote.campaign_id app].
        rewrite !Z.eqb_refl. discriminate.
    + assert (same : db out = d).
      { apply cast_vote_already_voted with (cu := cu) (candidate := candidate);
          try assumption.
        rewrite <- (get_campaign_id _ _ _ Hcamp), Hv. discriminate. }
      rewrite same.
      apply cast_vote_already_voted with (cu := cu) (candidate := candidate2);
        try assumption.
      rewrite Hsame, Hv. discriminate.
Qed.

(** In the small election the voter, who voted in the first campaign, asks
    for another candidate of that campaign and is refused; asking for the
    candidate of the second campaign records a second vote. *)
Lemma cast_vote_one_vote_per_campaign_witness :
  cipher_sound Reference.cipher
  /\ cast_vote (hasher:=Reference.hasher) (cipher_lib:=Reference.cipher)
               Reference.environ Scenario.election (Some 2)
               Scenario.ballot_form 2 400 "iv"
     = mkOutcome Scenario.election (Some 2)
                 [("You have already voted in this campaign.", info)]
                 (redirect "user_dashboard" None)
  /\ exists token,
       db (cast_vote (hasher:=Reference.hasher) (cipher_lib:=Reference.cipher)
                     Reference.environ Scenario.election (Some 2)
                     Scenario.ballot_form 3 400 "iv")
       = with_votes [Scenario.ballot; Vote.mk 2 400 2 3 2 (Some token)]
                    Scenario.election.
Proof.
  split; [ exact reference_cipher_sound | split ].
  - pose proof (cast_vote_one_vote_per_campaign Reference.hasher Reference.cipher
                  Reference.environ reference_cipher_sound Scenario.election
                  (Some 2) Scenario.ballot_form 2 400 "iv")
      as (_ & _ & refused & _).
    apply (refused Scenario.alice Scenario.smith Scenario.general).
    + repeat split.
    + discriminate.
  - pose proof (cast_vote_one_vote_per_campaign Reference.hasher Reference.cipher
                  Reference.environ reference_cipher_sound Scenario.election
                  (Some 2) Scenario.ballot_form 3 400 "iv")
      as (_ & _ & _ & recorded & _).
    destruct (recorded Scenario.alice Scenario.ruiz Scenario.council)
      as (token & _ & run).
    + repeat split.
    + reflexivity.
    + exists token. cbv zeta in run. now rewrite run.
Defined.

(** ** Administrative console *)

(** Running a view behind [admin_required] for an admin caller. *)
Lemma admin_required_admin (d : Db) (sess : option Z) (cu : User.t)
      (view : User.t -> Outcome) :
  current_user d sess = Some cu -> User.is_admin cu = true ->
  admin_required d sess view = view cu.
Proof.
  intros Hcu Hadmin. unfold admin_required, login_required.
  now rewrite Hcu, Hadmin.
Qed.

(** C10: a POST to [/admin/voters] by an admin whose target is the caller
    is answered with the warning and a redirect, and the database and the
    session stay as they are, whatever the [action] field holds or
    whether it is there at all. *)
Theorem admin_voters_self_target (P : IntParser) (d : Db) (sess : option Z)
        (req : Request) (cu target : User.t)
        (caller : current_user d sess = Some cu)
        (admin : User.is_admin cu = true)
        (posted : method req = POST)
        (found : get_by_text (get_user d) (multidict_get "user_id" (form req))
                 = Some target)
        (self : User.id target = User.id cu) :
  admin_voters d sess req
  = mkOutcome d sess [("You cannot modify your own role.", warning)]
              (redirect "admin_voters" None).
Proof.
  unfold admin_voters. rewrite (admin_required_admin d sess cu _ caller admin).
  rewrite posted. cbn [is_POST]. rewrite found.
  apply Z.eqb_eq in self. now rewrite self.
Qed.

(** The primary admin of the small election posts [delete] with their own
    id: nothing is deleted. *)
Lemma admin_voters_self_target_witness :
  current_user Scenario.election (Some 1) = Some Scenario.root
  /\ User.is_admin Scenario.root = true
  /\ method Scenario.delete_self = POST
  /\ get_by_text (parser:=Reference.parser) (get_user Scenario.election)
                 (multidict_get "user_id" (form Scenario.delete_self))
     = Some Scenario.root
  /\ admin_voters (parser:=Reference.parser) Scenario.election (Some 1)
                  Scenario.delete_self
     = mkOutcome Scenario.election (Some 1)
                 [("You cannot modify your own role.", warning)]
                 (redirect "admin_voters" None).
Proof.
  repeat (split; [ reflexivity | ]).
  exact (admin_voters_self_target Reference.parser Scenario.election (Some 1)
           Scenario.delete_self Scenario.root Scenario.root
           eq_refl eq_refl eq_refl eq_refl eq_refl).
Defined.

Lemma find_filter_negb {A} (p : A -> bool) (l : list A) :
  find p (filter (fun x => negb (p x)) l) = None.
Proof.
  induction l as [| a l IH]; simpl; [ reflexivity | ].
  destruct (p a) eqn:E; simpl; [ exact IH | now rewrite E ].
Qed.

(** C6: the [delete] action of [/admin/campaigns], posted by an admin for
    an existing campaign.  With a vote recorded in the campaign the
    action is refused with the danger notice and the database stays as it
    is; with none, the campaign row and every candidate of the campaign
    are removed, and the other campaigns and the candidates of other
    campaigns stay. *)
Theorem admin_campaigns_delete (P : IntParser) (d : Db) (sess : option Z)
        (req : Request) (now : Z) (cu : User.t) (raw : string) (i : Z)
        (campaign : Campaign.t)
        (caller : current_user d sess = Some cu)
        (admin : User.is_admin cu = true)
        (posted : method req = POST)
        (action : multidict_get "action" (form req) = Some "delete")
        (field : multidict_get "campaign_id" (form req) = Some raw)
        (filled : raw <> "")
        (parsed : py_int raw = Some i)
        (found : get_campaign d i = Some campaign) :
  let out := admin_campaigns d sess req now in
  (campaign_votes d campaign <> [] ->
   out = mkOutcome d sess
           [("Cannot delete a campaign that already has votes recorded.", danger)]
           (redirect "admin_campaigns" None))
  /\ (campaign_votes d campaign = [] ->
      out = mkOutcome (delete_campaign campaign d) sess
                      [("Campaign deleted.", info)]
                      (redirect "admin_campaigns" None)
      /\ get_campaign (db out) (Campaign.id campaign) = None
      /\ campaign_candidates (db out) campaign = []
      /\ (forall k, In k (candidates (db out)) <->
                    In k (candidates d)
                    /\ Candidate.campaign_id k <> Campaign.id campaign)
      /\ (forall c, In c (campaigns (db out)) <->
                    In c (campaigns d) /\ Campaign.id c <> Campaign.id campaign)).
Proof.
  intro out.
  assert (run : out
    = match campaign_votes d campaign with
      | _ :: _ =>
          mkOutcome d sess
            [("Cannot delete a campaign that already has votes recorded.",
              danger)]
            (redirect "admin_campaigns" None)
      | [] =>
          mkOutcome (delete_campaign campaign d) sess
                    [("Campaign deleted.", info)]
                    (redirect "admin_campaigns" None)
      end).
  { unfold out, admin_campaigns.
    rewrite (admin_required_admin d sess cu _ caller admin).
    rewrite posted. cbn [is_POST]. cbv zeta. rewrite action, field.
    apply truthy_true_iff in filled. rewrite filled, parsed, found.
    reflexivity. }
  split.
  - intro Hvotes. rewrite run.
    destruct (campaign_votes d campaign); [ contradiction | reflexivity ].
  - intro Hnone. rewrite run, Hnone. cbn [db].
    split; [ reflexivity | split; [| split; [| split ]]].
    + unfold get_campaign, delete_campaign. cbn [campaigns].
      apply (find_filter_negb (fun c => Campaign.id c =? Campaign.id campaign)).
    + unfold campaign_candidates, delete_campaign. cbn [candidates].
      apply find_none_filter.
      apply (find_filter_negb
               (fun k => Candidate.campaign_id k =? Campaign.id campaign)).
    + intro k. unfold delete_campaign. cbn [candidates].
      rewrite filter_In, negb_true_iff, Z.eqb_neq. reflexivity.
    + intro c. unfold delete_campaign. cbn [campaigns].
      rewrite filter_In, negb_true_iff, Z.eqb_neq. reflexivity.
Qed.

(** In the small election the second campaign has no vote: deleting it
    removes the campaign and its one candidate, while the first campaign,
    which holds a vote, cannot be deleted. *)
Lemma admin_campaigns_delete_witness :
  current_user Scenario.election (Some 1) = Some Scenario.root
  /\ User.is_admin Scenario.root = true
  /\ method Scenario.delete_council = POST
  /\ multidict_get "action" (form Scenario.delete_council) = Some "delete"
  /\ multidict_get "campaign_id" (form Scenario.delete_council) = Some "2"
  /\ py_int (IntParser:=Reference.parser) "2" = Some 2
  /\ get_campaign Scenario.election 2 = Some Scenario.council
  /\ db (admin_campaigns (parser:=Reference.parser) Scenario.election (Some 1)
                         Scenario.delete_council 500)
     = mkDb [Scenario.root; Scenario.alice; Scenario.mallory]
            [Scenario.general] [Scenario.johnson; Scenario.smith]
            [Scenario.ballot].
Proof.
  repeat (split; [ reflexivity | ]).
  pose proof (admin_campaigns_delete Reference.parser Scenario.election (Some 1)
                Scenario.delete_council 500 Scenario.root "2" 2 Scenario.council
                eq_refl eq_refl eq_refl eq_refl eq_refl ltac:(discriminate)
                eq_refl eq_refl) as (_ & deleted).
  destruct (deleted eq_refl) as (run & _).
  cbv zeta in run. now rewrite run.
Defined.

(** ** Candidates *)

Lemma find_update {A} (key : A -> Z) (f : A -> A) (i : Z) (l : list A) :
  (forall x, key (f x) = key x) ->
  find (fun x => key x =? i) (map (fun x => if key x =? i then f x else x) l)
  = option_map f (find (fun x => key x =? i) l).
Proof.
  intro Hkey. induction l as [| a l IH]; simpl; [ reflexivity | ].
  destruct (key a =? i) eqn:E.
  - now rewrite Hkey, E.
  - now rewrite E.
Qed.

Lemma get_by_text_candidate (P : IntParser) (d : Db) (raw : option string)
      (c : Candidate.t) :
  get_by_text (get_candidate d) raw = Some c ->
  get_candidate d (Candidate.id c) = Some c.
Proof.
  unfold get_by_text. destruct raw as [s |]; [| discriminate ].
  destruct (sql_integer s) as [i |]; [| discriminate ].
  intro Hf. pose proof Hf as Hi. apply find_some in Hi as (_ & Hi).
  apply Z.eqb_eq in Hi. now rewrite Hi.
Qed.

(** C9 (as stated) fails: the primary admin of the small election edits
    the first candidate, of the first campaign, with a form that names no
    campaign; the candidate moves to the second campaign, the most
    recently created one. *)
Lemma candidate_update_without_campaign_id_reassigns :
  multidict_get "campaign_id" (form Scenario.rename_johnson) = None
  /\ get_candidate Scenario.election 1
     = Some (Candidate.mk 1 "Alice Johnson" (Some "Transparency and trust.") 1)
  /\ get_candidate
       (db (admin_candidates (parser:=Reference.parser) Scenario.election
                             (Some 1) Scenario.rename_johnson))
       1
     = Some (Candidate.mk 1 "A. Johnson" None 2).
Proof. repeat split. Qed.

(** C9 (amended): the [update] action of [/admin/candidates], posted by an
    admin with a non-empty name for an existing candidate, overwrites the
    candidate's name and manifesto (absent when empty after the trim) and
    leaves the other candidates alone.  The campaign is reassigned to the
    id parsed from the form's [campaign_id] when that field is non-empty
    and parses; when the field is missing, empty or does not parse, it is
    reassigned to the selected campaign, that is the [campaign_id] query
    parameter when it names an existing campaign and otherwise the most
    recently created campaign.  An id of zero leaves the assignment as it
    was. *)
Theorem admin_candidates_update (P : IntParser) (d : Db) (sess : option Z)
        (req : Request) (cu : User.t) (first : Campaign.t)
        (rest : list Campaign.t) (candidate : Candidate.t)
        (caller : current_user d sess = Some cu)
        (admin : User.is_admin cu = true)
        (posted : method req = POST)
        (listing : order_by_desc Campaign.created_at (campaigns d)
                   = first :: rest)
        (action : multidict_get "action" (form req) = Some "update")
        (named : PyStr.strip (get_default "name" "" (form req)) <> "")
        (found : get_by_text (get_candidate d)
                             (multidict_get "candidate_id" (form req))
                 = Some candidate) :
  let name := PyStr.strip (get_default "name" "" (form req)) in
  let manifesto := PyStr.strip (get_default "manifesto" "" (form req)) in
  let field := multidict_get "campaign_id" (form req) in
  let selected := selected_campaign req first (first :: rest) in
  let out := admin_candidates d sess req in
  let assigned (target : Z) :=
    get_candidate (db out) (Candidate.id candidate)
    = Some (Candidate.mk (Candidate.id candidate) name (PyStr.or_None manifesto)
                         (if target =? 0 then Candidate.campaign_id candidate
                          else target))
    /\ response out = redirect "admin_candidates" (Some target) in
  (forall raw i, field = Some raw -> raw <> "" -> py_int raw = Some i ->
                 assigned i)
  /\ (field = None \/ field = Some ""
      \/ (exists raw, field = Some raw /\ py_int raw = None) ->
      assigned selected)
  /\ flashes out = [("Candidate updated.", success)]
  /\ (forall k, Candidate.id k <> Candidate.id candidate ->
                (In k (candidates (db out)) <-> In k (candidates d)))
  /\ with_candidates (candidates d) (db out) = d.
Proof.
  intros name manifesto field selected out assigned.
  set (target :=
         match field with
         | Some raw =>
             if PyStr.truthy raw
             then match py_int raw with Some i => i | None => selected end
             else selected
         | None => selected
         end).
  set (assign := fun c : Candidate.t =>
         let c := Candidate.with_name name c in
         let c := Candidate.with_manifesto (PyStr.or_None manifesto) c in
         if negb (target =? 0) then Candidate.with_campaign_id target c else c).
  assert (run : out
    = mkOutcome
        (with_candidates
           (update_candidate (Candidate.id candidate) assign (candidates d)) d)
        sess [("Candidate updated.", success)]
        (redirect "admin_candidates" (Some target))).
  { unfold out, admin_candidates.
    rewrite (admin_required_admin d sess cu _ caller admin).
    rewrite listing, posted. cbn [is_POST]. cbv zeta. rewrite action, found.
    apply truthy_true_iff in named. rewrite named. reflexivity. }
  assert (result : assigned target).
  { unfold assigned. rewrite run. cbn [db response]. split; [| reflexivity ].
    unfold get_candidate, update_candidate. cbn [candidates with_candidates].
    rewrite (find_update Candidate.id assign).
    - fold (get_candidate d (Candidate.id candidate)).
      rewrite (get_by_text_candidate P d _ candidate found). cbn [option_map].
      f_equal. unfold assign. cbv zeta. now destruct (target =? 0).
    - intro x. unfold assign. cbv zeta. now destruct (negb (target =? 0)). }
  split; [| split; [| split; [| split ]]].
  - intros raw i Hfield Hraw Hint.
    replace i with target; [ exact result | ].
    unfold target. rewrite Hfield. apply truthy_true_iff in Hraw.
    now rewrite Hraw, Hint.
  - intro Hmissing. replace selected with target; [ exact result | ].
    unfold target.
    destruct Hmissing as [-> | [-> | (raw & -> & Hint)]]; try reflexivity.
    rewrite Hint. now destruct (PyStr.truthy raw).
  - now rewrite run.
  - intros k Hk. rewrite run. cbn [db candidates with_candidates].
    unfold update_candidate. rewrite in_map_iff. split.
    + intros (x & Hx & Hin).
      destruct (Candidate.id x =? Candidate.id candidate) eqn:E.
      * exfalso. apply Hk. rewrite <- Hx. apply Z.eqb_eq in E. rewrite <- E.
        unfold assign. cbv zeta. now destruct (negb (target =? 0)).
      * now subst.
    + intro Hin. exists k. split; [| exact Hin ].
      apply Z.eqb_neq in Hk. now rewrite Hk.
  - rewrite run. now destruct d.
Qed.

(** The edit of the counterexample, through the theorem: no campaign is
    named in the form, and the candidate is assigned the selected
    campaign. *)
Lemma admin_candidates_update_witness :
  current_user Scenario.election (Some 1) = Some Scenario.root
  /\ User.is_admin Scenario.root = true
  /\ method Scenario.rename_johnson = POST
  /\ order_by_desc Campaign.created_at (campaigns Scenario.election)
     = [Scenario.council; Scenario.general]
  /\ multidict_get "action" (form Scenario.rename_johnson) = Some "update"
  /\ PyStr.strip (get_default "name" "" (form Scenario.rename_johnson)) <> ""
  /\ get_by_text (parser:=Reference.parser) (get_candidate Scenario.election)
                 (multidict_get "candidate_id" (form Scenario.rename_johnson))
     = Some Scenario.johnson
  /\ get_candidate
       (db (admin_candidates (parser:=Reference.parser) Scenario.election
                             (Some 1) Scenario.rename_johnson))
       1
     = Some (Candidate.mk 1 "A. Johnson" None 2).
Proof.
  repeat (split; [ first [ reflexivity | discriminate ] | ]).
  pose proof (admin_candidates_update Reference.parser Scenario.election (Some 1)
                Scenario.rename_johnson Scenario.root Scenario.council
                [Scenario.general] Scenario.johnson
                eq_refl eq_refl eq_refl eq_refl eq_refl ltac:(discriminate)
                eq_refl) as (_ & missing & _).
  destruct (missing (or_introl eq_refl)) as (row & _).
  exact row.
Defined.

(** * Further properties of the handlers *)

(** ** Guards *)

(** An authenticated caller who is no admin is turned away from every
    admin route with the danger notice and a redirect to the index; the
    database and the session stay as they are, whatever the request. *)
Theorem admin_routes_refuse_non_admin (P : IntParser) (d : Db)
        (sess : option Z) (cu : User.t) (req : Request) (now : Z)
        (caller : current_user d sess = Some cu)
        (plain : User.is_admin cu = false) :
  let refused :=
    mkOutcome d sess [("Admin access required.", danger)]
              (redirect "index" None) in
  admin_dashboard d sess = refused
  /\ admin_voters d sess req = refused
  /\ admin_campaigns d sess req now = refused
  /\ admin_candidates d sess req = refused.
Proof.
  assert (guard : forall view, admin_required d sess view
                  = mkOutcome d sess [("Admin access required.", danger)]
                              (redirect "index" None)).
  { intro view. unfold admin_required, login_required.
    now rewrite caller, plain. }
  repeat split; apply guard.
Qed.

(** The voter of the small election asks for the deletion of the primary
    admin and of a campaign: both requests are turned away. *)
Lemma admin_routes_refuse_non_admin_witness :
  current_user Scenario.election (Some 2) = Some Scenario.alice
  /\ User.is_admin Scenario.alice = false
  /\ db (admin_voters (parser:=Reference.parser) Scenario.election (Some 2)
                      Scenario.delete_self) = Scenario.election
  /\ db (admin_campaigns (parser:=Reference.parser) Scenario.election (Some 2)
                         Scenario.delete_council 500) = Scenario.election.
Proof.
  split; [ reflexivity | split; [ reflexivity | ] ].
  pose proof (admin_routes_refuse_non_admin Reference.parser Scenario.election
                (Some 2) Scenario.alice) as guard.
  split.
  - destruct (guard Scenario.delete_self 0 eq_refl eq_refl) as (_ & run & _).
    now rewrite run.
  - destruct (guard Scenario.delete_council 500 eq_refl eq_refl)
      as (_ & _ & run & _).
    now rewrite run.
Defined.

(** ** Casting a vote: what is written *)

Lemma current_user_session (d : Db) (sess : option Z) (cu : User.t) :
  current_user d sess = Some cu -> sess = Some (User.id cu).
Proof.
  destruct sess as [i |]; simpl; [| discriminate ].
  intro Hf. apply find_some in Hf as (_ & E). apply Z.eqb_eq in E. now subst.
Qed.

Lemma get_candidate_id (d : Db) (i : Z) (c : Candidate.t) :
  get_candidate d i = Some c -> Candidate.id c = i.
Proof.
  intro Hf. apply find_some in Hf as (_ & E). now apply Z.eqb_eq.
Qed.

Lemma app_singleton_neq {A} (l : list A) (x : A) : l <> (l ++ [x])%list.
Proof.
  intro E. apply (f_equal (@length A)) in E. rewrite length_app in E.
  simpl in E. lia.
Qed.

(** The token of a recorded vote is the one [encrypt_choice] returned. *)
Lemma cast_vote_token (H : PasswordHasher) (C : Cipher)
      (environ : string -> option string)
      (d : Db) (sess : option Z) (req : Request) (candidate_id now : Z)
      (nonce : string) (cu : User.t) (candidate : Candidate.t)
      (campaign : Campaign.t) (token : string) :
  admissible d sess req candidate_id cu candidate campaign ->
  votes_of d (User.id cu) (Campaign.id campaign) = [] ->
  db (cast_vote environ d sess req candidate_id now nonce)
  = with_votes (votes d ++ [new_vote d now cu candidate campaign token]) d ->
  encrypt_choice environ nonce (Candidate.name candidate) = Ok token.
Proof.
  intros adm Hnone Hdb.
  rewrite (cast_vote_admissible environ d sess req candidate_id now nonce
                                _ _ _ adm) in Hdb.
  apply existing_vote_none in Hnone. rewrite Hnone in Hdb.
  destruct (encrypt_choice environ nonce (Candidate.name candidate))
    as [t | e]; cbn [db] in Hdb.
  - apply (f_equal votes) in Hdb. cbn [votes with_votes] in Hdb.
    apply app_inv_head in Hdb. injection Hdb as ->. reflexivity.
  - apply (f_equal votes) in Hdb. cbn [votes with_votes] in Hdb.
    exfalso. exact (app_singleton_neq _ _ Hdb).
Qed.

(** [cast_vote] never touches users, campaigns or candidates, never
    changes the session and never removes or alters a vote: it leaves the
    votes as they are or appends one vote, which carries the caller's id,
    the candidate id of the path, the request's time and a fresh id.  An
    admin caller is always turned away. *)
Theorem cast_vote_only_appends (H : PasswordHasher) (C : Cipher)
        (environ : string -> option string)
        (d : Db) (sess : option Z) (req : Request) (candidate_id now : Z)
        (nonce : string) :
  let out := cast_vote environ d sess req candidate_id now nonce in
  users (db out) = users d
  /\ campaigns (db out) = campaigns d
  /\ candidates (db out) = candidates d
  /\ session out = sess
  /\ (votes (db out) = votes d
      \/ exists v,
           votes (db out) = (votes d ++ [v])%list
           /\ sess = Some (Vote.user_id v)
           /\ Vote.candidate_id v = candidate_id
           /\ Vote.timestamp v = now
           /\ Vote.id v = next_id (map Vote.id (votes d)))
  /\ (forall cu, current_user d sess = Some cu -> User.is_admin cu = true ->
                 out = mkOutcome d sess [("Admins cannot vote.", warning)]
                                 (redirect "admin_voters" None)).
Proof.
  intro out.
  assert (kept : session out = sess).
  { unfold out, cast_vote, login_required.
    destruct (current_user d sess) as [cu |]; [| reflexivity ].
    destruct (User.is_admin cu); [ reflexivity | ].
    destruct (negb _); [ reflexivity | ].
    destruct (get_candidate d candidate_id) as [k |]; [| reflexivity ].
    destruct (get_campaign d (Candidate.campaign_id k)) as [c |];
      [| reflexivity ].
    destruct (negb _); [ reflexivity | ].
    destruct (existing_vote d _ _); [ reflexivity | ].
    now destruct (encrypt_choice environ nonce (Candidate.name k)). }
  assert (admins : forall cu,
            current_user d sess = Some cu -> User.is_admin cu = true ->
            out = mkOutcome d sess [("Admins cannot vote.", warning)]
                            (redirect "admin_voters" None)).
  { intros cu Hcu Hadmin. unfold out, cast_vote, login_required.
    now rewrite Hcu, Hadmin. }
  destruct (cast_vote_cases environ d sess req candidate_id now nonce)
    as [same | (cu & candidate & campaign & token & adm & _ & run)];
    fold out in same || fold out in run.
  - rewrite same. repeat split; auto.
  - rewrite run. cbn [users campaigns candidates votes with_votes].
    repeat split; auto. right.
    exists (new_vote d now cu candidate campaign token).
    destruct adm as (Hcu & _ & _ & Hcand & _).
    repeat split.
    + now apply current_user_session in Hcu.
    + now apply get_candidate_id in Hcand.
Qed.

(** A vote that [cast_vote] records is for an active campaign, the
    campaign of the candidate; its [encrypted_choice] decrypts to the name
    the candidate has at that moment. *)
Theorem cast_vote_choice_round_trip (H : PasswordHasher) (C : Cipher)
        (environ : string -> option string) (sound : cipher_sound C)
        (d : Db) (sess : option Z) (req : Request) (candidate_id now : Z)
        (nonce : string) (v : Vote.t) :
  In v (votes (db (cast_vote environ d sess req candidate_id now nonce))) ->
  ~ In v (votes d) ->
  exists candidate campaign,
    get_candidate d candidate_id = Some candidate
    /\ get_campaign d (Candidate.campaign_id candidate) = Some campaign
    /\ Campaign.is_active campaign = true
    /\ Vote.campaign_id v = Candidate.campaign_id candidate
    /\ decrypt_choice environ (Vote.encrypted_choice v)
       = Ok (Some (Candidate.name candidate)).
Proof.
  intros Hin Hnew.
  destruct (cast_vote_cases environ d sess req candidate_id now nonce)
    as [same | (cu & candidate & campaign & token & adm & Hnone & run)].
  - rewrite same in Hin. contradiction.
  - pose proof (cast_vote_token H C environ d sess req candidate_id now nonce
                  cu candidate campaign token adm Hnone run) as Htoken.
    rewrite run in Hin. cbn [votes with_votes] in Hin.
    apply in_app_or in Hin as [Hold | [<- | []]]; [ contradiction | ].
    destruct adm as (_ & _ & _ & Hcand & Hcamp & Hactive).
    exists candidate, campaign. repeat split; try assumption.
    + cbn. now apply get_campaign_id in Hcamp.
    + cbn [new_vote Vote.encrypted_choice].
      now apply decrypt_encrypt_choice with (nonce := nonce).
Qed.

(** The second vote of the small election's voter, for Carla Ruiz, shows
    her name when decrypted. *)
Lemma cast_vote_choice_round_trip_witness :
  cipher_sound Reference.cipher
  /\ exists v,
       In v (votes (db (cast_vote (hasher:=Reference.hasher)
                          (cipher_lib:=Reference.cipher) Reference.environ
                          Scenario.election (Some 2) Scenario.ballot_form 3
                          400 "iv")))
       /\ ~ In v (votes Scenario.election)
       /\ decrypt_choice (cipher_lib:=Reference.cipher) Reference.environ
                         (Vote.encrypted_choice v)
          = Ok (Some "Carla Ruiz").
Proof.
  split; [ exact reference_cipher_sound | ].
  set (v := Vote.mk 2 400 2 3 2
              (Some "gVVJNb1dxSnkzMWk2RUwzUElFbXplMTAyMWlBVDh5R2g=Carla Ruiz")).
  assert (Hin : In v (votes (db (cast_vote (hasher:=Reference.hasher)
                          (cipher_lib:=Reference.cipher) Reference.environ
                          Scenario.election (Some 2) Scenario.ballot_form 3
                          400 "iv")))) by (right; left; reflexivity).
  assert (Hnew : ~ In v (votes Scenario.election))
    by (intros [E | []]; discriminate E).
  exists v. split; [ exact Hin | split; [ exact Hnew | ] ].
  destruct (cast_vote_choice_round_trip Reference.hasher Reference.cipher
              Reference.environ reference_cipher_sound Scenario.election
              (Some 2) Scenario.ballot_form 3 400 "iv" v Hin Hnew)
    as (candidate & campaign & Hcand & _ & _ & _ & Hdec).
  injection Hcand as <-. exact Hdec.
Defined.

(** ** Pausing and reactivating a campaign *)

Lemma admin_campaigns_toggle (P : IntParser) (d : Db) (sess : option Z)
      (req : Request) (now : Z) (boss : User.t) (raw : string)
      (campaign : Campaign.t) :
  current_user d sess = Some boss -> User.is_admin boss = true ->
  method req = POST ->
  multidict_get "action" (form req) = Some "toggle_active" ->
  multidict_get "campaign_id" (form req) = Some raw -> raw <> "" ->
  py_int raw = Some (Campaign.id campaign) ->
  get_campaign d (Campaign.id campaign) = Some campaign ->
  admin_campaigns d sess req now
  = mkOutcome
      (with_campaigns
         (update_campaign (Campaign.id campaign)
            (Campaign.with_is_active (negb (Campaign.is_active campaign)))
            (campaigns d)) d)
      sess
      [(if negb (Campaign.is_active campaign)
        then "Campaign activated." else "Campaign paused.", info)]
      (redirect "admin_campaigns" None).
Proof.
  intros caller admin posted action field filled parsed found.
  unfold admin_campaigns.
  rewrite (admin_required_admin d sess boss _ caller admin).
  rewrite posted. cbn [is_POST]. cbv zeta. rewrite action, field.
  apply truthy_true_iff in filled. rewrite filled, parsed, found.
  reflexivity.
Qed.

(** A vote for a candidate of a paused campaign is refused with the
    warning and nothing is written; once an admin has toggled the campaign
    with [toggle_active], the same request of the same voter is
    recorded. *)
Theorem cast_vote_after_reactivation
        (H : PasswordHasher) (C : Cipher) (P : IntParser)
        (environ : string -> option string) (sound : cipher_sound C)
        (d : Db) (voter boss_session : option Z) (req toggle : Request)
        (raw : string) (candidate_id now later : Z) (nonce : string)
        (cu boss : User.t) (candidate : Candidate.t) (campaign : Campaign.t)
        (caller : current_user d voter = Some cu)
        (plain : User.is_admin cu = false)
        (key : User.verify_security_key cu
                 (Some (PyStr.strip
                          (get_default "security_key" "" (form req)))) = true)
        (chosen : get_candidate d candidate_id = Some candidate)
        (owner : get_campaign d (Candidate.campaign_id candidate)
                 = Some campaign)
        (paused : Campaign.is_active campaign = false)
        (unvoted : votes_of d (User.id cu) (Campaign.id campaign) = [])
        (boss_caller : current_user d boss_session = Some boss)
        (boss_admin : User.is_admin boss = true)
        (posted : method toggle = POST)
        (action : multidict_get "action" (form toggle) = Some "toggle_active")
        (field : multidict_get "campaign_id" (form toggle) = Some raw)
        (filled : raw <> "")
        (parsed : py_int raw = Some (Campaign.id campaign)) :
  let d1 := db (admin_campaigns d boss_session toggle later) in
  cast_vote environ d voter req candidate_id now nonce
  = mkOutcome d voter [("This campaign is not accepting votes.", warning)]
              (redirect "user_dashboard" None)
  /\ exists token,
       cast_vote environ d1 voter req candidate_id now nonce
       = mkOutcome
           (with_votes
              (votes d
               ++ [new_vote d now cu candidate
                            (Campaign.with_is_active true campaign) token])
              d1)
           voter [("Vote submitted successfully!", success)]
           (redirect "user_dashboard" None).
Proof.
  intro d1.
  pose proof (get_campaign_id _ _ _ owner) as Hid.
  split.
  - unfold cast_vote, login_required. rewrite caller, plain, key. cbn [negb].
    now rewrite chosen, owner, paused.
  - assert (run : d1
      = with_campaigns
          (update_campaign (Campaign.id campaign)
             (Campaign.with_is_active true) (campaigns d)) d).
    { unfold d1.
      rewrite (admin_campaigns_toggle P d boss_session toggle later boss raw
                 campaign boss_caller boss_admin posted action field filled
                 parsed).
      - cbn [db]. now rewrite paused.
      - now rewrite Hid. }
    assert (adm : admissible d1 voter req candidate_id cu candidate
                             (Campaign.with_is_active true campaign)).
    { rewrite run. repeat split; try assumption.
      unfold get_campaign, update_campaign. cbn [campaigns with_campaigns].
      rewrite <- Hid.
      rewrite (find_update Campaign.id (Campaign.with_is_active true))
        by reflexivity.
      fold (get_campaign d (Campaign.id campaign)). rewrite Hid, owner.
      reflexivity. }
    rewrite (cast_vote_admissible environ d1 voter req candidate_id now nonce
                                  _ _ _ adm).
    assert (none : existing_vote d1 (User.id cu)
                     (Campaign.id (Campaign.with_is_active true campaign))
                   = None).
    { rewrite run. apply existing_vote_none. exact unvoted. }
    rewrite none.
    destruct (encrypt_choice_token environ sound nonce (Candidate.name candidate))
      as (token & Htoken & _).
    exists token. rewrite Htoken. rewrite run. reflexivity.
Qed.

(** With the second campaign of the small election paused, the voter's
    ballot for Carla Ruiz is refused; after the primary admin's toggle it
    is recorded. *)
Lemma cast_vote_after_reactivation_witness :
  cipher_sound Reference.cipher
  /\ db (cast_vote (hasher:=Reference.hasher) (cipher_lib:=Reference.cipher)
                   Reference.environ Scenario.paused (Some 2)
                   Scenario.ballot_form 3 400 "iv")
     = Scenario.paused
  /\ exists token,
       votes (db (cast_vote (hasher:=Reference.hasher)
                    (cipher_lib:=Reference.cipher) Reference.environ
                    (db (admin_campaigns (parser:=Reference.parser)
                           Scenario.paused (Some 1) Scenario.toggle_council
                           390))
                    (Some 2) Scenario.ballot_form 3 400 "iv"))
       = [Scenario.ballot; Vote.mk 2 400 2 3 2 (Some token)].
Proof.
  split; [ exact reference_cipher_sound | ].
  pose proof (cast_vote_after_reactivation Reference.hasher Reference.cipher
                Reference.parser Reference.environ reference_cipher_sound
                Scenario.paused (Some 2) (Some 1) Scenario.ballot_form
                Scenario.toggle_council "2" 3 400 390 "iv"
                Scenario.alice Scenario.root Scenario.ruiz
                (Campaign.with_is_active false Scenario.council)
                eq_refl eq_refl eq_refl eq_refl eq_refl eq_refl eq_refl
                eq_refl eq_refl eq_refl eq_refl eq_refl ltac:(discriminate)
                eq_refl) as (refused & token & recorded).
  split.
  - now rewrite refused.
  - exists token. cbv zeta in recorded. now rewrite recorded.
Defined.

(** ** Logging in *)

(** [login] never writes to the database, and it establishes a session
    only on a POST by an anonymous caller, for the user registered under
    the normalized email, when the password checks and the user is an
    admin or the trimmed security key verifies; in every other case the
    session is left as it was. *)
Theorem login_sound (H : PasswordHasher) (d : Db) (sess : option Z)
        (req : Request) :
  let email := PyStr.lower (PyStr.strip (get_default "email" "" (form req))) in
  let password := get_default "password" "" (form req) in
  let security_key := PyStr.strip (get_default "security_key" "" (form req)) in
  let out := login d sess req in
  db out = d
  /\ (session out = sess
      \/ exists u,
           method req = POST
           /\ is_authenticated d sess = false
           /\ user_by_email d email = Some u
           /\ User.check_password u password = true
           /\ (User.is_admin u = true
               \/ User.verify_security_key u (Some security_key) = true)
           /\ session out = Some (User.id u)
           /\ flashes out = [("Welcome back!", success)]).
Proof.
  intros email password security_key out. unfold out, login.
  destruct (is_authenticated d sess) eqn:Hauth; [ now split; [| left ] | ].
  destruct (method req) eqn:Hm; cbn [is_POST]; try (now split; [| left ]).
  fold email password security_key. unfold login_attempt.
  destruct (user_by_email d email) as [u |] eqn:Hu; [| now split; [| left ] ].
  destruct (User.check_password u password) eqn:Hpw;
    [| now split; [| left ] ].
  destruct (User.is_admin u) eqn:Hadmin; cbn [negb andb].
  - split; [ now destruct (multidict_get "next" (args req)) as [n |];
             [ destruct (PyStr.truthy n) | ] | ].
    right. exists u. repeat split; auto;
      destruct (multidict_get "next" (args req)) as [n |];
      try destruct (PyStr.truthy n); reflexivity.
  - destruct (User.verify_security_key u (Some security_key)) eqn:Hkey;
      cbn [negb].
    + split; [ now destruct (multidict_get "next" (args req)) as [n |];
               [ destruct (PyStr.truthy n) | ] | ].
      right. exists u. repeat split; auto;
        destruct (multidict_get "next" (args req)) as [n |];
        try destruct (PyStr.truthy n); reflexivity.
    + now split; [| left ].
Qed.

Lemma find_app_last {A} (p : A -> bool) (l : list A) (x : A) :
  find p l = None -> p x = true -> find p (l ++ [x]) = Some x.
Proof.
  intros Hnone Hx. induction l as [| a l IH]; simpl in *.
  - now rewrite Hx.
  - destruct (p a); [ discriminate | now apply IH ].
Qed.

(** What a successful [signup] writes. *)
Lemma signup_created (H : PasswordHasher) (d : Db) (sess : option Z)
      (req : Request) (now : Z) (salt_pw salt_key : string) :
  let username := PyStr.strip (get_default "username" "" (form req)) in
  let email := PyStr.lower (PyStr.strip (get_default "email" "" (form req))) in
  let password := get_default "password" "" (form req) in
  let security_key := PyStr.strip (get_default "security_key" "" (form req)) in
  is_authenticated d sess = false -> method req = POST ->
  signup_errors d username email password security_key = [] ->
  signup d sess req now salt_pw salt_key
  = mkOutcome
      (with_users
         (users d
          ++ [User.mk (next_id (map User.id (users d))) username email
                      (generate_password_hash salt_pw password)
                      (String.eqb email primary_email)
                      (if String.eqb email primary_email then None
                       else Some (generate_password_hash salt_key security_key))
                      now]) d)
      sess [("Account created. Please log in.", success)]
      (redirect "login" None).
Proof.
  intros username email password security_key anonymous posted clean.
  unfold signup. rewrite anonymous, posted. cbn [is_POST].
  fold username email password security_key. rewrite clean.
  do 3 f_equal.
  destruct (String.eqb email primary_email) eqn:E; [ reflexivity | ].
  apply signup_errors_nil in clean as (_ & _ & _ & _ & [Hp | Hk]).
  - apply String.eqb_eq in Hp. congruence.
  - cbn. apply truthy_true_iff in Hk. rewrite Hk.
    unfold security_key. now rewrite strip_idempotent.
Qed.

(** An account made by [signup] can log in: a later POST to [/login]
    without session and without [next], whose email normalizes to the
    registered one and whose password is the one signed up with, opens a
    session for the new user when, for a voter, the trimmed security key
    is the one signed up with; the primary admin needs no key.  The
    voter lands on the dashboard, the primary admin on the admin view. *)
Theorem signup_then_login (H : PasswordHasher) (sound : hasher_sound H)
        (d : Db) (req attempt : Request) (now : Z) (salt_pw salt_key : string)
        (posted : method req = POST)
        (clean : signup_errors d
                   (PyStr.strip (get_default "username" "" (form req)))
                   (PyStr.lower (PyStr.strip (get_default "email" "" (form req))))
                   (get_default "password" "" (form req))
                   (PyStr.strip (get_default "security_key" "" (form req)))
                 = [])
        (posted' : method attempt = POST)
        (direct : multidict_get "next" (args attempt) = None)
        (same_email :
           PyStr.lower (PyStr.strip (get_default "email" "" (form attempt)))
           = PyStr.lower (PyStr.strip (get_default "email" "" (form req))))
        (same_password : get_default "password" "" (form attempt)
                         = get_default "password" "" (form req))
        (same_key :
           PyStr.lower (PyStr.strip (get_default "email" "" (form req)))
           <> primary_email ->
           PyStr.strip (get_default "security_key" "" (form attempt))
           = PyStr.strip (get_default "security_key" "" (form req))) :
  let d1 := db (signup d None req now salt_pw salt_key) in
  let primary :=
    String.eqb (PyStr.lower (PyStr.strip (get_default "email" "" (form req))))
               primary_email in
  login d1 None attempt
  = mkOutcome d1 (Some (next_id (map User.id (users d))))
              [("Welcome back!", success)]
              (redirect (if primary then "admin_voters" else "user_dashboard")
                        None).
Proof.
  intros d1 primary.
  destruct sound as [check nonempty].
  pose proof (signup_created H d None req now salt_pw salt_key
                             eq_refl posted clean) as run.
  cbv zeta in run. fold primary in run.
  set (username := PyStr.strip (get_default "username" "" (form req))) in *.
  set (email := PyStr.lower (PyStr.strip (get_default "email" "" (form req))))
    in *.
  set (password := get_default "password" "" (form req)) in *.
  set (security_key := PyStr.strip (get_default "security_key" "" (form req)))
    in *.
  set (user := User.mk (next_id (map User.id (users d))) username email
                       (generate_password_hash salt_pw password) primary
                       (if primary then None
                        else Some (generate_password_hash salt_key security_key))
                       now) in *.
  assert (Hd1 : d1 = with_users (users d ++ [user]) d)
    by (unfold d1; now rewrite run).
  apply signup_errors_nil in clean as (_ & _ & _ & Hfree & Hkey).
  assert (Hfound : user_by_email d1 email = Some user).
  { rewrite Hd1. unfold user_by_email. cbn [users with_users].
    apply find_app_last; [ exact Hfree | apply String.eqb_refl ]. }
  unfold login. cbn [is_authenticated current_user]. rewrite posted'.
  cbn [is_POST]. rewrite same_email, same_password. fold email password.
  rewrite Hfound. unfold login_attempt.
  assert (Hpw : User.check_password user password = true).
  { unfold User.check_password. cbn [User.password_hash user].
    rewrite check. apply String.eqb_refl. }
  rewrite Hpw. rewrite direct. cbn [User.is_admin user User.id].
  destruct primary eqn:Eprimary; cbn [negb andb]; [ reflexivity | ].
  assert (Hne : email <> primary_email)
    by (apply String.eqb_neq; exact Eprimary).
  rewrite (same_key Hne). fold security_key.
  destruct Hkey as [Hp | Hk]; [ contradiction | ].
  assert (Hverify : User.verify_security_key user (Some security_key) = true).
  { unfold User.verify_security_key. cbn [User.security_key_hash user].
    apply truthy_true_iff in Hk. rewrite Hk. cbn [negb orb PyStr.truthy_opt].
    pose proof (nonempty salt_key security_key) as Hh.
    apply truthy_true_iff in Hh. rewrite Hh. cbn [negb].
    unfold security_key at 2. rewrite strip_idempotent. fold security_key.
    rewrite check. apply String.eqb_refl. }
  rewrite Hverify. reflexivity.
Qed.

(** In the small election a new voter signs up as " Carol@Example.org "
    with the key " K9 " and then logs in as "carol@example.org" with the
    key "K9". *)
Lemma signup_then_login_witness :
  hasher_sound Reference.hasher
  /\ method Scenario.signup_carol = POST
  /\ method Scenario.login_carol = POST
  /\ session (login (hasher:=Reference.hasher)
                (db (signup (hasher:=Reference.hasher) Scenario.election None
                            Scenario.signup_carol 600 "s1" "s2"))
                None Scenario.login_carol)
     = Some 4.
Proof.
  split; [ exact reference_hasher_sound | ].
  split; [ reflexivity | split; [ reflexivity | ] ].
  pose proof (signup_then_login Reference.hasher reference_hasher_sound
                Scenario.election Scenario.signup_carol Scenario.login_carol
                600 "s1" "s2" eq_refl eq_refl eq_refl eq_refl eq_refl eq_refl
                (fun _ => eq_refl)) as run.
  cbv zeta in run. now rewrite run.
Defined.

(** ** What the admin handlers can write *)

Lemma get_by_text_found {A} (P : IntParser) (get : Z -> option A)
      (raw : option string) (x : A) :
  get_by_text get raw = Some x -> exists i, get i = Some x.
Proof.
  unfold get_by_text. destruct raw as [s |]; [| discriminate ].
  destruct (sql_integer s) as [i |]; [| discriminate ]. eauto.
Qed.

(** [/admin/voters] keeps the session and leaves the database alone,
    flips the admin flag of one user, or deletes one user with their
    votes. *)
Lemma admin_voters_cases (P : IntParser) (d : Db) (sess : option Z)
      (req : Request) :
  let out := admin_voters d sess req in
  session out = sess
  /\ (db out = d
      \/ exists target,
           In target (users d)
           /\ (db out
               = with_users
                   (update_user (User.id target)
                      (User.with_is_admin (negb (User.is_admin target)))
                      (users d)) d
               \/ db out = delete_user target d)).
Proof.
  unfold admin_voters, admin_required, login_required.
  destruct (current_user d sess) as [cu |]; [| now split; [| left ] ].
  destruct (negb (User.is_admin cu)); [ now split; [| left ] | ].
  destruct (is_POST (method req)); [| now split; [| left ] ].
  destruct (get_by_text (get_user d) (multidict_get "user_id" (form req)))
    as [target |] eqn:Hfound; [| now split; [| left ] ].
  assert (Hin : In target (users d)).
  { apply get_by_text_found in Hfound as (i & Hi).
    now apply find_some in Hi. }
  destruct (User.id target =? User.id cu); [ now split; [| left ] | ].
  destruct (opt_eqb (multidict_get "action" (form req)) "toggle_admin").
  - split; [ reflexivity | right ]. exists target. split; [ exact Hin | now left ].
  - destruct (opt_eqb (multidict_get "action" (form req)) "delete").
    + split; [ reflexivity | right ]. exists target.
      split; [ exact Hin | now right ].
    + now split; [| left ].
Qed.

(** [/admin/campaigns] keeps the session and leaves the database alone,
    appends a campaign with a fresh id and an unused name, rewrites the
    name, description and flag of one campaign to a name no other
    campaign has, sets the flag of one campaign, or deletes a campaign
    without votes. *)
Lemma admin_campaigns_cases (P : IntParser) (d : Db) (sess : option Z)
      (req : Request) (now : Z) :
  let out := admin_campaigns d sess req now in
  session out = sess
  /\ (db out = d
      \/ (exists c,
             campaign_by_name d (Campaign.name c) = None
             /\ Campaign.id c = next_id (map Campaign.id (campaigns d))
             /\ db out = with_campaigns (campaigns d ++ [c]) d)
      \/ (exists campaign n descr b,
             In campaign (campaigns d)
             /\ (forall c, In c (campaigns d) -> Campaign.name c = n ->
                           Campaign.id c = Campaign.id campaign)
             /\ db out
                = with_campaigns
                    (update_campaign (Campaign.id campaign)
                                     (Campaign.updated n descr b) (campaigns d))
                    d)
      \/ (exists campaign b,
             In campaign (campaigns d)
             /\ db out
                = with_campaigns
                    (update_campaign (Campaign.id campaign)
                                     (Campaign.with_is_active b) (campaigns d))
                    d)
      \/ (exists campaign,
             In campaign (campaigns d)
             /\ campaign_votes d campaign = []
             /\ db out = delete_campaign campaign d)).
Proof.
  unfold admin_campaigns, admin_required, login_required.
  destruct (current_user d sess) as [cu |]; [| now split; [| left ] ].
  destruct (negb (User.is_admin cu)); [ now split; [| left ] | ].
  destruct (is_POST (method req)); [| now split; [| left ] ].
  cbv zeta.
  set (name := PyStr.strip (get_default "name" "" (form req))).
  set (descr := PyStr.or_None
                  (PyStr.strip (get_default "description" "" (form req)))).
  set (flag := opt_eqb (multidict_get "is_active" (form req)) "on").
  destruct (opt_eqb (multidict_get "action" (form req)) "create").
  { destruct (negb (PyStr.truthy name)); [ now split; [| left ] | ].
    destruct (campaign_by_name d name) eqn:Hname; [ now split; [| left ] | ].
    split; [ reflexivity | right; left ].
    exists (Campaign.mk (next_id (map Campaign.id (campaigns d))) name descr
                        flag None None now).
    split; [ exact Hname | split; reflexivity ]. }
  destruct (match match multidict_get "campaign_id" (form req) with
                  | Some raw => if PyStr.truthy raw then py_int raw else None
                  | None => None
                  end with
            | Some i => get_campaign d i
            | None => None
            end) as [campaign |] eqn:Hfound; [| now split; [| left ] ].
  assert (Hin : In campaign (campaigns d)).
  { destruct (match multidict_get "campaign_id" (form req) with
              | Some raw => if PyStr.truthy raw then py_int raw else None
              | None => None
              end) as [i |]; [| discriminate ].
    now apply find_some in Hfound. }
  destruct (opt_eqb (multidict_get "action" (form req)) "update").
  { destruct (negb (PyStr.truthy name)); [ now split; [| left ] | ].
    destruct (existsb _ (campaigns d)) eqn:Hdup; [ now split; [| left ] | ].
    split; [ reflexivity | right; right; left ].
    exists campaign, name, descr, flag. split; [ exact Hin | split ];
      [| reflexivity ].
    intros c Hc Hn.
    destruct (Z.eq_dec (Campaign.id c) (Campaign.id campaign)) as [E | E];
      [ exact E | exfalso ].
    apply not_true_iff_false in Hdup. apply Hdup. apply existsb_exists.
    exists c. split; [ exact Hc | ].
    apply andb_true_iff. split.
    - now apply String.eqb_eq.
    - apply negb_true_iff. now apply Z.eqb_neq. }
  destruct (opt_eqb (multidict_get "action" (form req)) "toggle_active").
  { split; [ reflexivity | right; right; right; left ].
    exists campaign, (negb (Campaign.is_active campaign)).
    split; [ exact Hin | reflexivity ]. }
  destruct (opt_eqb (multidict_get "action" (form req)) "delete");
    [| now split; [| left ] ].
  destruct (campaign_votes d campaign) eqn:Hvotes; [| now split; [| left ] ].
  split; [ reflexivity | right; right; right; right ].
  exists campaign. repeat split; assumption.
Qed.

(** [/admin/candidates] keeps the session and leaves the database alone,
    appends a candidate with a fresh id, rewrites one candidate keeping
    its id, or deletes one candidate with its votes. *)
Lemma admin_candidates_cases (P : IntParser) (d : Db) (sess : option Z)
      (req : Request) :
  let out := admin_candidates d sess req in
  session out = sess
  /\ (db out = d
      \/ (exists k,
             Candidate.id k = next_id (map Candidate.id (candidates d))
             /\ Candidate.name k <> ""
             /\ Candidate.campaign_id k <> 0
             /\ db out = with_candidates (candidates d ++ [k]) d)
      \/ (exists candidate f,
             In candidate (candidates d)
             /\ (forall k, Candidate.id (f k) = Candidate.id k)
             /\ (forall k, Candidate.name (f k) <> "")
             /\ (forall k, Candidate.campaign_id k <> 0 ->
                           Candidate.campaign_id (f k) <> 0)
             /\ db out
                = with_candidates
                    (update_candidate (Candidate.id candidate) f (candidates d))
                    d)
      \/ (exists candidate,
             In candidate (candidates d)
             /\ db out = delete_candidate candidate d)).
Proof.
  unfold admin_candidates, admin_required, login_required.
  destruct (current_user d sess) as [cu |]; [| now split; [| left ] ].
  destruct (negb (User.is_admin cu)); [ now split; [| left ] | ].
  destruct (order_by_desc Campaign.created_at (campaigns d)) as [| first rest];
    [ now split; [| left ] | ].
  destruct (is_POST (method req)); [| now split; [| left ] ].
  cbv zeta.
  set (name := PyStr.strip (get_default "name" "" (form req))).
  set (manifesto := PyStr.or_None
                      (PyStr.strip (get_default "manifesto" "" (form req)))).
  set (campaign_id :=
         match multidict_get "campaign_id" (form req) with
         | Some raw =>
             if PyStr.truthy raw
             then match py_int raw with
                  | Some i => i
                  | None => selected_campaign req first (first :: rest)
                  end
             else selected_campaign req first (first :: rest)
         | None => selected_campaign req first (first :: rest)
         end).
  destruct (opt_eqb (multidict_get "action" (form req)) "create").
  { destruct (PyStr.truthy name) eqn:Hname; cbn [negb];
      [| now split; [| left ] ].
    destruct (campaign_id =? 0) eqn:Hzero; [ now split; [| left ] | ].
    split; [ reflexivity | right; left ].
    exists (Candidate.mk (next_id (map Candidate.id (candidates d))) name
                         manifesto campaign_id).
    split; [ reflexivity | split; [| split; [| reflexivity ] ] ].
    - cbn. now apply truthy_true_iff.
    - cbn. now apply Z.eqb_neq. }
  destruct (get_by_text (get_candidate d)
                        (multidict_get "candidate_id" (form req)))
    as [candidate |] eqn:Hfound; [| now split; [| left ] ].
  assert (Hin : In candidate (candidates d)).
  { apply get_by_text_found in Hfound as (i & Hi).
    now apply find_some in Hi. }
  destruct (opt_eqb (multidict_get "action" (form req)) "update").
  { destruct (PyStr.truthy name) eqn:Hname; cbn [negb];
      [| now split; [| left ] ].
    split; [ reflexivity | right; right; left ].
    eexists candidate, _. split; [ exact Hin | ].
    split; [| split; [| split; [| reflexivity ] ] ].
    - intro k. cbv zeta. now destruct (negb (campaign_id =? 0)).
    - intro k. cbv zeta. apply truthy_true_iff in Hname.
      now destruct (negb (campaign_id =? 0)).
    - intros k Hk. cbv zeta.
      destruct (campaign_id =? 0) eqn:Hzero; cbn [negb]; [ exact Hk | ].
      cbn. now apply Z.eqb_neq. }
  destruct (opt_eqb (multidict_get "action" (form req)) "delete");
    [| now split; [| left ] ].
  split; [ reflexivity | right; right; right ].
  exists candidate. split; [ exact Hin | reflexivity ].
Qed.

(** ** Lists of rows *)

Lemma fold_max_ge (l : list Z) (a : Z) :
  a <= fold_left Z.max l a /\ forall x, In x l -> x <= fold_left Z.max l a.
Proof.
  revert a. induction l as [| b l IH]; intro a; simpl.
  - split; [ lia | contradiction ].
  - destruct (IH (Z.max a b)) as (Ha & Hl). split; [ lia | ].
    intros x [<- | Hx]; [ lia | now apply Hl ].
Qed.

(** The id of a new row is above every id in use. *)
Lemma next_id_fresh (ids : list Z) (i : Z) : In i ids -> i < next_id ids.
Proof.
  destruct ids as [| a rest]; simpl; [ contradiction | ].
  destruct (fold_max_ge rest a) as (Ha & Hl).
  intros [<- | Hi]; [ lia | ]. specialize (Hl i Hi). lia.
Qed.

Lemma next_id_not_in (ids : list Z) : ~ In (next_id ids) ids.
Proof. intro Hin. apply next_id_fresh in Hin. lia. Qed.

Lemma NoDup_snoc {A} (l : list A) (x : A) :
  NoDup l -> ~ In x l -> NoDup (l ++ [x]).
Proof.
  intros Hl Hx. apply NoDup_app; [ exact Hl | | ].
  - constructor; [ intros [] | constructor ].
  - intros y Hy [<- | []]. contradiction.
Qed.

Lemma NoDup_map_filter {A B} (key : A -> B) (p : A -> bool) (l : list A) :
  NoDup (map key l) -> NoDup (map key (filter p l)).
Proof.
  induction l as [| a l IH]; simpl; [ constructor | ].
  intro Hnd. inversion Hnd as [| ? ? Hnotin Hnd']; subst.
  destruct (p a); simpl; [ constructor | ]; auto.
  intro Hin. apply Hnotin. apply in_map_iff in Hin as (y & Hy & Hf).
  apply filter_In in Hf as (Hf & _). rewrite <- Hy. now apply in_map.
Qed.

Lemma map_update_same {A B} (key : A -> B) (id : A -> Z) (f : A -> A)
      (i : Z) (l : list A) :
  (forall x, key (f x) = key x) ->
  map key (map (fun x => if id x =? i then f x else x) l) = map key l.
Proof.
  intro Hkey. rewrite map_map. apply map_ext. intro x.
  now destruct (id x =? i).
Qed.

Lemma find_app_found {A} (p : A -> bool) (l l' : list A) :
  find p l <> None -> find p (l ++ l') <> None.
Proof.
  induction l as [| a l IH]; simpl; [ congruence | ].
  destruct (p a); [ discriminate | exact IH ].
Qed.

Lemma find_update_found {A} (key : A -> Z) (f : A -> A) (j i : Z)
      (l : list A) :
  (forall x, key (f x) = key x) ->
  find (fun x => key x =? i) l <> None ->
  find (fun x => key x =? i)
       (map (fun x => if key x =? j then f x else x) l) <> None.
Proof.
  intros Hkey. induction l as [| a l IH]; simpl; [ congruence | ].
  assert (E : key (if key a =? j then f a else a) = key a)
    by (destruct (key a =? j); auto).
  rewrite E. destruct (key a =? i); [ discriminate | exact IH ].
Qed.

Lemma find_filter_keep {A} (p q : A -> bool) (l : list A) (x : A) :
  find p l = Some x -> q x = true -> find p (filter q l) = Some x.
Proof.
  induction l as [| a l IH]; simpl; [ discriminate | ].
  destruct (p a) eqn:Hp.
  - intros E Hq. injection E as ->. simpl. rewrite Hq. simpl. now rewrite Hp.
  - intros E Hq. destruct (q a); simpl; [ rewrite Hp | ]; now apply IH.
Qed.

Lemma find_filter_found {A} (p q : A -> bool) (l : list A) :
  (forall x, p x = true -> q x = true) ->
  find p l <> None -> find p (filter q l) <> None.
Proof.
  intros Hpq Hf. destruct (find p l) as [x |] eqn:E; [| congruence ].
  rewrite (find_filter_keep p q l x E); [ discriminate | ].
  apply Hpq. now apply find_some in E.
Qed.

Lemma filter_filter_length {A} (p q : A -> bool) (l : list A) :
  (length (filter p (filter q l)) <= length (filter p l))%nat.
Proof.
  induction l as [| a l IH]; simpl; [ lia | ].
  destruct (q a), (p a) eqn:Hp; simpl; rewrite ?Hp; simpl; lia.
Qed.

Lemma user_by_email_none (d : Db) (e : string) :
  user_by_email d e = None -> ~ In e (map User.email (users d)).
Proof.
  intros Hnone Hin. apply in_map_iff in Hin as (u & <- & Hu).
  pose proof (find_none _ _ Hnone u Hu) as E. cbv beta in E.
  now rewrite String.eqb_refl in E.
Qed.

(** [signup] leaves the database alone or appends one user, with a fresh
    id and an email nobody has. *)
Lemma signup_cases (H : PasswordHasher) (d : Db) (sess : option Z)
      (req : Request) (now : Z) (salt_pw salt_key : string) :
  let out := signup d sess req now salt_pw salt_key in
  session out = sess
  /\ (db out = d
      \/ exists u,
           User.id u = next_id (map User.id (users d))
           /\ user_by_email d (User.email u) = None
           /\ db out = with_users (users d ++ [u]) d).
Proof.
  destruct (is_authenticated d sess) eqn:Hauth;
    [ unfold signup; rewrite Hauth; now split; [| left ] | ].
  destruct (method req) eqn:Hm;
    try (unfold signup; rewrite Hauth, Hm; now split; [| left ]).
  destruct (signup_errors d
              (PyStr.strip (get_default "username" "" (form req)))
              (PyStr.lower (PyStr.strip (get_default "email" "" (form req))))
              (get_default "password" "" (form req))
              (PyStr.strip (get_default "security_key" "" (form req))))
    as [| e errors] eqn:Herr.
  - cbv zeta.
    rewrite (signup_created H d sess req now salt_pw salt_key Hauth Hm Herr).
    split; [ reflexivity | right ]. eexists. cbn [db].
    split; [| split; [| reflexivity ] ]; [ reflexivity | ].
    cbn [User.email]. now apply signup_errors_nil in Herr.
  - unfold signup. rewrite Hauth, Hm. cbn [is_POST]. rewrite Herr.
    now split; [| left ].
Qed.

(** ** The schema's constraints are kept *)

Lemma db_wf_append_user (d : Db) (u : User.t) :
  db_wf d -> User.id u = next_id (map User.id (users d)) ->
  user_by_email d (User.email u) = None ->
  db_wf (with_users (users d ++ [u]) d).
Proof.
  intros [pk uniq cpk kpk vpk] Hid Hfree.
  constructor; cbn [users campaigns candidates votes with_users];
    try assumption; rewrite map_app; cbn [map]; apply NoDup_snoc;
    try assumption.
  - rewrite Hid. apply next_id_not_in.
  - now apply user_by_email_none.
Qed.

Lemma db_wf_update_user (d : Db) (i : Z) (b : bool) :
  db_wf d ->
  db_wf (with_users (update_user i (User.with_is_admin b) (users d)) d).
Proof.
  intros [pk uniq cpk kpk vpk].
  constructor; cbn [users campaigns candidates votes with_users];
    try assumption; unfold update_user;
    rewrite map_update_same by reflexivity; assumption.
Qed.

Lemma db_wf_delete_user (d : Db) (u : User.t) : db_wf d -> db_wf (delete_user u d).
Proof.
  intros [pk uniq cpk kpk vpk].
  constructor; cbn [users campaigns candidates votes delete_user];
    try assumption; now apply NoDup_map_filter.
Qed.

Lemma db_wf_append_vote (d : Db) (v : Vote.t) :
  db_wf d -> Vote.id v = next_id (map Vote.id (votes d)) ->
  db_wf (with_votes (votes d ++ [v]) d).
Proof.
  intros [pk uniq cpk kpk vpk] Hid.
  constructor; cbn [users campaigns candidates votes with_votes];
    try assumption.
  rewrite map_app. cbn [map]. apply NoDup_snoc; [ assumption | ].
  rewrite Hid. apply next_id_not_in.
Qed.

Lemma db_wf_append_campaign (d : Db) (c : Campaign.t) :
  db_wf d -> Campaign.id c = next_id (map Campaign.id (campaigns d)) ->
  db_wf (with_campaigns (campaigns d ++ [c]) d).
Proof.
  intros [pk uniq cpk kpk vpk] Hid.
  constructor; cbn [users campaigns candidates votes with_campaigns];
    try assumption.
  rewrite map_app. cbn [map]. apply NoDup_snoc; [ assumption | ].
  rewrite Hid. apply next_id_not_in.
Qed.

Lemma db_wf_update_campaign (d : Db) (i : Z) (f : Campaign.t -> Campaign.t) :
  (forall c, Campaign.id (f c) = Campaign.id c) ->
  db_wf d -> db_wf (with_campaigns (update_campaign i f (campaigns d)) d).
Proof.
  intros Hf [pk uniq cpk kpk vpk].
  constructor; cbn [users campaigns candidates votes with_campaigns];
    try assumption.
  unfold update_campaign. now rewrite map_update_same.
Qed.

Lemma db_wf_delete_campaign (d : Db) (c : Campaign.t) :
  db_wf d -> db_wf (delete_campaign c d).
Proof.
  intros [pk uniq cpk kpk vpk].
  constructor; cbn [users campaigns candidates votes delete_campaign];
    try assumption; now apply NoDup_map_filter.
Qed.

Lemma db_wf_append_candidate (d : Db) (k : Candidate.t) :
  db_wf d -> Candidate.id k = next_id (map Candidate.id (candidates d)) ->
  db_wf (with_candidates (candidates d ++ [k]) d).
Proof.
  intros [pk uniq cpk kpk vpk] Hid.
  constructor; cbn [users campaigns candidates votes with_candidates];
    try assumption.
  rewrite map_app. cbn [map]. apply NoDup_snoc; [ assumption | ].
  rewrite Hid. apply next_id_not_in.
Qed.

Lemma db_wf_update_candidate (d : Db) (i : Z) (f : Candidate.t -> Candidate.t) :
  (forall k, Candidate.id (f k) = Candidate.id k) ->
  db_wf d -> db_wf (with_candidates (update_candidate i f (candidates d)) d).
Proof.
  intros Hf [pk uniq cpk kpk vpk].
  constructor; cbn [users campaigns candidates votes with_candidates];
    try assumption.
  unfold update_candidate. now rewrite map_update_same.
Qed.

Lemma db_wf_delete_candidate (d : Db) (k : Candidate.t) :
  db_wf d -> db_wf (delete_candidate k d).
Proof.
  intros [pk uniq cpk kpk vpk].
  constructor; cbn [users campaigns candidates votes delete_candidate];
    try assumption; now apply NoDup_map_filter.
Qed.

(** Every handler that writes keeps the primary keys distinct and the
    emails of the users distinct, whatever the request: a new row gets an
    id above every id in use, [signup] refuses a registered email, and
    updates keep ids and emails. *)
Theorem handlers_preserve_db_wf
        (H : PasswordHasher) (C : Cipher) (P : IntParser)
        (environ : string -> option string)
        (d : Db) (wf : db_wf d) (sess : option Z) (req : Request)
        (candidate_id now : Z) (salt_pw salt_key nonce : string) :
  db_wf (db (signup d sess req now salt_pw salt_key))
  /\ db_wf (db (cast_vote environ d sess req candidate_id now nonce))
  /\ db_wf (db (admin_voters d sess req))
  /\ db_wf (db (admin_campaigns d sess req now))
  /\ db_wf (db (admin_candidates d sess req)).
Proof.
  split; [| split; [| split; [| split ]]].
  - destruct (signup_cases H d sess req now salt_pw salt_key)
      as (_ & [-> | (u & Hid & Hfree & ->)]); [ exact wf | ].
    now apply db_wf_append_user.
  - destruct (cast_vote_cases environ d sess req candidate_id now nonce)
      as [-> | (cu & k & c & token & _ & _ & ->)]; [ exact wf | ].
    now apply db_wf_append_vote.
  - destruct (admin_voters_cases P d sess req)
      as (_ & [-> | (target & _ & [-> | ->])]); [ exact wf | | ].
    + now apply db_wf_update_user.
    + now apply db_wf_delete_user.
  - destruct (admin_campaigns_cases P d sess req now)
      as (_ & [-> | [(c & _ & Hid & ->) | [(c & n & ds & b & _ & _ & ->)
                | [(c & b & _ & ->) | (c & _ & _ & ->)]]]]).
    + exact wf.
    + now apply db_wf_append_campaign.
    + now apply db_wf_update_campaign.
    + now apply db_wf_update_campaign.
    + now apply db_wf_delete_campaign.
  - destruct (admin_candidates_cases P d sess req)
      as (_ & [-> | [(k & Hid & _ & _ & ->) | [(k & f & _ & Hf & _ & _ & ->)
                | (k & _ & ->)]]]).
    + exact wf.
    + now apply db_wf_append_candidate.
    + now apply db_wf_update_candidate.
    + now apply db_wf_delete_candidate.
Qed.

(** The small election meets the constraints, and still does after the
    sign-up of a new voter. *)
Lemma handlers_preserve_db_wf_witness :
  db_wf Scenario.election
  /\ db_wf (db (signup (hasher:=Reference.hasher) Scenario.election None
                       Scenario.signup_carol 600 "s1" "s2")).
Proof.
  split; [ exact election_wf | ].
  exact (proj1 (handlers_preserve_db_wf Reference.hasher Reference.cipher
                  Reference.parser Reference.environ Scenario.election
                  election_wf None Scenario.signup_carol 0 600 "s1" "s2" "iv")).
Defined.

(** ** Votes keep pointing to rows that exist *)

Lemma votes_linked_step (d d' : Db) :
  votes_linked d ->
  (forall v, In v (votes d') -> In v (votes d)) ->
  (forall v, In v (votes d') -> get_user d (Vote.user_id v) <> None ->
             get_user d' (Vote.user_id v) <> None) ->
  (forall v, In v (votes d') -> get_candidate d (Vote.candidate_id v) <> None ->
             get_candidate d' (Vote.candidate_id v) <> None) ->
  (forall v, In v (votes d') -> get_campaign d (Vote.campaign_id v) <> None ->
             get_campaign d' (Vote.campaign_id v) <> None) ->
  votes_linked d'.
Proof.
  intros linked Hsub Hu Hk Hc v Hv.
  destruct (linked v (Hsub v Hv)) as (Lu & Lk & Lc). auto.
Qed.

Lemma votes_linked_delete_user (d : Db) (u : User.t) :
  votes_linked d -> votes_linked (delete_user u d).
Proof.
  intro linked. apply (votes_linked_step d); auto.
  - intros v Hv. cbn in Hv. now apply filter_In in Hv.
  - intros v Hv Hfound. cbn in Hv. apply filter_In in Hv as (_ & Hv).
    unfold get_user. cbn [users delete_user].
    apply find_filter_found; [| exact Hfound ].
    intros x Hx. apply Z.eqb_eq in Hx. now rewrite Hx.
Qed.

Lemma votes_linked_delete_candidate (d : Db) (k : Candidate.t) :
  votes_linked d -> votes_linked (delete_candidate k d).
Proof.
  intro linked. apply (votes_linked_step d); auto.
  - intros v Hv. cbn in Hv. now apply filter_In in Hv.
  - intros v Hv Hfound. cbn in Hv. apply filter_In in Hv as (_ & Hv).
    unfold get_candidate. cbn [candidates delete_candidate].
    apply find_filter_found; [| exact Hfound ].
    intros x Hx. apply Z.eqb_eq in Hx. now rewrite Hx.
Qed.

Lemma votes_linked_delete_campaign (d : Db) (c : Campaign.t) :
  votes_linked d -> votes_linked (delete_campaign c d).
Proof.
  intro linked. apply (votes_linked_step d); auto.
  - intros v Hv. cbn in Hv. now apply filter_In in Hv.
  - intros v Hv Hfound. cbn in Hv. apply filter_In in Hv as (_ & Hv).
    apply andb_true_iff in Hv as (_ & Hgone).
    unfold get_candidate in *. cbn [candidates delete_campaign].
    destruct (find (fun k => Candidate.id k =? Vote.candidate_id v)
                   (candidates d)) as [k |] eqn:Hk; [| congruence ].
    rewrite (find_filter_keep _ _ _ k Hk); [ discriminate | ].
    destruct (Candidate.campaign_id k =? Campaign.id c) eqn:E;
      [ exfalso | reflexivity ].
    apply negb_true_iff in Hgone. apply not_true_iff_false in Hgone.
    apply Hgone. apply mem_id_true.
    apply find_some in Hk as (Hin & Hid). apply Z.eqb_eq in Hid.
    rewrite <- Hid. apply in_map. unfold campaign_candidates.
    apply filter_In. now split.
  - intros v Hv Hfound. cbn in Hv. apply filter_In in Hv as (_ & Hv).
    apply andb_true_iff in Hv as (Hv & _).
    unfold get_campaign. cbn [campaigns delete_campaign].
    apply find_filter_found; [| exact Hfound ].
    intros x Hx. apply Z.eqb_eq in Hx. now rewrite Hx.
Qed.

Lemma votes_linked_cast_vote (H : PasswordHasher) (C : Cipher)
      (environ : string -> option string) (d : Db) (sess : option Z)
      (req : Request) (candidate_id now : Z) (nonce : string) :
  votes_linked d ->
  votes_linked (db (cast_vote environ d sess req candidate_id now nonce)).
Proof.
  intro linked.
  destruct (cast_vote_cases environ d sess req candidate_id now nonce)
    as [-> | (cu & k & c & token & adm & _ & ->)]; [ exact linked | ].
  intros v Hv. cbn [votes with_votes] in Hv.
  apply in_app_or in Hv as [Hv | [<- | []]]; [ now apply linked | ].
  destruct adm as (Hcu & _ & _ & Hk & Hc & _).
  cbn [new_vote Vote.user_id Vote.candidate_id Vote.campaign_id].
  change (get_user (with_votes _ d)) with (get_user d).
  change (get_candidate (with_votes _ d)) with (get_candidate d).
  change (get_campaign (with_votes _ d)) with (get_campaign d).
  repeat split.
  - pose proof (current_user_session _ _ _ Hcu) as ->. simpl in Hcu.
    congruence.
  - rewrite (get_candidate_id _ _ _ Hk). congruence.
  - rewrite (get_campaign_id _ _ _ Hc). congruence.
Qed.

(** A vote never loses its user, its candidate or its campaign: when
    every vote of the database points to rows that exist, this is still
    so after any request to a handler that writes.  Deleting a user, a
    candidate or a campaign takes the votes along that would be left
    dangling, and [cast_vote] records existing rows only. *)
Theorem handlers_preserve_votes_linked
        (H : PasswordHasher) (C : Cipher) (P : IntParser)
        (environ : string -> option string)
        (d : Db) (linked : votes_linked d) (sess : option Z) (req : Request)
        (candidate_id now : Z) (salt_pw salt_key nonce : string) :
  votes_linked (db (signup d sess req now salt_pw salt_key))
  /\ votes_linked (db (cast_vote environ d sess req candidate_id now nonce))
  /\ votes_linked (db (admin_voters d sess req))
  /\ votes_linked (db (admin_campaigns d sess req now))
  /\ votes_linked (db (admin_candidates d sess req)).
Proof.
  split; [| split; [| split; [| split ]]].
  - destruct (signup_cases H d sess req now salt_pw salt_key)
      as (_ & [-> | (u & _ & _ & ->)]); [ exact linked | ].
    apply (votes_linked_step d); auto.
    intros v _. unfold get_user. cbn [users with_users]. apply find_app_found.
  - now apply votes_linked_cast_vote.
  - destruct (admin_voters_cases P d sess req)
      as (_ & [-> | (target & _ & [-> | ->])]); [ exact linked | | ].
    + apply (votes_linked_step d); auto.
      intros v _. unfold get_user, update_user. cbn [users with_users].
      now apply find_update_found.
    + now apply votes_linked_delete_user.
  - destruct (admin_campaigns_cases P d sess req now)
      as (_ & [-> | [(c & _ & _ & ->) | [(c & n & ds & b & _ & _ & ->)
                | [(c & b & _ & ->) | (c & _ & _ & ->)]]]]).
    + exact linked.
    + apply (votes_linked_step d); auto.
      intros v _. unfold get_campaign. cbn [campaigns with_campaigns].
      apply find_app_found.
    + apply (votes_linked_step d); auto.
      intros v _. unfold get_campaign, update_campaign.
      cbn [campaigns with_campaigns]. now apply find_update_found.
    + apply (votes_linked_step d); auto.
      intros v _. unfold get_campaign, update_campaign.
      cbn [campaigns with_campaigns]. now apply find_update_found.
    + now apply votes_linked_delete_campaign.
  - destruct (admin_candidates_cases P d sess req)
      as (_ & [-> | [(k & _ & _ & _ & ->) | [(k & f & _ & Hf & _ & _ & ->)
                | (k & _ & ->)]]]).
    + exact linked.
    + apply (votes_linked_step d); auto.
      intros v _. unfold get_candidate. cbn [candidates with_candidates].
      apply find_app_found.
    + apply (votes_linked_step d); auto.
      intros v _. unfold get_candidate, update_candidate.
      cbn [candidates with_candidates]. now apply find_update_found.
    + now apply votes_linked_delete_candidate.
Qed.

Lemma election_linked : votes_linked Scenario.election.
Proof.
  intros v [<- | []]. repeat split; discriminate.
Qed.

(** In the small election the first candidate, who holds the one vote, is
    deleted: no vote is left pointing to a missing row. *)
Lemma handlers_preserve_votes_linked_witness :
  votes_linked Scenario.election
  /\ votes (db (admin_candidates (parser:=Reference.parser) Scenario.election
                                 (Some 1) Scenario.delete_johnson)) = []
  /\ votes_linked (db (admin_candidates (parser:=Reference.parser)
                         Scenario.election (Some 1) Scenario.delete_johnson)).
Proof.
  split; [ exact election_linked | split; [ reflexivity | ] ].
  destruct (handlers_preserve_votes_linked Reference.hasher Reference.cipher
              Reference.parser Reference.environ Scenario.election
              election_linked (Some 1) Scenario.delete_johnson 0 0 "" "" "")
    as (_ & _ & _ & _ & kept).
  exact kept.
Defined.

(** ** Any sequence of requests *)

Lemma one_vote_filter (d d' : Db) (q : Vote.t -> bool) :
  votes d' = filter q (votes d) ->
  one_vote_per_campaign d -> one_vote_per_campaign d'.
Proof.
  intros Hv inv u c. specialize (inv u c). unfold votes_of in *. rewrite Hv.
  pose proof (filter_filter_length
                (fun v => (Vote.user_id v =? u) && (Vote.campaign_id v =? c))
                q (votes d)).
  lia.
Qed.

Lemma one_vote_same_votes (d d' : Db) :
  votes d' = votes d -> one_vote_per_campaign d -> one_vote_per_campaign d'.
Proof.
  intros Hv inv u c. specialize (inv u c). unfold votes_of in *.
  now rewrite Hv.
Qed.

Lemma read_only_routes (H : PasswordHasher) (d : Db) (sess : option Z)
      (req : Request) :
  db (index d sess) = d
  /\ db (login d sess req) = d
  /\ db (logout d sess) = d
  /\ db (user_dashboard d sess) = d
  /\ db (admin_dashboard d sess) = d.
Proof.
  repeat split.
  - unfold index. destruct (current_user d sess) as [u |]; [| reflexivity ].
    now destruct (User.is_admin u).
  - unfold login, login_attempt.
    destruct (is_authenticated d sess); [ reflexivity | ].
    destruct (is_POST (method req)); [| reflexivity ].
    destruct (user_by_email d _) as [u |]; [| reflexivity ].
    destruct (User.check_password u _); [| reflexivity ].
    destruct (negb (User.is_admin u) && _); reflexivity.
  - unfold logout, login_required. now destruct (current_user d sess).
  - unfold user_dashboard, login_required.
    destruct (current_user d sess) as [u |]; [| reflexivity ].
    now destruct (User.is_admin u).
  - unfold admin_dashboard, admin_required, login_required.
    destruct (current_user d sess) as [u |]; [| reflexivity ].
    now destruct (negb (User.is_admin u)).
Qed.

(** One request keeps the three invariants of the data. *)
Lemma serve_invariants (H : PasswordHasher) (C : Cipher) (P : IntParser)
      (environ : string -> option string) (d : Db) (sess : option Z)
      (c : Call) :
  db_wf d /\ votes_linked d /\ one_vote_per_campaign d ->
  let d' := db (serve environ d sess c) in
  db_wf d' /\ votes_linked d' /\ one_vote_per_campaign d'.
Proof.
  intros (wf & linked & one).
  destruct c as [| req now salt_pw salt_key | req | | | req cid now nonce |
                 | req | req now | req ]; cbn [serve]; cbv zeta.
  - now rewrite (proj1 (read_only_routes H d sess (mkRequest GET [] []))).
  - destruct (signup_cases H d sess req now salt_pw salt_key)
      as (_ & [-> | (u & Hid & Hfree & ->)]); [ auto | ].
    split; [ now apply db_wf_append_user | split ].
    + apply (votes_linked_step d); auto.
      intros v _. unfold get_user. cbn [users with_users]. apply find_app_found.
    + now apply (one_vote_same_votes d).
  - destruct (read_only_routes H d sess req) as (_ & -> & _). auto.
  - destruct (read_only_routes H d sess (mkRequest GET [] []))
      as (_ & _ & -> & _). auto.
  - destruct (read_only_routes H d sess (mkRequest GET [] []))
      as (_ & _ & _ & -> & _). auto.
  - split; [| split ].
    + destruct (cast_vote_cases environ d sess req cid now nonce)
        as [-> | (cu & k & cm & token & _ & _ & ->)]; [ exact wf | ].
      now apply db_wf_append_vote.
    + now apply votes_linked_cast_vote.
    + now apply cast_vote_preserves_one_vote.
  - destruct (read_only_routes H d sess (mkRequest GET [] []))
      as (_ & _ & _ & _ & ->). auto.
  - destruct (admin_voters_cases P d sess req)
      as (_ & [-> | (target & _ & [-> | ->])]); [ auto | | ].
    + split; [ now apply db_wf_update_user | split ].
      * apply (votes_linked_step d); auto.
        intros v _. unfold get_user, update_user. cbn [users with_users].
        now apply find_update_found.
      * now apply (one_vote_same_votes d).
    + split; [ now apply db_wf_delete_user | split ].
      * now apply votes_linked_delete_user.
      * eapply one_vote_filter; [ reflexivity | exact one ].
  - destruct (admin_campaigns_cases P d sess req now)
      as (_ & [-> | [(cm & _ & Hid & ->) | [(cm & n & ds & b & _ & _ & ->)
                | [(cm & b & _ & ->) | (cm & _ & _ & ->)]]]]).
    + auto.
    + split; [ now apply db_wf_append_campaign | split ].
      * apply (votes_linked_step d); auto.
        intros v _. unfold get_campaign. cbn [campaigns with_campaigns].
        apply find_app_found.
      * now apply (one_vote_same_votes d).
    + split; [ now apply db_wf_update_campaign | split ].
      * apply (votes_linked_step d); auto.
        intros v _. unfold get_campaign, update_campaign.
        cbn [campaigns with_campaigns]. now apply find_update_found.
      * now apply (one_vote_same_votes d).
    + split; [ now apply db_wf_update_campaign | split ].
      * apply (votes_linked_step d); auto.
        intros v _. unfold get_campaign, update_campaign.
        cbn [campaigns with_campaigns]. now apply find_update_found.
      * now apply (one_vote_same_votes d).
    + split; [ now apply db_wf_delete_campaign | split ].
      * now apply votes_linked_delete_campaign.
      * eapply one_vote_filter; [ reflexivity | exact one ].
  - destruct (admin_candidates_cases P d sess req)
      as (_ & [-> | [(k & Hid & _ & _ & ->) | [(k & f & _ & Hf & _ & _ & ->)
                | (k & _ & ->)]]]).
    + auto.
    + split; [ now apply db_wf_append_candidate | split ].
      * apply (votes_linked_step d); auto.
        intros v _. unfold get_candidate. cbn [candidates with_candidates].
        apply find_app_found.
      * now apply (one_vote_same_votes d).
    + split; [ now apply db_wf_update_candidate | split ].
      * apply (votes_linked_step d); auto.
        intros v _. unfold get_candidate, update_candidate.
        cbn [candidates with_candidates]. now apply find_update_found.
      * now apply (one_vote_same_votes d).
    + split; [ now apply db_wf_delete_candidate | split ].
      * now apply votes_linked_delete_candidate.
      * eapply one_vote_filter; [ reflexivity | exact one ].
Qed.

(** Whatever requests arrive, from whichever clients and in whatever
    order, a database that meets the schema's constraints, whose votes
    point to existing rows and that holds at most one vote per user and
    campaign is still such a database afterwards. *)
Theorem serve_all_invariants (H : PasswordHasher) (C : Cipher) (P : IntParser)
        (environ : string -> option string)
        (calls : list (option Z * Call)) (d : Db)
        (wf : db_wf d) (linked : votes_linked d)
        (one : one_vote_per_campaign d) :
  let d' := serve_all environ d calls in
  db_wf d' /\ votes_linked d' /\ one_vote_per_campaign d'.
Proof.
  revert d wf linked one.
  induction calls as [| [sess c] rest IH]; intros d wf linked one; cbn.
  - auto.
  - destruct (serve_invariants H C P environ d sess c (conj wf (conj linked one)))
      as (wf' & linked' & one').
    now apply IH.
Qed.

Lemma election_one_vote : one_vote_per_campaign Scenario.election.
Proof.
  intros u c. unfold votes_of. cbn [votes Scenario.election filter].
  destruct ((Vote.user_id Scenario.ballot =? u)
            && (Vote.campaign_id Scenario.ballot =? c)); simpl; lia.
Qed.

(** In the small election the voter votes in the second campaign, tries
    again, and is then deleted by the primary admin: the invariants hold
    at the end, when no vote is left. *)
Lemma serve_all_invariants_witness :
  db_wf Scenario.election
  /\ votes_linked Scenario.election
  /\ one_vote_per_campaign Scenario.election
  /\ (let d' :=
        serve_all (hasher:=Reference.hasher) (cipher_lib:=Reference.cipher)
                  (parser:=Reference.parser) Reference.environ
                  Scenario.election
                  [(Some 2, call_cast_vote Scenario.ballot_form 3 400 "iv");
                   (Some 2, call_cast_vote Scenario.ballot_form 3 401 "iw");
                   (Some 1, call_admin_voters Scenario.delete_alice)] in
      votes d' = [] /\ one_vote_per_campaign d').
Proof.
  split; [ exact election_wf | ].
  split; [ exact election_linked | ].
  split; [ exact election_one_vote | ].
  split; [ reflexivity | ].
  exact (proj2 (proj2 (serve_all_invariants Reference.hasher Reference.cipher
                         Reference.parser Reference.environ _
                         Scenario.election election_wf election_linked
                         election_one_vote))).
Defined.

(** ** Managing voters *)

Lemma find_update_other {A} (key : A -> Z) (f : A -> A) (i j : Z)
      (l : list A) :
  (forall x, key (f x) = key x) -> i <> j ->
  find (fun x => key x =? i) (map (fun x => if key x =? j then f x else x) l)
  = find (fun x => key x =? i) l.
Proof.
  intros Hkey Hij. induction l as [| a l IH]; simpl; [ reflexivity | ].
  destruct (key a =? j) eqn:Ej.
  - rewrite Hkey. apply Z.eqb_eq in Ej.
    assert (E : (key a =? i) = false) by (apply Z.eqb_neq; congruence).
    now rewrite E.
  - now destruct (key a =? i).
Qed.

Lemma get_by_text_update (P : IntParser) (d : Db) (raw : option string)
      (target : User.t) (f : User.t -> User.t) :
  (forall u, User.id (f u) = User.id u) ->
  get_by_text (get_user d) raw = Some target ->
  get_by_text
    (get_user (with_users (update_user (User.id target) f (users d)) d)) raw
  = Some (f target).
Proof.
  intros Hf. unfold get_by_text. destruct raw as [s |]; [| discriminate ].
  destruct (sql_integer s) as [i |]; [| discriminate ].
  intro Hfound. pose proof Hfound as Hid.
  apply find_some in Hid as (_ & Hid). apply Z.eqb_eq in Hid. subst i.
  unfold get_user, update_user in *. cbn [users with_users].
  rewrite (find_update User.id f) by exact Hf. now rewrite Hfound.
Qed.

(** The [toggle_admin] action on another user flips that user's flag, and
    the same request sent again restores the database: two toggles cancel
    out. *)
Theorem toggle_admin_twice (P : IntParser) (d : Db) (wf : db_wf d)
        (sess : option Z) (req : Request) (cu target : User.t)
        (caller : current_user d sess = Some cu)
        (admin : User.is_admin cu = true)
        (posted : method req = POST)
        (action : multidict_get "action" (form req) = Some "toggle_admin")
        (found : get_by_text (get_user d) (multidict_get "user_id" (form req))
                 = Some target)
        (other : User.id target <> User.id cu) :
  let d1 := db (admin_voters d sess req) in
  get_user d1 (User.id target)
  = Some (User.with_is_admin (negb (User.is_admin target)) target)
  /\ flashes (admin_voters d sess req) = [("User role updated.", success)]
  /\ db (admin_voters d1 sess req) = d.
Proof.
  intro d1.
  assert (toggle : forall d0 t,
            current_user d0 sess = Some cu ->
            get_by_text (get_user d0) (multidict_get "user_id" (form req))
            = Some t ->
            User.id t = User.id target ->
            admin_voters d0 sess req
            = mkOutcome
                (with_users
                   (update_user (User.id target)
                      (User.with_is_admin (negb (User.is_admin t))) (users d0))
                   d0)
                sess [("User role updated.", success)]
                (render_template "admin_voters.html")).
  { intros d0 t Hcu Ht Hid. unfold admin_voters.
    rewrite (admin_required_admin d0 sess cu _ Hcu admin).
    rewrite posted. cbn [is_POST]. rewrite Ht, action.
    apply Z.eqb_neq in other. rewrite Hid, other. reflexivity. }
  pose proof (toggle d target caller found eq_refl) as run.
  assert (Hd1 : d1 = with_users
                       (update_user (User.id target)
                          (User.with_is_admin (negb (User.is_admin target)))
                          (users d)) d)
    by (unfold d1; now rewrite run).
  assert (Hin : In target (users d)).
  { apply get_by_text_found in found as (i & Hi). now apply find_some in Hi. }
  destruct wf as [pk _ _ _ _].
  split; [| split ].
  - rewrite Hd1. unfold get_user, update_user. cbn [users with_users].
    rewrite (find_update User.id) by reflexivity.
    now rewrite (find_key_self User.id (users d) target Hin pk).
  - now rewrite run.
  - rewrite (toggle d1 (User.with_is_admin (negb (User.is_admin target)) target)).
    + cbn [db]. rewrite Hd1.
      cbn [users with_users User.is_admin User.with_is_admin].
      rewrite negb_involutive. destruct d as [us cs ks vs].
      unfold with_users. cbn [users campaigns candidates votes] in *. f_equal.
      unfold update_user. rewrite map_map.
      rewrite <- (map_id us) at 2. apply map_ext_in. intros u Hu.
      destruct (User.id u =? User.id target) eqn:E;
        cbn [User.id User.with_is_admin].
      * rewrite E. apply Z.eqb_eq in E.
        assert (u = target) by now apply (key_injective User.id us).
        subst u. now destruct target.
      * now rewrite E.
    + rewrite Hd1. destruct sess as [i |]; [| discriminate ].
      cbn [current_user] in *. unfold get_user, update_user.
      cbn [users with_users].
      rewrite (find_update_other User.id); [ exact caller | reflexivity | ].
      apply find_some in caller as (_ & Hi). apply Z.eqb_eq in Hi. congruence.
    + rewrite Hd1. now apply get_by_text_update.
    + reflexivity.
Qed.

(** The primary admin of the small election makes the voter an admin and
    takes it back. *)
Lemma toggle_admin_twice_witness :
  db_wf Scenario.election
  /\ get_user (db (admin_voters (parser:=Reference.parser) Scenario.election
                                (Some 1) Scenario.toggle_alice)) 2
     = Some (User.with_is_admin true Scenario.alice)
  /\ db (admin_voters (parser:=Reference.parser)
           (db (admin_voters (parser:=Reference.parser) Scenario.election
                             (Some 1) Scenario.toggle_alice))
           (Some 1) Scenario.toggle_alice)
     = Scenario.election.
Proof.
  split; [ exact election_wf | ].
  destruct (toggle_admin_twice Reference.parser Scenario.election election_wf
              (Some 1) Scenario.toggle_alice Scenario.root Scenario.alice
              eq_refl eq_refl eq_refl eq_refl eq_refl ltac:(discriminate))
    as (flipped & _ & restored).
  split; [ exact flipped | exact restored ].
Defined.

(** The [delete] action on another user removes that user and exactly
    their votes; nothing else changes, and a session of the deleted user
    no longer authenticates. *)
Theorem admin_voters_delete (P : IntParser) (d : Db)
        (sess : option Z) (req : Request) (cu target : User.t)
        (caller : current_user d sess = Some cu)
        (admin : User.is_admin cu = true)
        (posted : method req = POST)
        (action : multidict_get "action" (form req) = Some "delete")
        (found : get_by_text (get_user d) (multidict_get "user_id" (form req))
                 = Some target)
        (other : User.id target <> User.id cu) :
  let out := admin_voters d sess req in
  out = mkOutcome (delete_user target d) sess [("User deleted.", info)]
                  (render_template "admin_voters.html")
  /\ is_authenticated (db out) (Some (User.id target)) = false
  /\ (forall u, In u (users (db out)) <->
                In u (users d) /\ User.id u <> User.id target)
  /\ (forall v, In v (votes (db out)) <->
                In v (votes d) /\ Vote.user_id v <> User.id target)
  /\ campaigns (db out) = campaigns d
  /\ candidates (db out) = candidates d.
Proof.
  intro out.
  assert (run : out = mkOutcome (delete_user target d) sess
                                [("User deleted.", info)]
                                (render_template "admin_voters.html")).
  { unfold out, admin_voters.
    rewrite (admin_required_admin d sess cu _ caller admin).
    rewrite posted. cbn [is_POST]. rewrite found, action.
    apply Z.eqb_neq in other. now rewrite other. }
  rewrite run. cbn [db].
  split; [ reflexivity | split; [| split; [| split; [| split ]]]];
    try reflexivity.
  - unfold is_authenticated, current_user, get_user.
    cbn [users delete_user].
    now rewrite (find_filter_negb (fun u => User.id u =? User.id target)).
  - intro u. cbn [users delete_user].
    rewrite filter_In, negb_true_iff, Z.eqb_neq. reflexivity.
  - intro v. cbn [votes delete_user].
    rewrite filter_In, negb_true_iff, Z.eqb_neq. reflexivity.
Qed.

(** The primary admin of the small election deletes the voter: the vote
    of the voter goes too. *)
Lemma admin_voters_delete_witness :
  current_user Scenario.election (Some 1) = Some Scenario.root
  /\ get_by_text (parser:=Reference.parser) (get_user Scenario.election)
                 (multidict_get "user_id" (form Scenario.delete_alice))
     = Some Scenario.alice
  /\ db (admin_voters (parser:=Reference.parser) Scenario.election (Some 1)
                      Scenario.delete_alice)
     = mkDb [Scenario.root; Scenario.mallory]
            [Scenario.general; Scenario.council]
            [Scenario.johnson; Scenario.smith; Scenario.ruiz] [].
Proof.
  split; [ reflexivity | split; [ reflexivity | ] ].
  destruct (admin_voters_delete Reference.parser Scenario.election (Some 1)
              Scenario.delete_alice Scenario.root Scenario.alice
              eq_refl eq_refl eq_refl eq_refl eq_refl ltac:(discriminate))
    as (run & _).
  now rewrite run.
Defined.

(** ** Managing candidates and campaigns *)

(** The [delete] action of [/admin/candidates] removes the candidate and
    exactly the votes cast for it, whether or not votes exist; users,
    campaigns and the other candidates and votes stay as they are. *)
Theorem admin_candidates_delete (P : IntParser) (d : Db) (sess : option Z)
        (req : Request) (cu : User.t) (first : Campaign.t)
        (rest : list Campaign.t) (candidate : Candidate.t)
        (caller : current_user d sess = Some cu)
        (admin : User.is_admin cu = true)
        (posted : method req = POST)
        (listing : order_by_desc Campaign.created_at (campaigns d)
                   = first :: rest)
        (action : multidict_get "action" (form req) = Some "delete")
        (found : get_by_text (get_candidate d)
                             (multidict_get "candidate_id" (form req))
                 = Some candidate) :
  let out := admin_candidates d sess req in
  db out = delete_candidate candidate d
  /\ flashes out = [("Candidate removed.", info)]
  /\ get_candidate (db out) (Candidate.id candidate) = None
  /\ (forall k, In k (candidates (db out)) <->
                In k (candidates d) /\ Candidate.id k <> Candidate.id candidate)
  /\ (forall v, In v (votes (db out)) <->
                In v (votes d)
                /\ Vote.candidate_id v <> Candidate.id candidate)
  /\ users (db out) = users d
  /\ campaigns (db out) = campaigns d.
Proof.
  intro out.
  assert (run : db out = delete_candidate candidate d
                /\ flashes out = [("Candidate removed.", info)]).
  { unfold out, admin_candidates.
    rewrite (admin_required_admin d sess cu _ caller admin).
    rewrite listing, posted. cbn [is_POST]. cbv zeta. rewrite action, found.
    split; reflexivity. }
  destruct run as (-> & ->).
  split; [ reflexivity | split; [ reflexivity | ] ].
  split; [| split; [| split; [| split ]]]; try reflexivity.
  - unfold get_candidate. cbn [candidates delete_candidate].
    apply (find_filter_negb
             (fun k => Candidate.id k =? Candidate.id candidate)).
  - intro k. cbn [candidates delete_candidate].
    rewrite filter_In, negb_true_iff, Z.eqb_neq. reflexivity.
  - intro v. cbn [votes delete_candidate].
    rewrite filter_In, negb_true_iff, Z.eqb_neq. reflexivity.
Qed.

(** The primary admin of the small election deletes the first candidate:
    the vote it held disappears with it. *)
Lemma admin_candidates_delete_witness :
  current_user Scenario.election (Some 1) = Some Scenario.root
  /\ get_by_text (parser:=Reference.parser) (get_candidate Scenario.election)
                 (multidict_get "candidate_id" (form Scenario.delete_johnson))
     = Some Scenario.johnson
  /\ db (admin_candidates (parser:=Reference.parser) Scenario.election
                          (Some 1) Scenario.delete_johnson)
     = mkDb [Scenario.root; Scenario.alice; Scenario.mallory]
            [Scenario.general; Scenario.council]
            [Scenario.smith; Scenario.ruiz] [].
Proof.
  split; [ reflexivity | split; [ reflexivity | ] ].
  destruct (admin_candidates_delete Reference.parser Scenario.election (Some 1)
              Scenario.delete_johnson Scenario.root Scenario.council
              [Scenario.general] Scenario.johnson
              eq_refl eq_refl eq_refl eq_refl eq_refl eq_refl) as (run & _).
  rewrite run. reflexivity.
Defined.

Lemma campaign_by_name_none (d : Db) (n : string) :
  campaign_by_name d n = None -> ~ In n (map Campaign.name (campaigns d)).
Proof.
  intros Hnone Hin. apply in_map_iff in Hin as (c & <- & Hc).
  pose proof (find_none _ _ Hnone c Hc) as E. cbv beta in E.
  now rewrite String.eqb_refl in E.
Qed.

(** Renaming the row with id [i] to a name that only rows with id [i]
    bear keeps the names distinct. *)
Lemma rename_keeps_names_unique (i : Z) (f : Campaign.t -> Campaign.t)
      (n : string) (l : list Campaign.t) :
  (forall c, Campaign.id (f c) = Campaign.id c) ->
  (forall c, Campaign.name (f c) = n) ->
  NoDup (map Campaign.id l) -> NoDup (map Campaign.name l) ->
  (forall c, In c l -> Campaign.name c = n -> Campaign.id c = i) ->
  NoDup (map Campaign.name
             (map (fun c => if Campaign.id c =? i then f c else c) l)).
Proof.
  intros Hid Hname. induction l as [| a l IH]; intros pk uniq Hn;
    [ constructor | ].
  cbn [map] in *. inversion pk as [| ? ? Hpk pk']; subst.
  inversion uniq as [| ? ? Huniq uniq']; subst.
  constructor.
  - intro Hin. apply in_map_iff in Hin as (y & Hy & Hin).
    apply in_map_iff in Hin as (x & <- & Hx).
    destruct (Campaign.id a =? i) eqn:Ea, (Campaign.id x =? i) eqn:Ex.
    + apply Hpk. apply Z.eqb_eq in Ea, Ex. rewrite Ea, <- Ex. now apply in_map.
    + rewrite Hname in Hy. apply Z.eqb_neq in Ex. apply Ex.
      apply Hn; [ now right | exact Hy ].
    + rewrite Hname in Hy. apply Z.eqb_neq in Ea. apply Ea.
      apply Hn; [ now left | now symmetry ].
    + apply Huniq. rewrite <- Hy. now apply in_map.
  - apply IH; auto. intros c Hc. apply Hn. now right.
Qed.

(** [/admin/campaigns] keeps the campaign names distinct for every
    request: [create] refuses a name in use, [update] cannot give a
    campaign the name of another one, and the other actions keep or drop
    names. *)
Theorem admin_campaigns_names_unique (P : IntParser) (d : Db) (wf : db_wf d)
        (uniq : campaign_names_unique d) (sess : option Z) (req : Request)
        (now : Z) :
  campaign_names_unique (db (admin_campaigns d sess req now)).
Proof.
  unfold campaign_names_unique in *. destruct wf as [_ _ cpk _ _].
  destruct (admin_campaigns_cases P d sess req now)
    as (_ & [-> | [(c & Hfree & _ & ->) | [(c & n & ds & b & _ & Hn & ->)
              | [(c & b & _ & ->) | (c & _ & _ & ->)]]]]).
  - exact uniq.
  - cbn [campaigns with_campaigns]. rewrite map_app. cbn [map].
    apply NoDup_snoc; [ exact uniq | now apply campaign_by_name_none ].
  - cbn [campaigns with_campaigns]. unfold update_campaign.
    now apply (rename_keeps_names_unique _ _ n).
  - cbn [campaigns with_campaigns]. unfold update_campaign.
    now rewrite map_update_same.
  - cbn [campaigns delete_campaign]. now apply NoDup_map_filter.
Qed.

(** The names of the small election are distinct, and stay so when the
    primary admin toggles a campaign. *)
Lemma admin_campaigns_names_unique_witness :
  db_wf Scenario.election
  /\ campaign_names_unique Scenario.election
  /\ campaign_names_unique
       (db (admin_campaigns (parser:=Reference.parser) Scenario.election
                            (Some 1) Scenario.toggle_council 700)).
Proof.
  assert (uniq : campaign_names_unique Scenario.election)
    by (unfold campaign_names_unique; simpl; nodup).
  split; [ exact election_wf | split; [ exact uniq | ] ].
  exact (admin_campaigns_names_unique Reference.parser Scenario.election
           election_wf uniq (Some 1) Scenario.toggle_council 700).
Defined.

(** ** The figures of the admin dashboard *)

(** A recorded vote raises the tally of its candidate by one and leaves
    every other tally as it was; the total number of votes grows by
    one. *)
Theorem cast_vote_tally (H : PasswordHasher) (C : Cipher)
        (environ : string -> option string) (sound : cipher_sound C)
        (d : Db) (sess : option Z) (req : Request) (candidate_id now : Z)
        (nonce : string) (cu : User.t) (candidate : Candidate.t)
        (campaign : Campaign.t)
        (adm : admissible d sess req candidate_id cu candidate campaign)
        (unvoted : votes_of d (User.id cu) (Campaign.id campaign) = []) :
  let d' := db (cast_vote environ d sess req candidate_id now nonce) in
  length (votes d') = S (length (votes d))
  /\ (forall k, tally d' k
                = (tally d k
                   + if (Candidate.id k =? Candidate.id candidate)%Z
                     then 1 else 0)%nat)
  /\ (forall c, map fst (candidate_totals d' c) = map fst (candidate_totals d c)).
Proof.
  intro d'.
  assert (run : exists token,
            d' = with_votes
                   (votes d ++ [new_vote d now cu candidate campaign token]) d).
  { unfold d'.
    rewrite (cast_vote_admissible environ d sess req candidate_id now nonce
                                  _ _ _ adm).
    apply existing_vote_none in unvoted. rewrite unvoted.
    destruct (encrypt_choice_token environ sound nonce (Candidate.name candidate))
      as (token & Htoken & _).
    exists token. now rewrite Htoken. }
  destruct run as (token & ->).
  split; [| split ].
  - cbn [votes with_votes]. rewrite length_app. simpl. lia.
  - intro k. unfold tally. cbn [votes with_votes].
    rewrite filter_app, length_app.
    cbn [filter new_vote Vote.candidate_id].
    rewrite (Z.eqb_sym (Candidate.id candidate) (Candidate.id k)).
    now destruct (Candidate.id k =? Candidate.id candidate).
  - intro c. unfold candidate_totals. rewrite !map_map. reflexivity.
Qed.

(** The second vote of the small election's voter raises the tally of
    Carla Ruiz from 0 to 1. *)
Lemma cast_vote_tally_witness :
  cipher_sound Reference.cipher
  /\ tally Scenario.election Scenario.ruiz = 0%nat
  /\ tally (db (cast_vote (hasher:=Reference.hasher)
                  (cipher_lib:=Reference.cipher) Reference.environ
                  Scenario.election (Some 2) Scenario.ballot_form 3 400 "iv"))
           Scenario.ruiz = 1%nat.
Proof.
  split; [ exact reference_cipher_sound | split; [ reflexivity | ] ].
  destruct (cast_vote_tally Reference.hasher Reference.cipher Reference.environ
              reference_cipher_sound Scenario.election (Some 2)
              Scenario.ballot_form 3 400 "iv" Scenario.alice Scenario.ruiz
              Scenario.council)
    as (_ & counted & _).
  - repeat split.
  - reflexivity.
  - now rewrite counted.
Defined.

(** ** Bootstrap: the default campaign and the backfills *)

(** The default campaign exists after [ensure_default_campaign], which
    returns it; the campaigns that were there are kept, nothing else
    changes, and a second run changes nothing and returns the same
    campaign. *)
Theorem ensure_default_campaign_spec (d : Db) (now : Z) :
  let d1 := fst (ensure_default_campaign d now) in
  let c := snd (ensure_default_campaign d now) in
  campaign_by_name d1 DEFAULT_CAMPAIGN_NAME = Some c
  /\ Campaign.name c = DEFAULT_CAMPAIGN_NAME
  /\ (campaigns d1 = campaigns d \/ campaigns d1 = (campaigns d ++ [c])%list)
  /\ with_campaigns (campaigns d) d1 = d
  /\ (forall later, ensure_default_campaign d1 later = (d1, c)).
Proof.
  unfold ensure_default_campaign.
  destruct (campaign_by_name d DEFAULT_CAMPAIGN_NAME) as [c |] eqn:Hc;
    cbn [fst snd].
  - split; [ exact Hc | split; [| split; [ now left | split ]]].
    + apply find_some in Hc as (_ & E). now apply String.eqb_eq.
    + now destruct d.
    + intro later. now rewrite Hc.
  - set (c := Campaign.mk _ _ _ _ _ _ _).
    assert (Hfound : campaign_by_name (with_campaigns (campaigns d ++ [c]) d)
                                      DEFAULT_CAMPAIGN_NAME = Some c).
    { unfold campaign_by_name. cbn [campaigns with_campaigns].
      apply find_app_last; [ exact Hc | reflexivity ]. }
    split; [ exact Hfound | split; [ reflexivity | split; [ now right | split ]]].
    + now destruct d.
    + intro later. now rewrite Hfound.
Qed.

(** A loop that assigns through each row it selected, reading the value
    from the selected row, is one pass over the table when the keys are
    distinct. *)
Lemma fold_update_each {A} (key : A -> Z) (g : A -> A -> A) (l acc : list A) :
  (forall x r, key (g x r) = key r) ->
  NoDup (map key l) ->
  fold_left
    (fun rows x => map (fun r => if key r =? key x then g x r else r) rows)
    l acc
  = map (fun r => match find (fun x => key x =? key r) l with
                  | Some x => g x r
                  | None => r
                  end) acc.
Proof.
  intros Hkey. revert acc.
  induction l as [| x l IH]; intros acc Hnd; simpl.
  - symmetry. apply map_id.
  - inversion Hnd as [| ? ? Hnotin Hnd']; subst.
    rewrite IH by exact Hnd'. rewrite map_map. apply map_ext. intro r.
    rewrite (Z.eqb_sym (key x) (key r)).
    destruct (key r =? key x) eqn:E.
    + rewrite Hkey. apply Z.eqb_eq in E.
      destruct (find (fun y => key y =? key r) l) as [y |] eqn:Hy;
        [ exfalso | reflexivity ].
      apply find_some in Hy as (Hin & Hk). apply Z.eqb_eq in Hk.
      apply Hnotin. rewrite <- E, <- Hk. now apply in_map.
    + reflexivity.
Qed.

Lemma find_key_filter {A} (key : A -> Z) (p : A -> bool) (l : list A) (r : A) :
  NoDup (map key l) -> In r l ->
  find (fun x => key x =? key r) (filter p l) = if p r then Some r else None.
Proof.
  intros Hnd Hr. destruct (p r) eqn:Hp.
  - apply find_key_self.
    + apply filter_In. now split.
    + now apply NoDup_map_filter.
  - destruct (find (fun x => key x =? key r) (filter p l)) as [y |] eqn:Hy;
      [ exfalso | reflexivity ].
    apply find_some in Hy as (Hin & Hk). apply Z.eqb_eq in Hk.
    apply filter_In in Hin as (Hin & Hpy).
    assert (y = r) by now apply (key_injective key l).
    subst. congruence.
Qed.

Lemma candidate_backfill_map (default : Z) (d : Db) :
  NoDup (map Candidate.id (candidates d)) ->
  ensure_candidate_campaign_column default d
  = with_candidates
      (map (fun k => if Candidate.campaign_id k =? 0
                     then Candidate.with_campaign_id default k else k)
           (candidates d)) d.
Proof.
  intro pk. unfold ensure_candidate_campaign_column, update_candidate.
  f_equal.
  rewrite (fold_update_map Candidate.id (Candidate.with_campaign_id default))
    by reflexivity.
  apply map_ext_in. intros k Hk.
  now rewrite (mem_id_filter Candidate.id).
Qed.

Lemma vote_backfill_map (default : Z) (d : Db) :
  NoDup (map Vote.id (votes d)) ->
  ensure_vote_campaign_column default d
  = with_votes
      (map (fun v => if Vote.campaign_id v =? 0
                     then vote_with_campaign_id (backfilled_campaign d default v) v
                     else v)
           (votes d)) d.
Proof.
  intro pk. unfold ensure_vote_campaign_column, update_vote. f_equal.
  rewrite (fold_update_each Vote.id
             (fun x r => vote_with_campaign_id (backfilled_campaign d default x) r)).
  - apply map_ext_in. intros v Hv.
    rewrite (find_key_filter Vote.id) by assumption.
    now destruct (Vote.campaign_id v =? 0).
  - reflexivity.
  - now apply NoDup_map_filter.
Qed.

Lemma filter_nil {A} (p : A -> bool) (l : list A) :
  (forall x, In x l -> p x = false) -> filter p l = [].
Proof.
  induction l as [| a l IH]; intro Hp; simpl; [ reflexivity | ].
  rewrite (Hp a) by now left. apply IH. intros x Hx. apply Hp. now right.
Qed.

Lemma candidate_backfill_noop (default : Z) (d : Db) :
  (forall k, In k (candidates d) -> Candidate.campaign_id k <> 0) ->
  ensure_candidate_campaign_column default d = d.
Proof.
  intro Hnz. unfold ensure_candidate_campaign_column.
  rewrite filter_nil; [ now destruct d | ].
  intros k Hk. apply Z.eqb_neq. now apply Hnz.
Qed.

Lemma vote_backfill_noop (default : Z) (d : Db) :
  (forall v, In v (votes d) -> Vote.campaign_id v <> 0) ->
  ensure_vote_campaign_column default d = d.
Proof.
  intro Hnz. unfold ensure_vote_campaign_column.
  rewrite filter_nil; [ now destruct d | ].
  intros v Hv. apply Z.eqb_neq. now apply Hnz.
Qed.

Lemma find_map_key {A} (key : A -> Z) (f : A -> A) (i : Z) (l : list A) :
  (forall x, key (f x) = key x) ->
  find (fun x => key x =? i) (map f l)
  = option_map f (find (fun x => key x =? i) l).
Proof.
  intro Hkey. induction l as [| a l IH]; simpl; [ reflexivity | ].
  rewrite Hkey. now destruct (key a =? i).
Qed.

(** The two backfills, run in the order of the bootstrap with a non-zero
    default campaign id, leave no candidate and no vote with campaign id
    zero.  Rows that had a campaign are untouched; a vote without one
    takes the campaign of its candidate when the candidate had one, and
    the default campaign otherwise; users and campaigns do not change; a
    second run of either backfill changes nothing. *)
Theorem campaign_backfill_spec (default : Z) (d : Db) (wf : db_wf d)
        (nonzero : default <> 0) :
  let d1 := ensure_candidate_campaign_column default d in
  let d2 := ensure_vote_campaign_column default d1 in
  (forall k, In k (candidates d2) -> Candidate.campaign_id k <> 0)
  /\ (forall v, In v (votes d2) -> Vote.campaign_id v <> 0)
  /\ (forall k, In k (candidates d) -> Candidate.campaign_id k <> 0 ->
                In k (candidates d2))
  /\ (forall v, In v (votes d) -> Vote.campaign_id v <> 0 -> In v (votes d2))
  /\ (forall v k,
         In v (votes d) -> Vote.campaign_id v = 0 ->
         get_candidate d (Vote.candidate_id v) = Some k ->
         Candidate.campaign_id k <> 0 ->
         In (vote_with_campaign_id (Candidate.campaign_id k) v) (votes d2))
  /\ (forall v,
         In v (votes d) -> Vote.campaign_id v = 0 ->
         get_candidate d (Vote.candidate_id v) = None ->
         In (vote_with_campaign_id default v) (votes d2))
  /\ users d2 = users d
  /\ campaigns d2 = campaigns d
  /\ ensure_candidate_campaign_column default d2 = d2
  /\ ensure_vote_campaign_column default d2 = d2.
Proof.
  intros d1 d2. destruct wf as [_ _ _ kpk vpk].
  set (fill := fun k => if Candidate.campaign_id k =? 0
                        then Candidate.with_campaign_id default k else k).
  assert (Hd1 : d1 = with_candidates (map fill (candidates d)) d)
    by (unfold d1; now apply candidate_backfill_map).
  assert (Hd2 : d2
    = with_votes
        (map (fun v => if Vote.campaign_id v =? 0
                       then vote_with_campaign_id
                              (backfilled_campaign d1 default v) v
                       else v)
             (votes d)) d1).
  { unfold d2. rewrite vote_backfill_map; rewrite Hd1; [ reflexivity | ].
    exact vpk. }
  assert (filled : forall k, Candidate.campaign_id (fill k) <> 0).
  { intro k. unfold fill.
    destruct (Candidate.campaign_id k =? 0) eqn:E; [ exact nonzero | ].
    now apply Z.eqb_neq. }
  assert (lookup : forall i,
            get_candidate d1 i = option_map fill (get_candidate d i)).
  { intro i. rewrite Hd1. unfold get_candidate.
    cbn [candidates with_candidates]. apply find_map_key.
    intro k. unfold fill. now destruct (Candidate.campaign_id k =? 0). }
  assert (target : forall v, backfilled_campaign d1 default v <> 0).
  { intro v. unfold backfilled_campaign. rewrite lookup.
    destruct (get_candidate d (Vote.candidate_id v)) as [k |];
      cbn [option_map]; [| exact nonzero ].
    destruct (Candidate.campaign_id (fill k) =? 0) eqn:E; [ exact nonzero | ].
    now apply Z.eqb_neq. }
  assert (cands : forall k, In k (candidates d2) -> Candidate.campaign_id k <> 0).
  { intros k Hk. rewrite Hd2, Hd1 in Hk.
    cbn [candidates with_votes with_candidates] in Hk.
    apply in_map_iff in Hk as (k0 & <- & _). apply filled. }
  assert (ballots : forall v, In v (votes d2) -> Vote.campaign_id v <> 0).
  { intros v Hv. rewrite Hd2 in Hv. cbn [votes with_votes] in Hv.
    apply in_map_iff in Hv as (v0 & <- & _).
    destruct (Vote.campaign_id v0 =? 0) eqn:E; [ apply target | ].
    now apply Z.eqb_neq. }
  split; [ exact cands | split; [ exact ballots | ] ].
  split; [| split; [| split; [| split; [| split; [| split; [| split ]]]]]].
  - intros k Hk Hnz. rewrite Hd2, Hd1.
    cbn [candidates with_votes with_candidates].
    apply in_map_iff. exists k. split; [| exact Hk ].
    unfold fill. apply Z.eqb_neq in Hnz. now rewrite Hnz.
  - intros v Hv Hnz. rewrite Hd2. cbn [votes with_votes].
    apply in_map_iff. exists v. split; [| exact Hv ].
    apply Z.eqb_neq in Hnz. now rewrite Hnz.
  - intros v k Hv Hzero Hk Hnz. rewrite Hd2. cbn [votes with_votes].
    apply in_map_iff. exists v. split; [| exact Hv ].
    rewrite Hzero. cbn. unfold backfilled_campaign. rewrite lookup, Hk.
    cbn [option_map]. unfold fill. apply Z.eqb_neq in Hnz. now rewrite Hnz, Hnz.
  - intros v Hv Hzero Hk. rewrite Hd2. cbn [votes with_votes].
    apply in_map_iff. exists v. split; [| exact Hv ].
    rewrite Hzero. cbn. unfold backfilled_campaign. now rewrite lookup, Hk.
  - now rewrite Hd2, Hd1.
  - now rewrite Hd2, Hd1.
  - now apply candidate_backfill_noop.
  - now apply vote_backfill_noop.
Qed.

Lemma legacy_wf : db_wf Scenario.legacy.
Proof. constructor; simpl; nodup. Qed.

(** In the legacy database the first vote takes the campaign of its
    candidate, the second one, whose candidate is gone, the default
    campaign, and no row is left without campaign. *)
Lemma campaign_backfill_spec_witness :
  db_wf Scenario.legacy
  /\ 1 <> 0
  /\ (let d2 := ensure_vote_campaign_column 1
                  (ensure_candidate_campaign_column 1 Scenario.legacy) in
      votes d2 = [Vote.mk 1 150 2 2 1 None; Vote.mk 2 160 1 9 1 None]
      /\ forall k, In k (candidates d2) -> Candidate.campaign_id k <> 0).
Proof.
  split; [ exact legacy_wf | split; [ discriminate | ] ].
  split; [ reflexivity | ].
  exact (proj1 (campaign_backfill_spec 1 Scenario.legacy legacy_wf
                  ltac:(discriminate))).
Defined.

(** ** Bootstrap: [setup] *)

Lemma next_id_positive (ids : list Z) :
  (forall i, In i ids -> 0 < i) -> 0 < next_id ids.
Proof.
  destruct ids as [| a rest]; intro Hpos; [ reflexivity | ].
  pose proof (next_id_fresh (a :: rest) a (or_introl eq_refl)).
  specialize (Hpos a (or_introl eq_refl)). lia.
Qed.

Lemma enforce_only_users (d : Db) :
  campaigns (fst (enforce_primary_admin d)) = campaigns d
  /\ candidates (fst (enforce_primary_admin d)) = candidates d
  /\ votes (fst (enforce_primary_admin d)) = votes d.
Proof.
  unfold enforce_primary_admin.
  destruct (user_by_email d primary_email) as [p |]; [| now repeat split ].
  destruct (fold_left _ _ _) as [us changes].
  destruct (negb (User.is_admin p)); now repeat split.
Qed.

Lemma normalized_users_wf (d : Db) :
  db_wf d -> db_wf (with_users (map normalized (users d)) d).
Proof.
  intros [pk uniq cpk kpk vpk].
  constructor; cbn [users campaigns candidates votes with_users];
    try assumption; rewrite map_map.
  - erewrite map_ext; [ exact pk | reflexivity ].
  - erewrite map_ext; [ exact uniq | reflexivity ].
Qed.

Lemma enforce_preserves_db_wf (d : Db) :
  db_wf d -> db_wf (fst (enforce_primary_admin d)).
Proof.
  intro wf.
  destruct (user_by_email d primary_email) as [p |] eqn:Hp.
  - rewrite (enforce_primary_admin_found d p wf Hp). cbn [fst].
    now apply normalized_users_wf.
  - unfold enforce_primary_admin. now rewrite Hp.
Qed.

Lemma enforce_primary_admin_again (d : Db) :
  db_wf d ->
  enforce_primary_admin (fst (enforce_primary_admin d))
  = (fst (enforce_primary_admin d), false).
Proof.
  intro wf.
  destruct (user_by_email d primary_email) as [p |] eqn:Hp.
  - rewrite (enforce_primary_admin_found d p wf Hp). cbn [fst].
    set (d1 := with_users (map normalized (users d)) d).
    assert (wf1 : db_wf d1) by now apply normalized_users_wf.
    destruct (user_by_email d1 primary_email) as [q |] eqn:Hq.
    + rewrite (enforce_primary_admin_found d1 q wf1 Hq). f_equal.
      * unfold d1, with_users. cbn [users campaigns candidates votes].
        f_equal. rewrite map_map. apply map_ext. intro u. now destruct u.
      * apply negb_false_iff. apply forallb_forall. intros u Hu.
        unfold d1 in Hu. cbn [users with_users] in Hu.
        apply in_map_iff in Hu as (u0 & <- & _). cbn.
        now destruct (String.eqb (User.email u0) primary_email).
    + unfold enforce_primary_admin. now rewrite Hq.
  - unfold enforce_primary_admin. rewrite Hp. cbn [fst]. now rewrite Hp.
Qed.

(** A database that has the default campaign, a candidate, and no row
    without campaign. *)
Lemma setup_settled (d : Db) (c : Campaign.t) (now : Z) :
  campaign_by_name d DEFAULT_CAMPAIGN_NAME = Some c ->
  (forall k, In k (candidates d) -> Candidate.campaign_id k <> 0) ->
  (forall v, In v (votes d) -> Vote.campaign_id v <> 0) ->
  candidates d <> [] ->
  setup d now = fst (enforce_primary_admin d).
Proof.
  intros Hc Hk Hv Hne.
  unfold setup, ensure_campaign_infrastructure, ensure_default_campaign.
  rewrite Hc. rewrite candidate_backfill_noop by exact Hk.
  rewrite vote_backfill_noop by exact Hv.
  destruct (candidates d); [ contradiction | reflexivity ].
Qed.

Lemma backfill_facts (default : Z) (d : Db) :
  db_wf d -> default <> 0 ->
  let d2 := ensure_vote_campaign_column default
              (ensure_candidate_campaign_column default d) in
  db_wf d2
  /\ (forall k, In k (candidates d2) -> Candidate.campaign_id k <> 0)
  /\ (forall v, In v (votes d2) -> Vote.campaign_id v <> 0)
  /\ users d2 = users d
  /\ campaigns d2 = campaigns d
  /\ (candidates d = [] -> candidates d2 = []).
Proof.
  intros wf nonzero d2. pose proof wf as [pk uniq cpk kpk vpk].
  unfold d2. rewrite (candidate_backfill_map default d kpk).
  rewrite vote_backfill_map by exact vpk.
  cbn [users campaigns candidates votes with_candidates with_votes].
  assert (target : forall d1 v, (forall k, In k (candidates d1) ->
                                      Candidate.campaign_id k <> 0) ->
                          backfilled_campaign d1 default v <> 0).
  { intros d1 v Hk. unfold backfilled_campaign.
    destruct (get_candidate d1 (Vote.candidate_id v)) as [k |] eqn:E;
      [| exact nonzero ].
    apply find_some in E as (Hin & _). specialize (Hk k Hin).
    apply Z.eqb_neq in Hk. rewrite Hk. now apply Z.eqb_neq. }
  assert (filled : forall k,
    In k (map (fun k => if Candidate.campaign_id k =? 0
                        then Candidate.with_campaign_id default k else k)
              (candidates d)) ->
    Candidate.campaign_id k <> 0).
  { intros k Hk. apply in_map_iff in Hk as (k0 & <- & _).
    destruct (Candidate.campaign_id k0 =? 0) eqn:E; [ exact nonzero | ].
    now apply Z.eqb_neq. }
  split; [| split; [ exact filled | split; [| split; [| split ]]]];
    try reflexivity.
  - constructor;
      cbn [users campaigns candidates votes with_candidates with_votes];
      try assumption.
    + rewrite map_map. erewrite map_ext; [ exact kpk | ].
      intro k. now destruct (Candidate.campaign_id k =? 0).
    + rewrite map_map. erewrite map_ext; [ exact vpk | ].
      intro v. now destruct (Vote.campaign_id v =? 0).
  - intros v Hv. apply in_map_iff in Hv as (v0 & <- & _).
    destruct (Vote.campaign_id v0 =? 0) eqn:E.
    + cbn. apply target. exact filled.
    + now apply Z.eqb_neq.
  - intros ->. reflexivity.
Qed.

Lemma seed_candidates_facts (c : Campaign.t) (d : Db) :
  db_wf d -> candidates d = [] -> Campaign.id c <> 0 ->
  let d3 := seed_candidates c d in
  db_wf d3
  /\ map Candidate.name (candidates d3)
     = ["Alice Johnson"; "Brian Smith"; "Carla Ruiz"]
  /\ (forall k, In k (candidates d3) ->
                Candidate.campaign_id k = Campaign.id c)
  /\ users d3 = users d /\ campaigns d3 = campaigns d /\ votes d3 = votes d.
Proof.
  intros [pk uniq cpk kpk vpk] Hempty Hnz d3.
  destruct d as [us cs ks vs]. cbn [candidates] in Hempty. subst ks.
  unfold d3, seed_candidates, add_candidate. cbn.
  split; [| split; [ reflexivity | split; [| now repeat split ]]].
  - constructor; cbn; try assumption. nodup.
  - intros k [<- | [<- | [<- | []]]]; reflexivity.
Qed.

(** What [setup] does on a database that meets the schema's constraints
    and whose campaign ids are positive: it is the primary-admin routine
    applied to a database that has the default campaign, at least one
    candidate and no row without campaign, with the users of the
    start. *)
Lemma setup_reaches (d : Db) (now : Z) :
  db_wf d -> campaign_ids_positive d ->
  exists d3 c,
    setup d now = fst (enforce_primary_admin d3)
    /\ db_wf d3
    /\ campaign_by_name d3 DEFAULT_CAMPAIGN_NAME = Some c
    /\ (forall k, In k (candidates d3) -> Candidate.campaign_id k <> 0)
    /\ (forall v, In v (votes d3) -> Vote.campaign_id v <> 0)
    /\ candidates d3 <> []
    /\ users d3 = users d
    /\ (candidates d = [] ->
        map Candidate.name (candidates d3)
        = ["Alice Johnson"; "Brian Smith"; "Carla Ruiz"]
        /\ forall k, In k (candidates d3) ->
                     Candidate.campaign_id k = Campaign.id c).
Proof.
  intros wf pos.
  assert (default : exists d0 c,
            ensure_default_campaign d now = (d0, c)
            /\ db_wf d0 /\ 0 < Campaign.id c
            /\ campaign_by_name d0 DEFAULT_CAMPAIGN_NAME = Some c
            /\ users d0 = users d /\ candidates d0 = candidates d).
  { unfold ensure_default_campaign.
    destruct (campaign_by_name d DEFAULT_CAMPAIGN_NAME) as [c |] eqn:Hc.
    - exists d, c.
      split; [ reflexivity | split; [ exact wf | split ] ];
        [| split; [ exact Hc | split; reflexivity ] ].
      apply pos. now apply find_some in Hc.
    - eexists _, _. split; [ reflexivity | ].
      split; [ now apply db_wf_append_campaign | ].
      split; [| split; [| now split ] ].
      + cbn. apply next_id_positive. intros i Hi.
        apply in_map_iff in Hi as (x & <- & Hx). now apply pos.
      + unfold campaign_by_name. cbn [campaigns with_campaigns].
        apply find_app_last; [ exact Hc | reflexivity ]. }
  destruct default as (d0 & c & Hrun & wf0 & Hpos & Hfound & Husers & Hcands).
  assert (Hnz : Campaign.id c <> 0) by lia.
  destruct (backfill_facts (Campaign.id c) d0 wf0 Hnz)
    as (wf2 & Hk & Hv & Hu2 & Hc2 & Hempty).
  set (d2 := ensure_vote_campaign_column (Campaign.id c)
               (ensure_candidate_campaign_column (Campaign.id c) d0)) in *.
  assert (Hfound2 : campaign_by_name d2 DEFAULT_CAMPAIGN_NAME = Some c)
    by (unfold campaign_by_name; rewrite Hc2; exact Hfound).
  assert (unfolded : setup d now
    = fst (enforce_primary_admin
             match candidates d2 with
             | [] => seed_candidates c d2
             | _ :: _ => d2
             end)).
  { unfold setup, ensure_campaign_infrastructure. rewrite Hrun. reflexivity. }
  destruct (candidates d2) as [| k ks] eqn:Hks.
  - destruct (seed_candidates_facts c d2 wf2 Hks Hnz)
      as (wf3 & Hnames & Hassigned & Hu3 & Hc3 & Hv3).
    exists (seed_candidates c d2), c.
    split; [ exact unfolded | split; [ exact wf3 | ] ].
    split; [ unfold campaign_by_name; rewrite Hc3; exact Hfound2 | ].
    split; [ intros x Hx; rewrite (Hassigned x Hx); exact Hnz | ].
    split; [ intros v Hv'; rewrite Hv3 in Hv'; now apply Hv | ].
    split; [| split; [ congruence | now split ] ].
    intro Hnil. rewrite Hnil in Hnames. discriminate.
  - exists d2, c.
    split; [ exact unfolded | split; [ exact wf2 | ] ].
    split; [ exact Hfound2 | ].
    rewrite Hks.
    split; [ exact Hk | split; [ exact Hv | ] ].
    split; [ discriminate | split; [ congruence | ] ].
    intro Hnil. rewrite Hcands in Hempty. specialize (Hempty Hnil).
    discriminate.
Qed.

(** The bootstrap on a database that meets the schema's constraints and
    whose campaign ids are positive: afterwards the constraints still
    hold, the campaign "General Election" exists, there is at least one
    candidate (the three seeded ones, in the default campaign, when there
    was none), no candidate and no vote is without campaign, and, when
    the user "1@gmail.com" exists, that user and no other is admin.
    Running the bootstrap again, at any later time, changes nothing. *)
Theorem setup_spec (d : Db) (now : Z) (wf : db_wf d)
        (positive : campaign_ids_positive d) :
  let d' := setup d now in
  db_wf d'
  /\ (exists c, campaign_by_name d' DEFAULT_CAMPAIGN_NAME = Some c
                /\ (candidates d = [] ->
                    map Candidate.name (candidates d')
                    = ["Alice Johnson"; "Brian Smith"; "Carla Ruiz"]
                    /\ forall k, In k (candidates d') ->
                                 Candidate.campaign_id k = Campaign.id c))
  /\ candidates d' <> []
  /\ (forall k, In k (candidates d') -> Candidate.campaign_id k <> 0)
  /\ (forall v, In v (votes d') -> Vote.campaign_id v <> 0)
  /\ (forall p, user_by_email d primary_email = Some p ->
                forall u, In u (users d') ->
                          (User.is_admin u = true
                           <-> User.email u = primary_email))
  /\ (forall later, setup d' later = d').
Proof.
  intro d'.
  destruct (setup_reaches d now wf positive)
    as (d3 & c & run & wf3 & Hc & Hk & Hv & Hne & Hu & Hseed).
  destruct (enforce_only_users d3) as (Ecs & Eks & Evs).
  unfold d'. rewrite run.
  set (d4 := fst (enforce_primary_admin d3)) in *.
  assert (Hc4 : campaign_by_name d4 DEFAULT_CAMPAIGN_NAME = Some c)
    by (unfold campaign_by_name; rewrite Ecs; exact Hc).
  split; [ now apply enforce_preserves_db_wf | ].
  split; [ exists c; split; [ exact Hc4 | rewrite Eks; exact Hseed ] | ].
  split; [ now rewrite Eks | ].
  split; [ now rewrite Eks | ].
  split; [ now rewrite Evs | ].
  split.
  - intros p Hp u Hin.
    assert (Hp3 : user_by_email d3 primary_email = Some p)
      by (unfold user_by_email; rewrite Hu; exact Hp).
    unfold d4 in Hin. rewrite (enforce_primary_admin_found d3 p wf3 Hp3) in Hin.
    cbn [fst users with_users] in Hin.
    apply in_map_iff in Hin as (u0 & <- & _). cbn.
    split; intro E; now apply String.eqb_eq.
  - intro later. rewrite (setup_settled d4 c later Hc4).
    + unfold d4. now rewrite enforce_primary_admin_again.
    + now rewrite Eks.
    + now rewrite Evs.
    + now rewrite Eks.
Qed.

Lemma bare_wf : db_wf Scenario.bare.
Proof. constructor; simpl; nodup. Qed.

(** The bootstrap of a database that holds users only: the default
    campaign and the three candidates appear, and of the two admin flags
    only the one of "1@gmail.com" remains. *)
Lemma setup_spec_witness :
  db_wf Scenario.bare
  /\ campaign_ids_positive Scenario.bare
  /\ setup Scenario.bare 50
     = mkDb [Scenario.alice; User.with_is_admin false Scenario.mallory;
             Scenario.root]
            [Campaign.mk 1 "General Election"
                         (Some "Default campaign created automatically.")
                         true None None 50]
            [Candidate.mk 1 "Alice Johnson" (Some "Transparency and trust.") 1;
             Candidate.mk 2 "Brian Smith" (Some "Innovation in voting.") 1;
             Candidate.mk 3 "Carla Ruiz" (Some "Community-first approach.") 1]
            []
  /\ setup (setup Scenario.bare 50) 60 = setup Scenario.bare 50.
Proof.
  assert (pos : campaign_ids_positive Scenario.bare) by (intros c []).
  split; [ exact bare_wf | split; [ exact pos | split; [ reflexivity | ] ] ].
  destruct (setup_spec Scenario.bare 50 bare_wf pos)
    as (_ & _ & _ & _ & _ & _ & again).
  exact (again 60).
Defined.

(** ** The selected campaign *)







